(** * Pairing server: a shallow embedding of [src/server.js]

    The development follows the source file top-down: the JavaScript
    primitives the program relies on, the configuration block, the global
    state, the code generators, the phone normaliser, the connection
    manager, the pairing registry and finally the two POST endpoints.

    Conventions.
    - A JavaScript string is a [string]; a character is one code unit below
      256.  Numbers that the program only uses as integers are [Z].
    - [pairingCodes] (a JavaScript [Map] keyed by the code) is a
      [gmap string PairingRecord].
    - Every handler runs to completion on the event loop, so one activation
      is one atomic state transformer; [clock] is the value [Date.now()]
      returns during that activation.
    - [Math.random] and [crypto.randomBytes] are oracles stored in the
      world: an infinite supply of draws and a read position.
    - The body of an HTTP response is the JSON text [res.json] writes: a
      property whose value is [undefined] is not in it.
    - The files of [auth_info/] are part of the world, with the error
      [fs.unlinkSync] throws on each of them, if it does. *)

From Stdlib Require Import ZArith Lia Bool List Ascii String.
From Stdlib.Strings Require Import Byte.
From stdpp Require Import base option gmap strings list fin_maps pretty.

Open Scope string_scope.
Open Scope Z_scope.

(** ** JavaScript primitives *)

Module Js.

(** [/[A-Z]/], [/[0-9]/] and [/[a-z]/] on one code unit. *)
Definition is_upper (c : ascii) : bool :=
  let n := N_of_ascii c in (65 <=? n)%N && (n <=? 90)%N.

Definition is_digit (c : ascii) : bool :=
  let n := N_of_ascii c in (48 <=? n)%N && (n <=? 57)%N.

Definition is_lower (c : ascii) : bool :=
  let n := N_of_ascii c in (97 <=? n)%N && (n <=? 122)%N.

(** [\D]. *)
Definition is_non_digit (c : ascii) : bool := negb (is_digit c).

(** The white space [String.prototype.trim] removes, among code units
    below 256: TAB, LF, VT, FF, CR, SP and NBSP. *)
Definition is_trim_space (c : ascii) : bool :=
  let n := N_of_ascii c in
  ((9 <=? n)%N && (n <=? 13)%N) || (n =? 32)%N || (n =? 160)%N.

Fixpoint any (p : ascii -> bool) (s : string) : bool :=
  match s with
  | EmptyString => false
  | String c s' => p c || any p s'
  end.

Fixpoint all (p : ascii -> bool) (s : string) : bool :=
  match s with
  | EmptyString => true
  | String c s' => p c && all p s'
  end.

(** [s.replace(/p/g, '')] for a pattern [p] matching one code unit. *)
Fixpoint remove_all (p : ascii -> bool) (s : string) : string :=
  match s with
  | EmptyString => EmptyString
  | String c s' => if p c then remove_all p s' else String c (remove_all p s')
  end.

Definition len (s : string) : Z := Z.of_nat (String.length s).

(** [s.charAt(i)]: the empty string out of range. *)
Definition charAt (s : string) (i : Z) : string :=
  if i <? 0 then ""
  else match String.get (Z.to_nat i) s with
       | Some c => String c ""
       | None => ""
       end.

(** [s[i]]: [undefined] (here [None]) out of range or when the index is
    [NaN] (here [None]). *)
Definition at_index (s : string) (i : option Z) : option ascii :=
  match i with
  | Some i => if i <? 0 then None else String.get (Z.to_nat i) s
  | None => None
  end.

(** [code += x] where [x] may be [undefined]. *)
Definition append_elem (code : string) (x : option ascii) : string :=
  match x with
  | Some c => code ++ String c ""
  | None => code ++ "undefined"
  end.

(** [s.substring(a, b)]: both ends clamped to [0, length], swapped when
    [a > b]. *)
Definition substring (s : string) (a b : Z) : string :=
  let a' := Z.to_nat a in
  let b' := Z.to_nat b in
  let lo := Nat.min a' b' in
  let hi := Nat.max a' b' in
  String.substring lo (hi - lo) s.

(** [s.substring(a)]. *)
Definition substring_from (s : string) (a : Z) : string :=
  substring s a (len s).

Fixpoint drop_while (p : ascii -> bool) (s : string) : string :=
  match s with
  | EmptyString => EmptyString
  | String c s' => if p c then drop_while p s' else s
  end.

(** [s.trim()]. *)
Definition trim (s : string) : string :=
  String.rev (drop_while is_trim_space (String.rev (drop_while is_trim_space s))).

(** [s.replace(p, r)] with a string pattern: the first occurrence only. *)
Fixpoint replace_first (p r s : string) : string :=
  if String.prefix p s then r ++ String.substring (String.length p) (String.length s) s
  else match s with
       | EmptyString => EmptyString
       | String c s' => String c (replace_first p r s')
       end.

Fixpoint ends_with (suffix s : string) : bool :=
  if String.eqb suffix s then true
  else match s with
       | EmptyString => false
       | String _ s' => ends_with suffix s'
       end.

Definition to_upper_char (c : ascii) : ascii :=
  if is_lower c then ascii_of_N (N_of_ascii c - 32) else c.

Fixpoint toUpperCase (s : string) : string :=
  match s with
  | EmptyString => EmptyString
  | String c s' => String (to_upper_char c) (toUpperCase s')
  end.

(** Hexadecimal digits, as [Buffer.toString('hex')] writes them and as
    [parseInt(_, 16)] reads them. *)
Definition hex_digit (n : nat) : ascii :=
  match String.get n "0123456789abcdef" with
  | Some c => c
  | None => "0"%char
  end.

Definition hex_of_byte (b : byte) : string :=
  let n := Byte.to_nat b in
  String (hex_digit (n / 16)) (String (hex_digit (n mod 16)) "").

Definition toString_hex (bs : list byte) : string :=
  fold_right (fun b acc => hex_of_byte b ++ acc) "" bs.

Definition hex_value (c : ascii) : option Z :=
  let n := Z.of_N (N_of_ascii c) in
  if is_digit c then Some (n - 48)
  else if (97 <=? n) && (n <=? 102) then Some (n - 87)
  else if (65 <=? n) && (n <=? 70) then Some (n - 55)
  else None.

Fixpoint parse_hex_prefix (s : string) (acc : option Z) : option Z :=
  match s with
  | EmptyString => acc
  | String c s' =>
      match hex_value c with
      | Some d => parse_hex_prefix s' (Some (16 * default 0 acc + d))
      | None => acc
      end
  end.

(** [parseInt(s, 16)] on an unsigned string without prefix: the value of
    the longest leading run of hexadecimal digits, [NaN] (here [None])
    when there is none. *)
Definition parseInt16 (s : string) : option Z := parse_hex_prefix s None.

(** [a % b] on numbers, [NaN] propagating. *)
Definition rem (a : option Z) (b : Z) : option Z :=
  match a with
  | Some a => if b =? 0 then None else Some (Z.rem a b)
  | None => None
  end.

(** Values that cross the HTTP boundary as JSON. *)
Inductive value : Type :=
| Undefined
| Null
| Bool (b : bool)
| Num (n : Z)
| Str (s : string)
| Date (ms : Z)
| Obj.

Definition truthy (v : value) : bool :=
  match v with
  | Undefined | Null => false
  | Bool b => b
  | Num n => negb (n =? 0)
  | Str s => negb (String.eqb s "")
  | Date _ | Obj => true
  end.

(** A parsed JSON object, fields in order. *)
Definition object := list (string * value).

Fixpoint field (k : string) (o : object) : value :=
  match o with
  | [] => Undefined
  | (k', v) :: o' => if String.eqb k k' then v else field k o'
  end.

Definition is_undefined (v : value) : bool :=
  match v with
  | Undefined => true
  | _ => false
  end.

(** [JSON.stringify] on an object, which [res.json] applies to its
    argument: a property whose value is [undefined] is left out, the others
    are written in order. *)
Definition stringify (o : object) : object :=
  List.filter (fun kv => negb (is_undefined (snd kv))) o.

End Js.

(** ** MD5 (RFC 1321), the digest behind [crypto.createHash('md5')]

    The program only relies on the digest having sixteen bytes; the
    function itself is here so that the examples compute the display codes
    the server would show. *)

Module MD5.

Definition mask : Z := 0xffffffff.

Definition w32 (x : Z) : Z := Z.land x mask.

Definition rotl (x c : Z) : Z :=
  w32 (Z.lor (Z.shiftl x c) (Z.shiftr x (32 - c))).

Definition shifts : list Z :=
  [7; 12; 17; 22; 7; 12; 17; 22; 7; 12; 17; 22; 7; 12; 17; 22;
   5; 9; 14; 20; 5; 9; 14; 20; 5; 9; 14; 20; 5; 9; 14; 20;
   4; 11; 16; 23; 4; 11; 16; 23; 4; 11; 16; 23; 4; 11; 16; 23;
   6; 10; 15; 21; 6; 10; 15; 21; 6; 10; 15; 21; 6; 10; 15; 21].

Definition sines : list Z :=
  [0xd76aa478; 0xe8c7b756; 0x242070db; 0xc1bdceee;
   0xf57c0faf; 0x4787c62a; 0xa8304613; 0xfd469501;
   0x698098d8; 0x8b44f7af; 0xffff5bb1; 0x895cd7be;
   0x6b901122; 0xfd987193; 0xa679438e; 0x49b40821;
   0xf61e2562; 0xc040b340; 0x265e5a51; 0xe9b6c7aa;
   0xd62f105d; 0x02441453; 0xd8a1e681; 0xe7d3fbc8;
   0x21e1cde6; 0xc33707d6; 0xf4d50d87; 0x455a14ed;
   0xa9e3e905; 0xfcefa3f8; 0x676f02d9; 0x8d2a4c8a;
   0xfffa3942; 0x8771f681; 0x6d9d6122; 0xfde5380c;
   0xa4beea44; 0x4bdecfa9; 0xf6bb4b60; 0xbebfbc70;
   0x289b7ec6; 0xeaa127fa; 0xd4ef3085; 0x04881d05;
   0xd9d4d039; 0xe6db99e5; 0x1fa27cf8; 0xc4ac5665;
   0xf4292244; 0x432aff97; 0xab9423a7; 0xfc93a039;
   0x655b59c3; 0x8f0ccc92; 0xffeff47d; 0x85845dd1;
   0x6fa87e4f; 0xfe2ce6e0; 0xa3014314; 0x4e0811a1;
   0xf7537e82; 0xbd3af235; 0x2ad7d2bb; 0xeb86d391].

(** Little-endian words and bytes. *)
Fixpoint words (n : nat) (bs : list Z) : list Z :=
  match n, bs with
  | S n', b0 :: b1 :: b2 :: b3 :: bs' =>
      (b0 + 256 * b1 + 65536 * b2 + 16777216 * b3) :: words n' bs'
  | _, _ => []
  end.

Definition bytes_of_word (x : Z) : list Z :=
  [x mod 256; (x / 256) mod 256; (x / 65536) mod 256; (x / 16777216) mod 256].

Definition padding (len : nat) : list Z :=
  let bits := 8 * Z.of_nat len in
  ((0x80 :: repeat 0 ((119 - len mod 64) mod 64))
   ++ bytes_of_word (bits mod 2 ^ 32)
   ++ bytes_of_word ((bits / 2 ^ 32) mod 2 ^ 32))%list.

Definition state : Type := Z * Z * Z * Z.

Definition init : state := (0x67452301, 0xefcdab89, 0x98badcfe, 0x10325476).

Definition step (M : list Z) (st : state) (i : Z) : state :=
  let '(a, b, c, d) := st in
  let '(f, g) :=
    if i <? 16 then (Z.lor (Z.land b c) (Z.land (Z.lxor b mask) d), i)
    else if i <? 32 then (Z.lor (Z.land d b) (Z.land (Z.lxor d mask) c), (5 * i + 1) mod 16)
    else if i <? 48 then (Z.lxor b (Z.lxor c d), (3 * i + 5) mod 16)
    else (Z.lxor c (Z.lor b (Z.lxor d mask)), (7 * i) mod 16) in
  let f' := w32 (f + a + nth (Z.to_nat i) sines 0 + nth (Z.to_nat g) M 0) in
  (d, w32 (b + rotl f' (nth (Z.to_nat i) shifts 0)), b, c).

Definition compress (st : state) (block : list Z) : state :=
  let '(a0, b0, c0, d0) := st in
  let '(a, b, c, d) := fold_left (step (words 16 block)) (map Z.of_nat (seq 0 64)) st in
  (w32 (a0 + a), w32 (b0 + b), w32 (c0 + c), w32 (d0 + d)).

Fixpoint blocks (n : nat) (bs : list Z) (st : state) : state :=
  match n with
  | O => st
  | S n' => blocks n' (drop 64 bs) (compress st (take 64 bs))
  end.

Definition byte_of_Z (z : Z) : byte :=
  default x00 (Byte.of_N (Z.to_N (z mod 256))).

Definition Z_of_byte (b : byte) : Z := Z.of_N (Byte.to_N b).

Definition digest (s : string) : list byte :=
  let msg := map Z_of_byte (list_byte_of_string s) in
  let padded := (msg ++ padding (length msg))%list in
  let '(a, b, c, d) := blocks (length padded / 64) padded init in
  map byte_of_Z
      (bytes_of_word a ++ bytes_of_word b ++ bytes_of_word c ++ bytes_of_word d)%list.

End MD5.

(** ** Configuration (source lines 26-50) *)

Module CONFIG.
Definition COMPANY_NAME : string := "IAN TECH".
Definition SESSION_PREFIX : string := "IAN_TECH".
Definition CODE_LENGTH : Z := 8.
Definition CODE_EXPIRY_MINUTES : Z := 10.
Definition COMPANY_CONTACT : string := "+254723278526".
Definition VERSION : string := "3.0.0".
Definition AUTO_ACTIVATED : bool := true.
End CONFIG.

Definition MAX_AUTO_ACTIVATION_ATTEMPTS : Z := 3.

(** ** Data model *)

(** The object stored under a code by [generateNewPairingCode].  [status]
    is the string the program compares with ['pending']. *)
Record PairingRecord : Type := mkPairingRecord {
  code : string;
  displayCode : string;
  phoneNumber : option string;
  country : option string;
  sessionId : string;
  status : string;
  createdAt : Z;
  expiresAt : Z;
  linkedAt : option Z;
  linkedTo : option string;
  qrData : option string;
  qrImage : option string;
  attempts : Z;
  generatedBy : string
}.

(** [data.status = 'linked'; data.linkedAt = new Date()]. *)
Definition mark_linked (now : Z) (data : PairingRecord) : PairingRecord :=
  {| code := code data;
     displayCode := displayCode data;
     phoneNumber := phoneNumber data;
     country := country data;
     sessionId := sessionId data;
     status := "linked";
     createdAt := createdAt data;
     expiresAt := expiresAt data;
     linkedAt := Some now;
     linkedTo := linkedTo data;
     qrData := qrData data;
     qrImage := qrImage data;
     attempts := attempts data;
     generatedBy := generatedBy data |}.

(** The JSON object written to [auth_info/active_session.json]. *)
Record SessionInfo : Type := mkSessionInfo {
  si_createdAt : Z;
  si_expiresAt : Z;
  si_status : string;
  si_company : string;
  si_connectedAt : option Z
}.

(** What a [setTimeout] callback of the program does when it fires. *)
Inductive Task : Type :=
| ExpireCode (code displayCode : string)   (* lines 397-402 *)
| Reinit (autoActivate : bool)             (* lines 300, 317, 320, 356 *)
| ResetAndReinit.                          (* lines 360-363 *)

Record Timer : Type := mkTimer { due : Z; task : Task }.

(** Lines written to the console. *)
Inductive LogMsg : Type :=
| LogInitializing (autoActivate : bool)
| LogClientInitialized
| LogQrAttempt (attempt maxAttempts : Z)
| LogQrReadyForWeb
| LogReadyForPairingCodes
| LogQrGenerationError (msg : string)
| LogAutoActivationFailed (maxAttempts : Z)
| LogOnline
| LogSessionSaved
| LogConnectionClosed (statusCode : option Z)
| LogReconnecting (seconds : Z)
| LogLoggedOut
| LogDeleteFailed (file msg : string)
| LogNewLogin
| LogInitFailed (msg : string)
| LogAutoRecovery (attempt maxAttempts : Z)
| LogMaxRecoveryReached
| LogGenerated (displayCode : string) (phoneNumber country : option string)
| LogExpiredRemoved (displayCode : string)
| LogEndpointError (what msg : string).

(** ** Global state and environment (source lines 42-50) *)

Record World : Type := mkWorld {
  (* the program's globals *)
  activeSocket : option bool;      (* the live socket, with its [autoActivate] *)
  currentQR : option string;
  qrImageDataUrl : option string;
  pairingCodes : gmap string PairingRecord;
  botStatus : string;
  lastGeneratedCode : option string;
  autoActivationAttempts : Z;
  (* the environment *)
  clock : Z;                       (* Date.now() *)
  random_src : nat -> nat;         (* Math.random draws *)
  random_pos : nat;
  crypto_src : nat -> byte;        (* crypto.randomBytes draws *)
  crypto_pos : nat;
  timers : list Timer;             (* pending setTimeout callbacks *)
  console : list LogMsg;           (* most recent line first *)
  sessionFile : option SessionInfo;
  authFiles : list string;         (* other files of auth_info/ *)
  unlink_error : string -> option string
                                   (* what fs.unlinkSync throws on a file, if it does *)
}.

Definition set_activeSocket (v : option bool) (w : World) : World :=
  mkWorld v (currentQR w) (qrImageDataUrl w) (pairingCodes w) (botStatus w)
    (lastGeneratedCode w) (autoActivationAttempts w) (clock w) (random_src w)
    (random_pos w) (crypto_src w) (crypto_pos w) (timers w) (console w)
    (sessionFile w) (authFiles w) (unlink_error w).

Definition set_currentQR (v : option string) (w : World) : World :=
  mkWorld (activeSocket w) v (qrImageDataUrl w) (pairingCodes w) (botStatus w)
    (lastGeneratedCode w) (autoActivationAttempts w) (clock w) (random_src w)
    (random_pos w) (crypto_src w) (crypto_pos w) (timers w) (console w)
    (sessionFile w) (authFiles w) (unlink_error w).

Definition set_qrImageDataUrl (v : option string) (w : World) : World :=
  mkWorld (activeSocket w) (currentQR w) v (pairingCodes w) (botStatus w)
    (lastGeneratedCode w) (autoActivationAttempts w) (clock w) (random_src w)
    (random_pos w) (crypto_src w) (crypto_pos w) (timers w) (console w)
    (sessionFile w) (authFiles w) (unlink_error w).

Definition set_pairingCodes (v : gmap string PairingRecord) (w : World) : World :=
  mkWorld (activeSocket w) (currentQR w) (qrImageDataUrl w) v (botStatus w)
    (lastGeneratedCode w) (autoActivationAttempts w) (clock w) (random_src w)
    (random_pos w) (crypto_src w) (crypto_pos w) (timers w) (console w)
    (sessionFile w) (authFiles w) (unlink_error w).

Definition set_botStatus (v : string) (w : World) : World :=
  mkWorld (activeSocket w) (currentQR w) (qrImageDataUrl w) (pairingCodes w) v
    (lastGeneratedCode w) (autoActivationAttempts w) (clock w) (random_src w)
    (random_pos w) (crypto_src w) (crypto_pos w) (timers w) (console w)
    (sessionFile w) (authFiles w) (unlink_error w).

Definition set_lastGeneratedCode (v : option string) (w : World) : World :=
  mkWorld (activeSocket w) (currentQR w) (qrImageDataUrl w) (pairingCodes w)
    (botStatus w) v (autoActivationAttempts w) (clock w) (random_src w)
    (random_pos w) (crypto_src w) (crypto_pos w) (timers w) (console w)
    (sessionFile w) (authFiles w) (unlink_error w).

Definition set_autoActivationAttempts (v : Z) (w : World) : World :=
  mkWorld (activeSocket w) (currentQR w) (qrImageDataUrl w) (pairingCodes w)
    (botStatus w) (lastGeneratedCode w) v (clock w) (random_src w)
    (random_pos w) (crypto_src w) (crypto_pos w) (timers w) (console w)
    (sessionFile w) (authFiles w) (unlink_error w).

Definition set_clock (v : Z) (w : World) : World :=
  mkWorld (activeSocket w) (currentQR w) (qrImageDataUrl w) (pairingCodes w)
    (botStatus w) (lastGeneratedCode w) (autoActivationAttempts w) v
    (random_src w) (random_pos w) (crypto_src w) (crypto_pos w) (timers w)
    (console w) (sessionFile w) (authFiles w) (unlink_error w).

Definition set_random_pos (v : nat) (w : World) : World :=
  mkWorld (activeSocket w) (currentQR w) (qrImageDataUrl w) (pairingCodes w)
    (botStatus w) (lastGeneratedCode w) (autoActivationAttempts w) (clock w)
    (random_src w) v (crypto_src w) (crypto_pos w) (timers w) (console w)
    (sessionFile w) (authFiles w) (unlink_error w).

Definition set_crypto_pos (v : nat) (w : World) : World :=
  mkWorld (activeSocket w) (currentQR w) (qrImageDataUrl w) (pairingCodes w)
    (botStatus w) (lastGeneratedCode w) (autoActivationAttempts w) (clock w)
    (random_src w) (random_pos w) (crypto_src w) v (timers w) (console w)
    (sessionFile w) (authFiles w) (unlink_error w).

Definition set_timers (v : list Timer) (w : World) : World :=
  mkWorld (activeSocket w) (currentQR w) (qrImageDataUrl w) (pairingCodes w)
    (botStatus w) (lastGeneratedCode w) (autoActivationAttempts w) (clock w)
    (random_src w) (random_pos w) (crypto_src w) (crypto_pos w) v (console w)
    (sessionFile w) (authFiles w) (unlink_error w).

Definition set_console (v : list LogMsg) (w : World) : World :=
  mkWorld (activeSocket w) (currentQR w) (qrImageDataUrl w) (pairingCodes w)
    (botStatus w) (lastGeneratedCode w) (autoActivationAttempts w) (clock w)
    (random_src w) (random_pos w) (crypto_src w) (crypto_pos w) (timers w) v
    (sessionFile w) (authFiles w) (unlink_error w).

Definition set_sessionFile (v : option SessionInfo) (w : World) : World :=
  mkWorld (activeSocket w) (currentQR w) (qrImageDataUrl w) (pairingCodes w)
    (botStatus w) (lastGeneratedCode w) (autoActivationAttempts w) (clock w)
    (random_src w) (random_pos w) (crypto_src w) (crypto_pos w) (timers w)
    (console w) v (authFiles w) (unlink_error w).

Definition set_authFiles (v : list string) (w : World) : World :=
  mkWorld (activeSocket w) (currentQR w) (qrImageDataUrl w) (pairingCodes w)
    (botStatus w) (lastGeneratedCode w) (autoActivationAttempts w) (clock w)
    (random_src w) (random_pos w) (crypto_src w) (crypto_pos w) (timers w)
    (console w) (sessionFile w) v (unlink_error w).

(** ** The monad of handlers: state and exceptions

    A computation either returns or throws; what it did to the world before
    throwing stays done, as in JavaScript. *)

Inductive outcome (A : Type) : Type :=
| Ok (a : A)
| Throw (msg : string).
Arguments Ok {A} a.
Arguments Throw {A} msg.

Definition M (A : Type) : Type := World -> outcome A * World.

Definition ret {A} (a : A) : M A := fun w => (Ok a, w).

Definition bind {A B} (m : M A) (k : A -> M B) : M B :=
  fun w => match m w with
           | (Ok a, w') => k a w'
           | (Throw e, w') => (Throw e, w')
           end.

Definition throw {A} (msg : string) : M A := fun w => (Throw msg, w).

(** [try { m } catch (error) { h error.message }]. *)
Definition try_catch {A} (m : M A) (h : string -> M A) : M A :=
  fun w => match m w with
           | (Ok a, w') => (Ok a, w')
           | (Throw e, w') => h e w'
           end.

Definition gets {A} (f : World -> A) : M A := fun w => (Ok (f w), w).

Definition modify (f : World -> World) : M unit := fun w => (Ok tt, f w).

(** An external call whose result the environment decides. *)
Definition lift {A} (o : outcome A) : M A := fun w => (o, w).

Declare Scope js_scope.
Delimit Scope js_scope with js.
Notation "x <- m ;; k" := (bind m (fun x => k))
  (at level 100, m at next level, right associativity) : js_scope.
Notation "m ;; k" := (bind m (fun _ => k))
  (at level 100, right associativity) : js_scope.
Open Scope js_scope.

(** [for (let i = 0; i < n; i++) body(i)] over an accumulator. *)
Fixpoint for_loop {A} (body : Z -> A -> M A) (i : Z) (n : nat) (acc : A) : M A :=
  match n with
  | O => ret acc
  | S n' => acc' <- body i acc ;; for_loop body (i + 1) n' acc'
  end.

Definition console_log (l : LogMsg) : M unit :=
  modify (fun w => set_console (l :: console w) w).

(** [Date.now()] and [new Date()]. *)
Definition Date_now : M Z := gets clock.

(** [setTimeout(task, delay)]. *)
Definition setTimeout (t : Task) (delay : Z) : M unit :=
  modify (fun w => set_timers (timers w ++ [mkTimer (clock w + delay) t]) w).

(** [Math.floor(Math.random() * n)]: [Math.random()] lies in [0, 1), so
    the result is an integer of [0, n); the oracle supplies a natural
    number and the draw is its remainder by [n]. *)
Definition Math_random_index (n : Z) : M Z :=
  fun w => (Ok (Z.of_nat (random_src w (random_pos w)) mod n),
            set_random_pos (S (random_pos w)) w).

(** [crypto.randomBytes(n)]. *)
Fixpoint crypto_randomBytes (n : nat) : M (list byte) :=
  match n with
  | O => ret []
  | S n' =>
      b <- (fun w => (Ok (crypto_src w (crypto_pos w)),
                      set_crypto_pos (S (crypto_pos w)) w)) ;;
      bs <- crypto_randomBytes n' ;;
      ret (b :: bs)
  end.

(** What [parsePhoneNumberFromString] of libphonenumber-js returns when it
    does not return [undefined]. *)
Record ParsedNumber : Type := mkParsedNumber {
  pn_isValid : bool;
  pn_formatInternational : string;
  pn_countryCallingCode : string;
  pn_country : option string;
  pn_nationalNumber : string;
  pn_number : string
}.

(** What [phone] of the phone package returns. *)
Record PhoneResult : Type := mkPhoneResult {
  ph_isValid : bool;
  ph_phoneNumber : string;
  ph_countryCode : string;
  ph_countryIso2 : option string
}.


(** ** A sample environment

    Both phone libraries recognise nothing, so that validation falls back
    on the digits; QR images always render; the random sources are simple
    periodic sequences. *)

Module Sample.

Definition parsePhoneNumberFromString (s : string) : outcome (option ParsedNumber) :=
  Ok None.

Definition phone (s : string) : outcome PhoneResult :=
  Ok (mkPhoneResult false "" "" None).

Definition QRCode_toDataURL (q : string) : outcome string :=
  Ok ("data:image/png;base64," ++ q).

Definition connectionLost : Z := 408.
Definition connectionClosed : Z := 428.
Definition loggedOut : Z := 401.

Definition stack_limit : nat := 64.

(** [Math.random] draws 0, 1, 2, ...: the first three attempts of the code
    generator have letters only. *)
Definition counting (k : nat) : nat := k.

(** [Math.random] draws 0, 5, ..., 35 again and again: every attempt gives
    the same code. *)
Definition repeating (k : nat) : nat := (5 * (k mod 8))%nat.

(** [Math.random] draws 0, 7, 14, ...: every attempt is mixed and no two
    of the first attempts agree. *)
Definition striding (k : nat) : nat := (7 * k)%nat.

Definition entropy (k : nat) : byte := if Nat.even k then xa3 else x5f.

(** A record as [generateNewPairingCode] stores them, ten minutes old. *)
Definition record (code status : string) (linkedAt : option Z) : PairingRecord :=
  mkPairingRecord code "JW84-UMVD" (Some "+254723278526") (Some "KE")
                  "IAN_TECH_1699999400000_A35FA3" status 1699999400000 1700000000000
                  linkedAt None None None 0 "IAN TECH".

(** A registry with one record of each status. *)
Definition registry : gmap string PairingRecord :=
  <["AAAA1111" := record "AAAA1111" "pending" None]>
    (<["BBBB2222" := record "BBBB2222" "linked" (Some 1699999500000)]>
       (<["CCCC3333" := record "CCCC3333" "expired" None]> ∅)).

(** The server at 2023-11-14T22:13:20Z, nothing generated yet. *)
Definition world (src : nat -> nat) (status : string) : World :=
  mkWorld None None None ∅ status None 0 1700000000000 src 0 entropy 0 [] [] None []
          (fun _ => None).

(** The phone package on a number written the North American way: its
    [countryCode] carries the plus sign. *)
Definition phone_us (s : string) : outcome PhoneResult :=
  Ok (mkPhoneResult true "+18175698900" "+1" (Some "US")).


(** The strict parser on a satellite number: valid, of no country. *)
Definition parse_satellite (s : string) : outcome (option ParsedNumber) :=
  Ok (Some (mkParsedNumber true "+870 773 111 632" "870" None "773111632"
                           "+870773111632")).

(** A QR renderer that always throws. *)
Definition failing_toDataURL (q : string) : outcome string :=
  Throw "render failed".

End Sample.

(** ** The program *)

Section Server.

Set Default Proof Using "Type".

(** The libraries the program imports, as it uses them. *)

(** [crypto.createHash('md5').update(s).digest()]. *)
Variable md5 : string -> list byte.

(** [parsePhoneNumberFromString]: [undefined] (here [None]) or a parsed
    number. *)
Variable parsePhoneNumberFromString : string -> outcome (option ParsedNumber).

(** [phone]. *)

Variable phone : string -> outcome PhoneResult.

(** [QRCode.toDataURL]. *)
Variable QRCode_toDataURL : string -> outcome string.

(** [DisconnectReason] of the messaging library. *)
Variable DisconnectReason_connectionLost : Z.
Variable DisconnectReason_connectionClosed : Z.
Variable DisconnectReason_loggedOut : Z.

(** How deep the engine lets [generateAlphanumericCode] call itself before
    it throws a [RangeError]. *)
Variable stack_limit : nat.

(** A proof about one part of the program does not see the libraries the
    other parts use. *)
Ltac forget_unused :=
  try clear stack_limit;
  try clear DisconnectReason_loggedOut;
  try clear DisconnectReason_connectionClosed;
  try clear DisconnectReason_connectionLost;
  try clear QRCode_toDataURL;
  try clear phone;
  try clear parsePhoneNumberFromString;
  try clear md5.

(** *** Utility functions (source lines 53-92) *)

Definition alphanumeric_chars : string := "ABCDEFGHIJKLMNOPQRSTUVWXYZ0123456789".

Definition draw_code (chars : string) (n : Z) : M string :=
  for_loop (fun _ code =>
              i <- Math_random_index (Js.len chars) ;;
              ret (code ++ Js.charAt chars i))
           0 (Z.to_nat n) "".

Fixpoint generateAlphanumericCode (depth : nat) : M string :=
  match depth with
  | O => throw "Maximum call stack size exceeded"
  | S depth' =>
      code <- draw_code alphanumeric_chars CONFIG.CODE_LENGTH ;;
      let hasLetters := Js.any Js.is_upper code in
      let hasNumbers := Js.any Js.is_digit code in
      if negb hasLetters || negb hasNumbers
      then generateAlphanumericCode depth'
      else ret code
  end.

Definition generateSessionId : M string :=
  now <- Date_now ;;
  bytes <- crypto_randomBytes 3 ;;
  ret (CONFIG.SESSION_PREFIX ++ "_" ++ pretty now ++ "_"
       ++ Js.toUpperCase (Js.toString_hex bytes)).

Definition display_chars : string := "0123456789ABCDEFGHJKLMNPQRSTUVWXYZ".

(** [seed] is [None] for [null]; the empty string is falsy as well. *)
Definition seed_truthy (seed : option string) : bool :=
  match seed with
  | Some s => negb (String.eqb s "")
  | None => false
  end.

Definition seeded_code (chars hash : string) : string :=
  fold_left (fun code i =>
               let index :=
                 Js.rem (Js.parseInt16 (Js.substring hash (i * 2) (i * 2 + 2)))
                        (Js.len chars) in
               Js.append_elem code (Js.at_index chars index))
            (map Z.of_nat (seq 0 8)) "".

Definition random_code (chars : string) : M string :=
  for_loop (fun _ code =>
              i <- Math_random_index (Js.len chars) ;;
              ret (Js.append_elem code (Js.at_index chars (Some i))))
           0 8%nat "".

Definition generateDisplayCode (seed : option string) : M string :=
  let chars := display_chars in
  code <- (if seed_truthy seed
           then ret (seeded_code chars (Js.toString_hex (md5 (default "" seed))))
           else random_code chars) ;;
  ret (Js.substring code 0 4 ++ "-" ++ Js.substring_from code 4).


(** *** Phone validation (source lines 95-145) *)

Inductive ValidationResult : Type :=
| Valid (formatted countryCode : string) (country : option string)
        (nationalNumber rawNumber : string)
| Invalid (error : string).

Definition isValid (r : ValidationResult) : bool :=
  match r with
  | Valid _ _ _ _ _ => true
  | Invalid _ => false
  end.

(** Lines 126-140: the basic validation on digits. *)
Definition basic_validation (cleanNumber : string) : ValidationResult :=
  let digitsOnly := Js.remove_all Js.is_non_digit cleanNumber in
  if (8 <=? Js.len digitsOnly) && (Js.len digitsOnly <=? 15)
  then Valid ("+" ++ digitsOnly)
             (Js.substring digitsOnly 0 (Z.min 3 (Js.len digitsOnly - 7)))
             (Some "Unknown")
             (Js.substring_from digitsOnly (Z.min 3 (Js.len digitsOnly - 7)))
             ("+" ++ digitsOnly)
  else Invalid "Invalid phone number format".

(** Lines 113-140: the phone package, then the basic validation. *)
Definition phone_fallback (cleanNumber : string) : ValidationResult :=
  match phone cleanNumber with
  | Throw e => Invalid e
  | Ok phoneResult =>
      if ph_isValid phoneResult
      then Valid (ph_phoneNumber phoneResult) (ph_countryCode phoneResult)
                 (ph_countryIso2 phoneResult)
                 (Js.replace_first ("+" ++ ph_countryCode phoneResult) ""
                                   (ph_phoneNumber phoneResult))
                 (ph_phoneNumber phoneResult)
      else basic_validation cleanNumber
  end.

(** The whole body sits in [try { ... } catch (error)]: whatever throws
    yields [{ isValid: false, error: error.message }]; [trim] throws a
    [TypeError] on a value that is not a string. *)
Definition validateAndFormatPhoneNumber (phoneNumber : Js.value) : ValidationResult :=
  match phoneNumber with
  | Js.Str s =>
      let cleanNumber := Js.trim s in
      match parsePhoneNumberFromString cleanNumber with
      | Throw e => Invalid e
      | Ok (Some parsed) =>
          if pn_isValid parsed
          then Valid (pn_formatInternational parsed) (pn_countryCallingCode parsed)
                     (pn_country parsed) (pn_nationalNumber parsed) (pn_number parsed)
          else phone_fallback cleanNumber
      | Ok None => phone_fallback cleanNumber
      end
  | Js.Undefined => Invalid "Cannot read properties of undefined (reading 'trim')"
  | Js.Null => Invalid "Cannot read properties of null (reading 'trim')"
  | _ => Invalid "phoneNumber.trim is not a function"
  end.

(** *** Pairing code management (source lines 369-405) *)

(** What [generateNewPairingCode] returns. *)
Record Generated : Type := mkGenerated {
  g_code : string;
  g_displayCode : string;
  g_sessionId : string;
  g_expiresAt : Z;
  g_country : option string
}.

Definition expiry_delay : Z := CONFIG.CODE_EXPIRY_MINUTES * 60 * 1000.

Definition generateNewPairingCode (phoneNumber country : option string) : M Generated :=
  code <- generateAlphanumericCode stack_limit ;;
  sessionId <- generateSessionId ;;
  displayCode <- generateDisplayCode (Some sessionId) ;;
  now <- Date_now ;;
  let expiresAt := now + CONFIG.CODE_EXPIRY_MINUTES * 60 * 1000 in
  createdAt <- Date_now ;;
  qr <- gets currentQR ;;
  image <- gets qrImageDataUrl ;;
  modify (fun w =>
            set_pairingCodes
              (<[code := {| code := code;
                            displayCode := displayCode;
                            phoneNumber := phoneNumber;
                            country := country;
                            sessionId := sessionId;
                            status := "pending";
                            createdAt := createdAt;
                            expiresAt := expiresAt;
                            linkedAt := None;
                            linkedTo := None;
                            qrData := qr;
                            qrImage := image;
                            attempts := 0;
                            generatedBy := CONFIG.COMPANY_NAME |}]>
                 (pairingCodes w)) w) ;;
  modify (set_lastGeneratedCode (Some displayCode)) ;;
  console_log (LogGenerated displayCode phoneNumber country) ;;
  setTimeout (ExpireCode code displayCode) expiry_delay ;;
  ret (mkGenerated code displayCode sessionId expiresAt country).

(** The callback of lines 397-402. *)
Definition expire_code (code displayCode : string) : M unit :=
  codes <- gets pairingCodes ;;
  match codes !! code with
  | Some data =>
      if String.eqb (status data) "pending"
      then modify (fun w => set_pairingCodes (delete code (pairingCodes w)) w) ;;
           console_log (LogExpiredRemoved displayCode)
      else ret tt
  | None => ret tt
  end.

(** *** Connection manager (source lines 148-366) *)

(** The fields the handler reads off a [connection.update] event. *)
Record ConnectionUpdate : Type := mkConnectionUpdate {
  connection : option string;
  qr : option string;
  statusCode : option Z;       (* lastDisconnect?.error?.output?.statusCode *)
  isNewLogin : bool
}.

Definition when (b : bool) (m : M unit) : M unit := if b then m else ret tt.

Fixpoint for_each {A} (l : list A) (body : A -> M unit) : M unit :=
  match l with
  | [] => ret tt
  | x :: l' => body x ;; for_each l' body
  end.

Definition day_ms : Z := 24 * 60 * 60 * 1000.

(** Lines 227-246: the [try] block of the QR branch and its [catch].  The
    handler awaits [QRCode.toDataURL]; no other handler is interleaved here.
    Writing the session file is taken to succeed. *)
Definition publish_qr (qr : string) : M unit :=
  try_catch
    (url <- lift (QRCode_toDataURL qr) ;;
     modify (set_qrImageDataUrl (Some url)) ;;
     console_log LogQrReadyForWeb ;;
     g <- generateNewPairingCode None None ;;
     modify (set_lastGeneratedCode (Some (g_code g))) ;;
     console_log LogReadyForPairingCodes ;;
     now <- Date_now ;;
     modify (set_sessionFile
               (Some (mkSessionInfo now (now + 7 * day_ms) "qr_ready"
                                    CONFIG.COMPANY_NAME None))))
    (fun msg => console_log (LogQrGenerationError msg)).

(** Lines 221-257. *)
Definition on_qr (qr : string) : M unit :=
  n <- gets autoActivationAttempts ;;
  console_log (LogQrAttempt (n + 1) MAX_AUTO_ACTIVATION_ATTEMPTS) ;;
  modify (set_currentQR (Some qr)) ;;
  modify (set_botStatus "qr_ready") ;;
  publish_qr qr ;;
  modify (fun w => set_autoActivationAttempts (autoActivationAttempts w + 1) w) ;;
  n' <- gets autoActivationAttempts ;;
  when (n' >=? MAX_AUTO_ACTIVATION_ATTEMPTS)
       (console_log (LogAutoActivationFailed MAX_AUTO_ACTIVATION_ATTEMPTS)).

(** Lines 268-274: the loop over [pairingCodes.entries()]. *)
Definition link_pending_codes : M unit :=
  entries <- gets (fun w => map_to_list (pairingCodes w)) ;;
  for_each entries
    (fun '(code, data) =>
       when (String.eqb (status data) "pending")
            (now <- Date_now ;;
             modify (fun w =>
                       set_pairingCodes
                         (<[code := mark_linked now data]> (pairingCodes w)) w))).

(** Lines 259-287. *)
Definition on_open : M unit :=
  console_log LogOnline ;;
  modify (set_botStatus "online") ;;
  modify (set_autoActivationAttempts 0) ;;
  link_pending_codes ;;
  now <- Date_now ;;
  modify (set_sessionFile
            (Some (mkSessionInfo now (now + 30 * day_ms) "connected"
                                 CONFIG.COMPANY_NAME (Some now)))) ;;
  console_log LogSessionSaved.

Definition code_truthy (c : option Z) : bool :=
  match c with
  | Some n => negb (n =? 0)
  | None => false
  end.

Definition code_is (c : option Z) (reason : Z) : bool :=
  match c with
  | Some n => n =? reason
  | None => false
  end.

(** The name of the session file in [auth_info/]. *)
Definition session_file_name : string := "active_session.json".

(** [fs.readdirSync(authDir)]: the session file, when there is one, and
    the other files.  The order only shows in the order of the log lines. *)
Definition fs_readdirSync : M (list string) :=
  gets (fun w =>
          (match sessionFile w with
           | Some _ => [session_file_name]
           | None => []
           end ++ authFiles w)%list).

(** [fs.unlinkSync(path.join(authDir, file))]: it throws when the
    environment refuses, and removes the file otherwise. *)
Definition fs_unlinkSync (file : string) : M unit :=
  err <- gets (fun w => unlink_error w file) ;;
  match err with
  | Some msg => throw msg
  | None =>
      when (String.eqb file session_file_name) (modify (set_sessionFile None)) ;;
      modify (fun w =>
                set_authFiles
                  (List.filter (fun f => negb (String.eqb f file)) (authFiles w)) w)
  end.

(** The callback of [files.forEach] (lines 306-314). *)
Definition clean_file (file : string) : M unit :=
  when (Js.ends_with ".json" file)
       (try_catch (fs_unlinkSync file)
                  (fun msg => console_log (LogDeleteFailed file msg))).

(** Lines 289-322.  The logged-out branch goes through the files of
    [auth_info/] and unlinks those whose name ends in [.json], the session
    file among them; a file whose unlinking throws is logged and stays.
    The directory exists, [initWhatsApp] having made it, and listing it is
    taken to succeed. *)
Definition on_close (statusCode : option Z) : M unit :=
  console_log (LogConnectionClosed statusCode) ;;
  let isTemporary :=
    negb (code_truthy statusCode)
    || code_is statusCode DisconnectReason_connectionLost
    || code_is statusCode DisconnectReason_connectionClosed in
  if isTemporary then
    console_log (LogReconnecting 3) ;;
    setTimeout (Reinit false) 3000
  else if code_is statusCode DisconnectReason_loggedOut then
    console_log LogLoggedOut ;;
    files <- fs_readdirSync ;;
    for_each files clean_file ;;
    setTimeout (Reinit true) 5000
  else
    console_log (LogReconnecting 5) ;;
    setTimeout (Reinit false) 5000.

Definition string_truthy (s : option string) : bool :=
  match s with
  | Some s => negb (String.eqb s "")
  | None => false
  end.

Definition connection_is (c : option string) (v : string) : bool :=
  match c with
  | Some s => String.eqb s v
  | None => false
  end.

(** The [connection.update] handler of the socket created by
    [initWhatsApp(autoActivate)] (lines 218-328). *)
Definition connection_update (autoActivate : bool) (update : ConnectionUpdate) : M unit :=
  when (string_truthy (qr update) && autoActivate)
       (on_qr (default "" (qr update))) ;;
  when (connection_is (connection update) "open") on_open ;;
  when (connection_is (connection update) "close") (on_close (statusCode update)) ;;
  when (isNewLogin update) (console_log LogNewLogin).

(** [initWhatsApp(autoActivate)].  [attempt] is what the environment does
    to the [try] block (restoring the session, loading credentials,
    creating the socket): it returns or it throws. *)
Definition initWhatsApp (autoActivate : bool) (attempt : outcome unit) : M unit :=
  console_log (LogInitializing autoActivate) ;;
  modify (set_botStatus "connecting") ;;
  try_catch
    (lift attempt ;;
     modify (set_activeSocket (Some autoActivate)) ;;
     console_log LogClientInitialized)
    (fun msg =>
       console_log (LogInitFailed msg) ;;
       modify (set_botStatus "error") ;;
       n <- gets autoActivationAttempts ;;
       if n <? MAX_AUTO_ACTIVATION_ATTEMPTS then
         console_log (LogAutoRecovery (n + 1) MAX_AUTO_ACTIVATION_ATTEMPTS) ;;
         setTimeout (Reinit true) 10000
       else
         console_log LogMaxRecoveryReached ;;
         setTimeout ResetAndReinit 30000).

(** *** The event loop: firing a timer *)

Definition run_task (t : Task) (attempt : outcome unit) : M unit :=
  match t with
  | ExpireCode code displayCode => expire_code code displayCode
  | Reinit autoActivate => initWhatsApp autoActivate attempt
  | ResetAndReinit =>
      modify (set_autoActivationAttempts 0) ;;
      initWhatsApp true attempt
  end.

(** Time passes to [t]. *)
Definition advance_clock (t : Z) : M unit :=
  modify (fun w => set_clock (Z.max (clock w) t) w).

(** The [i]-th pending timer fires if it is due; it is removed from the
    queue and its callback runs. *)
Definition fire_timer (i : nat) (attempt : outcome unit) : M unit :=
  ts <- gets timers ;;
  now <- Date_now ;;
  match ts !! i with
  | Some t =>
      if due t <=? now
      then modify (set_timers (take i ts ++ drop (S i) ts)) ;;
           run_task (task t) attempt
      else ret tt
  | None => ret tt
  end.

(** *** HTTP endpoints (source lines 1080-1215) *)

Record Response : Type := mkResponse {
  res_status : Z;
  res_body : Js.object
}.

(** [res.status(n).json(o)] and [res.json(o)]: the body sent is the JSON
    text of [o]. *)
Definition status_json (n : Z) (o : Js.object) : M Response :=
  ret (mkResponse n (Js.stringify o)).
Definition json (o : Js.object) : M Response := ret (mkResponse 200 (Js.stringify o)).

(** [validationResult.error || 'Invalid phone number format']. *)
Definition error_or_default (error : string) : string :=
  if String.eqb error "" then "Invalid phone number format" else error.

Definition optional_string (o : option string) : Js.value :=
  match o with
  | Some s => Js.Str s
  | None => Js.Undefined
  end.

Definition not_ready (botStatus : string) : bool :=
  negb (String.eqb botStatus "qr_ready") && negb (String.eqb botStatus "online").

(** [app.post('/generate-code', ...)]; [body] is [req.body]. *)
Definition post_generate_code (body : Js.object) : M Response :=
  try_catch
    (let phoneNumber := Js.field "phoneNumber" body in
     if negb (Js.truthy phoneNumber) then
       status_json 400 [("success", Js.Bool false);
                        ("message", Js.Str "Please enter a phone number")]
     else
       match validateAndFormatPhoneNumber phoneNumber with
       | Invalid error =>
           status_json 400 [("success", Js.Bool false);
                            ("message", Js.Str (error_or_default error))]
       | Valid formatted _ country _ _ =>
           st <- gets botStatus ;;
           if not_ready st then
             status_json 503 [("success", Js.Bool false);
                              ("message", Js.Str "Service is connecting. Please wait a moment...")]
           else
             g <- generateNewPairingCode (Some formatted) country ;;
             json [("success", Js.Bool true);
                   ("code", Js.Str (g_code g));
                   ("displayCode", Js.Str (g_displayCode g));
                   ("phoneNumber", Js.Str formatted);
                   ("country", optional_string country);
                   ("sessionId", Js.Str (g_sessionId g));
                   ("expiresAt", Js.Date (g_expiresAt g));
                   ("message", Js.Str "IAN TECH: Pairing code generated successfully")]
       end)
    (fun msg =>
       console_log (LogEndpointError "Code generation error" msg) ;;
       status_json 500 [("success", Js.Bool false);
                        ("message", Js.Str "IAN TECH: Error generating pairing code");
                        ("error", Js.Str msg)]).

Definition optional_image (o : option string) : Js.value :=
  match o with
  | Some s => Js.Str s
  | None => Js.Null
  end.

(** [app.post('/getqr', ...)]. *)
Definition post_getqr (body : Js.object) : M Response :=
  try_catch
    (let phoneNumber := Js.field "phoneNumber" body in
     if negb (Js.truthy phoneNumber) then
       status_json 400 [("success", Js.Bool false);
                        ("message", Js.Str "Please enter a phone number")]
     else
       match validateAndFormatPhoneNumber phoneNumber with
       | Invalid error =>
           status_json 400 [("success", Js.Bool false);
                            ("message", Js.Str (error_or_default error))]
       | Valid formatted _ country _ _ =>
           st <- gets botStatus ;;
           current <- gets currentQR ;;
           if String.eqb st "qr_ready" && string_truthy current then
             try_catch
               (image <- gets qrImageDataUrl ;;
                when (negb (string_truthy image))
                     (url <- lift (QRCode_toDataURL (default "" current)) ;;
                      modify (set_qrImageDataUrl (Some url))) ;;
                g <- generateNewPairingCode (Some formatted) country ;;
                image' <- gets qrImageDataUrl ;;
                json [("success", Js.Bool true);
                      ("qrImage", optional_image image');
                      ("code", Js.Str (g_code g));
                      ("displayCode", Js.Str (g_displayCode g));
                      ("phoneNumber", Js.Str formatted);
                      ("country", optional_string country);
                      ("sessionId", Js.Str (g_sessionId g));
                      ("expiresAt", Js.Date (g_expiresAt g));
                      ("message", Js.Str "IAN TECH: QR code ready for scanning")])
               (fun msg =>
                  console_log (LogEndpointError "QR generation error" msg) ;;
                  status_json 500 [("success", Js.Bool false);
                                   ("message", Js.Str "IAN TECH: Error generating QR image");
                                   ("error", Js.Str msg)])
           else if String.eqb st "online" then
             g <- generateNewPairingCode (Some formatted) country ;;
             json [("success", Js.Bool true);
                   ("qrImage", Js.Null);
                   ("code", Js.Str (g_code g));
                   ("displayCode", Js.Str (g_displayCode g));
                   ("phoneNumber", Js.Str formatted);
                   ("country", optional_string country);
                   ("sessionId", Js.Str (g_sessionId g));
                   ("expiresAt", Js.Date (g_expiresAt g));
                   ("message", Js.Str "IAN TECH: Service is online. Use the pairing code to link.")]
           else
             status_json 503 [("success", Js.Bool false);
                              ("message", Js.Str "IAN TECH: Service is connecting. Please wait...")]
       end)
    (fun msg =>
       console_log (LogEndpointError "QR endpoint error" msg) ;;
       status_json 500 [("success", Js.Bool false);
                        ("message", Js.Str "IAN TECH: Internal server error");
                        ("error", Js.Str msg)]).

(** [app.get('/status', ...)] (source lines 1217-1231). *)
Definition get_status : M Response :=
  st <- gets botStatus ;;
  codes <- gets pairingCodes ;;
  last <- gets lastGeneratedCode ;;
  n <- gets autoActivationAttempts ;;
  now <- Date_now ;;
  json [("bot", Js.Str st);
        ("hasQR", Js.Bool (String.eqb st "qr_ready"));
        ("pairingCodes", Js.Num (Z.of_nat (size codes)));
        ("lastCode", optional_image last);
        ("company", Js.Str CONFIG.COMPANY_NAME);
        ("contact", Js.Str CONFIG.COMPANY_CONTACT);
        ("version", Js.Str CONFIG.VERSION);
        ("autoActivated", Js.Bool CONFIG.AUTO_ACTIVATED);
        ("autoActivationAttempts", Js.Num n);
        ("maxAutoActivationAttempts", Js.Num MAX_AUTO_ACTIVATION_ATTEMPTS);
        ("timestamp", Js.Date now)].

(** *** The event loop: what the process reacts to

    [initWhatsApp(true)] at start-up (line 1270), the [connection.update]
    events of any socket the program created, the timers, the passing of
    time and the HTTP requests. *)
Inductive Event : Type :=
| EvStartup (attempt : outcome unit)
| EvConnection (autoActivate : bool) (update : ConnectionUpdate)
| EvTimer (i : nat) (attempt : outcome unit)
| EvTime (t : Z)
| EvGenerateCode (body : Js.object)
| EvGetQr (body : Js.object)
| EvStatus.

Definition handle (e : Event) : M unit :=
  match e with
  | EvStartup attempt => initWhatsApp true attempt
  | EvConnection autoActivate update => connection_update autoActivate update
  | EvTimer i attempt => fire_timer i attempt
  | EvTime t => advance_clock t
  | EvGenerateCode body => post_generate_code body ;; ret tt
  | EvGetQr body => post_getqr body ;; ret tt
  | EvStatus => get_status ;; ret tt
  end.

Fixpoint run_events (es : list Event) (w : World) : World :=
  match es with
  | [] => w
  | e :: es' => run_events es' (snd (handle e w))
  end.

(** ** Specification-side definitions *)

(** What a loop of [n] random draws below [m] builds from the oracle: the
    draws are read from position [pos] on and folded into [acc] by [step]. *)
Fixpoint drawn (step : string -> Z -> string) (m : Z) (src : nat -> nat)
         (pos n : nat) (acc : string) : string :=
  match n with
  | O => acc
  | S n' => drawn step m src (S pos) n' (step acc (Z.of_nat (src pos) mod m))
  end.

(** [step] appends one character satisfying [p] for every index below [m]. *)
Definition appends_one (p : ascii -> bool) (m : Z) (step : string -> Z -> string) : Prop :=
  forall acc i, 0 <= i < m -> exists c, step acc i = acc ++ String c "" /\ p c = true.

(** A draw is kept when it has a letter and a digit. *)
Definition mixed (code : string) : bool :=
  Js.any Js.is_upper code && Js.any Js.is_digit code.

Definition is_alphanumeric (c : ascii) : bool := Js.is_upper c || Js.is_digit c.

(** The [k]-th attempt of [generateAlphanumericCode] started in [w]. *)
Definition attempt (w : World) (k : nat) : string :=
  drawn (fun code i => code ++ Js.charAt alphanumeric_chars i)
        (Js.len alphanumeric_chars) (random_src w) (random_pos w + 8 * k) 8 "".

(** Membership in the alphabet of display codes. *)
Definition in_display_alphabet (c : ascii) : bool :=
  Js.any (Ascii.eqb c) display_chars.

(** The pattern XXXX-XXXX over the alphabet of display codes. *)
Definition display_pattern (s : string) : bool :=
  (String.length s =? 9)%nat
  && Js.all in_display_alphabet (String.substring 0 4 s)
  && String.eqb (String.substring 4 1 s) "-"
  && Js.all in_display_alphabet (String.substring 5 4 s).


(** The digits of the input, in order. *)
Definition digits_of (input : string) : string :=
  Js.remove_all Js.is_non_digit input.

(** What the loop of lines 268-274 does to one record. *)
Definition link_if_pending (now : Z) (data : PairingRecord) : PairingRecord :=
  if String.eqb (status data) "pending" then mark_linked now data else data.

(** One iteration of the loop of lines 268-274 on the registry. *)
Definition link_step (now : Z) (codes : gmap string PairingRecord)
           (entry : string * PairingRecord) : gmap string PairingRecord :=
  if String.eqb (status entry.2) "pending"
  then <[entry.1 := mark_linked now entry.2]> codes
  else codes.

(** What the expiry callback of [code] does to the registry. *)
Definition expire_registry (code : string) (codes : gmap string PairingRecord)
  : gmap string PairingRecord :=
  match codes !! code with
  | Some data => if String.eqb (status data) "pending" then delete code codes else codes
  | None => codes
  end.

(** Records sit under their own code. *)
Definition registry_keyed (codes : gmap string PairingRecord) : Prop :=
  forall c data, codes !! c = Some data -> code data = c.

(** The body of a successful answer of POST /generate-code. *)
Definition generate_code_success (formatted : string) (country : option string)
           (g : Generated) : Js.object :=
  Js.stringify
    [("success", Js.Bool true);
     ("code", Js.Str (g_code g));
     ("displayCode", Js.Str (g_displayCode g));
     ("phoneNumber", Js.Str formatted);
     ("country", optional_string country);
     ("sessionId", Js.Str (g_sessionId g));
     ("expiresAt", Js.Date (g_expiresAt g));
     ("message", Js.Str "IAN TECH: Pairing code generated successfully")].

(** The body of the answer of POST /getqr while the bot is online. *)
Definition getqr_online_success (formatted : string) (country : option string)
           (g : Generated) : Js.object :=
  Js.stringify
    [("success", Js.Bool true);
     ("qrImage", Js.Null);
     ("code", Js.Str (g_code g));
     ("displayCode", Js.Str (g_displayCode g));
     ("phoneNumber", Js.Str formatted);
     ("country", optional_string country);
     ("sessionId", Js.Str (g_sessionId g));
     ("expiresAt", Js.Date (g_expiresAt g));
     ("message", Js.Str "IAN TECH: Service is online. Use the pairing code to link.")].

(** The world a failed [initWhatsApp] leaves. *)
Definition after_init_failure (autoActivate : bool) (msg : string) (w : World) : World :=
  let n := autoActivationAttempts w in
  if n <? MAX_AUTO_ACTIVATION_ATTEMPTS
  then set_timers (timers w ++ [mkTimer (clock w + 10000) (Reinit true)])
         (set_console (LogAutoRecovery (n + 1) MAX_AUTO_ACTIVATION_ATTEMPTS
                       :: LogInitFailed msg :: LogInitializing autoActivate :: console w)
            (set_botStatus "error" w))
  else set_timers (timers w ++ [mkTimer (clock w + 30000) ResetAndReinit])
         (set_console (LogMaxRecoveryReached
                       :: LogInitFailed msg :: LogInitializing autoActivate :: console w)
            (set_botStatus "error" w)).

(** The callbacks that start [initWhatsApp(true)] again. *)
Definition retry_task (t : Task) : bool :=
  match t with
  | Reinit true | ResetAndReinit => true
  | _ => false
  end.

(** The timer queued last fires when it is due and the initialisation it
    starts fails with [msg]. *)
Definition fail_again (msg : string) : M unit :=
  ts <- gets timers ;;
  match last ts with
  | Some t =>
      advance_clock (due t) ;;
      fire_timer (length ts - 1) (Throw msg)
  | None => ret tt
  end.

Fixpoint fail_repeatedly (n : nat) (msg : string) : M unit :=
  match n with
  | O => ret tt
  | S n' => fail_again msg ;; fail_repeatedly n' msg
  end.

(** A retry is pending: the timer queued last starts [initWhatsApp(true)]. *)
Definition retry_pending (w : World) : Prop :=
  exists t, last (timers w) = Some t /\ retry_task (task t) = true.

(** What [publish_qr] leaves untouched, and what it may add: lines on the
    console, none of them the instructions of lines 253-255, and at most
    the expiry timer of a new pairing code. *)
Definition publish_frame (w w' : World) : Prop :=
  autoActivationAttempts w' = autoActivationAttempts w
  /\ currentQR w' = currentQR w
  /\ botStatus w' = botStatus w
  /\ clock w' = clock w
  /\ (exists lines,
        console w' = (lines ++ console w)%list
        /\ ~ In (LogAutoActivationFailed MAX_AUTO_ACTIVATION_ATTEMPTS) lines)
  /\ (timers w' = timers w
      \/ exists c d, timers w' = (timers w ++ [mkTimer (clock w + expiry_delay) (ExpireCode c d)])%list).

(** The world of the QR branch when it enters its [try] block. *)
Definition qr_announced (qr : string) (w : World) : World :=
  set_botStatus "qr_ready"
    (set_currentQR (Some qr)
       (set_console (LogQrAttempt (autoActivationAttempts w + 1)
                                  MAX_AUTO_ACTIVATION_ATTEMPTS :: console w) w)).

(** Lines 248-256 on the world the [try] block left. *)
Definition qr_counted (w : World) : World :=
  let counted := set_autoActivationAttempts (autoActivationAttempts w + 1) w in
  if autoActivationAttempts w + 1 >=? MAX_AUTO_ACTIVATION_ATTEMPTS
  then set_console (LogAutoActivationFailed MAX_AUTO_ACTIVATION_ATTEMPTS
                    :: console counted) counted
  else counted.

(** A QR report and nothing else. *)
Definition qr_event (qr : string) : ConnectionUpdate :=
  mkConnectionUpdate None (Some qr) None false.

(** The session id [generateSessionId] builds in [w]. *)
Definition session_id_at (w : World) : string :=
  CONFIG.SESSION_PREFIX ++ "_" ++ pretty (clock w) ++ "_"
  ++ Js.toUpperCase
       (Js.toString_hex [crypto_src w (crypto_pos w);
                         crypto_src w (S (crypto_pos w));
                         crypto_src w (S (S (crypto_pos w)))]).

(** The display code derived from a session id. *)
Definition display_code_of (sessionId : string) : string :=
  let code := seeded_code display_chars (Js.toString_hex (md5 sessionId)) in
  Js.substring code 0 4 ++ "-" ++ Js.substring_from code 4.

(** The record [generateNewPairingCode] stores in [w] under [code]. *)
Definition new_record (w : World) (phoneNumber country : option string)
           (code : string) : PairingRecord :=
  {| code := code;
     displayCode := display_code_of (session_id_at w);
     phoneNumber := phoneNumber;
     country := country;
     sessionId := session_id_at w;
     status := "pending";
     createdAt := clock w;
     expiresAt := clock w + expiry_delay;
     linkedAt := None;
     linkedTo := None;
     qrData := currentQR w;
     qrImage := qrImageDataUrl w;
     attempts := 0;
     generatedBy := CONFIG.COMPANY_NAME |}.

(** What [generateNewPairingCode] returns in [w] when its code is [code]. *)
Definition generated (w : World) (country : option string) (code : string) : Generated :=
  mkGenerated code (display_code_of (session_id_at w)) (session_id_at w)
              (clock w + expiry_delay) country.

(** The world [generateNewPairingCode] leaves when the [j]-th attempt of
    the code generator is the first mixed one. *)
Definition after_generate (w : World) (phoneNumber country : option string)
           (j : nat) : World :=
  let code := attempt w j in
  let displayCode := display_code_of (session_id_at w) in
  set_timers (timers w ++ [mkTimer (clock w + expiry_delay) (ExpireCode code displayCode)])
    (set_console (LogGenerated displayCode phoneNumber country :: console w)
       (set_lastGeneratedCode (Some displayCode)
          (set_pairingCodes
             (<[code := new_record w phoneNumber country code]> (pairingCodes w))
             (set_crypto_pos (S (S (S (crypto_pos w))))
                (set_random_pos (random_pos w + 8 * S j) w))))).

(** The code generator returns within the stack budget: attempt [k] is
    mixed and [k] is below [stack_limit]. *)
Definition generator_returns (w : World) (k : nat) : Prop :=
  mixed (attempt w k) = true /\ (k < stack_limit)%nat.

(** [/[0-9A-F]/] on one code unit. *)
Definition is_upper_hex (c : ascii) : bool :=
  let n := N_of_ascii c in Js.is_digit c || ((65 <=? n)%N && (n <=? 70)%N).

(** The character of the display alphabet a digest byte selects. *)
Definition alphabet_char (b : byte) : ascii :=
  default "0"%char (String.get (Byte.to_nat b mod 34) display_chars).

(** The strict parse fails without throwing. *)
Definition strict_parse_fails (input : string) : Prop :=
  parsePhoneNumberFromString (Js.trim input) = Ok None
  \/ exists p, parsePhoneNumberFromString (Js.trim input) = Ok (Some p)
               /\ pn_isValid p = false.

(** The disconnections line 294 calls temporary: no status code (or 0),
    connection lost, connection closed. *)
Definition is_temporary (statusCode : option Z) : bool :=
  negb (code_truthy statusCode)
  || code_is statusCode DisconnectReason_connectionLost
  || code_is statusCode DisconnectReason_connectionClosed.



(** The body of a successful answer of POST /getqr while a QR is on offer. *)
Definition getqr_ready_success (formatted : string) (country : option string)
           (g : Generated) (image : option string) : Js.object :=
  Js.stringify
    [("success", Js.Bool true);
     ("qrImage", optional_image image);
     ("code", Js.Str (g_code g));
     ("displayCode", Js.Str (g_displayCode g));
     ("phoneNumber", Js.Str formatted);
     ("country", optional_string country);
     ("sessionId", Js.Str (g_sessionId g));
     ("expiresAt", Js.Date (g_expiresAt g));
     ("message", Js.Str "IAN TECH: QR code ready for scanning")].

(** A handler left the registry and the timers as they were. *)
Definition nothing_stored (w w' : World) : Prop :=
  pairingCodes w' = pairingCodes w /\ timers w' = timers w.

(** A handler stored one record, the pending record of [phoneNumber], under
    the code it returns, and queued the expiry timer of that code. *)
Definition one_stored (w w' : World) (phone_arg : option string) (code : string) : Prop :=
  exists data,
    pairingCodes w' = <[code := data]> (pairingCodes w)
    /\ status data = "pending"
    /\ phoneNumber data = phone_arg
    /\ timers w'
       = (timers w ++ [mkTimer (clock w + 600000) (ExpireCode code (displayCode data))])%list.

(** The attempt counter stands at [n]. *)
Definition counter_is (n : Z) (w : World) : Prop := autoActivationAttempts w = n.

(** The registry is [codes]. *)
Definition registry_is (codes : gmap string PairingRecord) (w : World) : Prop :=
  pairingCodes w = codes.

(** No record of [codes] is pending. *)
Definition none_pending (codes : gmap string PairingRecord) : Prop :=
  forall c r, codes !! c = Some r -> status r <> "pending".

(** An event that generates no pairing code: neither a POST request nor a
    QR report handled in auto-activation mode. *)
Definition generates_nothing (e : Event) : bool :=
  match e with
  | EvGenerateCode _ | EvGetQr _ => false
  | EvConnection autoActivate update =>
      negb (string_truthy (qr update) && autoActivate)
  | _ => true
  end.

(** *** Invariants of the running server *)

(** Whatever a handler returns or throws, it keeps [I]. *)
Definition preserves (I : World -> Prop) {A} (m : M A) : Prop :=
  forall w o w', m w = (o, w') -> I w -> I w'.

(** The globals as lines 42-50 initialise them, no timer pending. *)
Definition initial (w : World) : Prop :=
  activeSocket w = None
  /\ currentQR w = None
  /\ qrImageDataUrl w = None
  /\ pairingCodes w = ∅
  /\ botStatus w = "disconnected"
  /\ lastGeneratedCode w = None
  /\ autoActivationAttempts w = 0
  /\ timers w = [].

(** The states the server can be in: an initial state and any sequence of
    events. *)
Definition reachable (w : World) : Prop :=
  exists w0 es, initial w0 /\ w = run_events es w0.

(** A record as the program makes and updates them, seen at time [now]
    under the key [c]. *)
Definition record_wf (now : Z) (c : string) (r : PairingRecord) : Prop :=
  code r = c
  /\ String.length c = 8%nat
  /\ Js.all is_alphanumeric c = true
  /\ mixed c = true
  /\ displayCode r = display_code_of (sessionId r)
  /\ expiresAt r = createdAt r + 600000
  /\ createdAt r <= now
  /\ (status r = "pending" /\ linkedAt r = None
      \/ status r = "linked"
         /\ exists t, linkedAt r = Some t /\ createdAt r <= t <= now).

Definition registry_wf (w : World) : Prop :=
  forall c r, pairingCodes w !! c = Some r -> record_wf (clock w) c r.

(** Every pending record has its expiry callback queued, due when the
    record expires. *)
Definition timers_cover (w : World) : Prop :=
  forall c r,
    pairingCodes w !! c = Some r -> status r = "pending" ->
    In (mkTimer (expiresAt r) (ExpireCode c (displayCode r))) (timers w).

Definition store_inv (w : World) : Prop := registry_wf w /\ timers_cover w.

(** The bot status is one of the five the program assigns; it is qr_ready
    only with a QR to show; the attempt counter is not negative. *)
Definition conn_inv (w : World) : Prop :=
  (botStatus w = "qr_ready" -> string_truthy (currentQR w) = true)
  /\ 0 <= autoActivationAttempts w
  /\ In (botStatus w) ["disconnected"; "connecting"; "qr_ready"; "online"; "error"].

(** The body an endpoint answers with in [w]. *)
Definition answer (endpoint : M Response) (w : World) : Js.object :=
  match fst (endpoint w) with
  | Ok response => res_body response
  | Throw _ => []
  end.

(** An open report and nothing else. *)
Definition open_event : ConnectionUpdate :=
  mkConnectionUpdate (Some "open") None None false.

(** ** Lemmas on the JavaScript primitives *)

Lemma get_all (p : ascii -> bool) (s : string) (n : nat) (c : ascii) :
  String.get n s = Some c -> Js.all p s = true -> p c = true.
Proof.
  revert n; induction s as [|a s IH]; intros n Hget Hall; [destruct n; discriminate|].
  simpl in Hall. apply andb_true_iff in Hall as [Ha Hs].
  destruct n as [|n]; simpl in Hget.
  - now inversion Hget; subst.
  - eauto.
Qed.

Lemma get_in_range (s : string) (n : nat) :
  (n < String.length s)%nat -> exists c, String.get n s = Some c.
Proof.
  revert n; induction s as [|a s IH]; intros n Hn; simpl in Hn; [lia|].
  destruct n as [|n]; simpl; [eauto|]. apply IH. lia.
Qed.

Lemma charAt_in_range (s : string) (i : Z) :
  0 <= i < Js.len s ->
  exists c, Js.charAt s i = String c "" /\ String.get (Z.to_nat i) s = Some c.
Proof.
  intros [Hlo Hhi]. unfold Js.charAt, Js.len in *.
  destruct (Z.ltb_spec i 0) as [|_]; [lia|].
  destruct (get_in_range s (Z.to_nat i)) as [c Hc]; [lia|].
  exists c. now rewrite Hc.
Qed.

Lemma at_index_in_range (s : string) (i : Z) :
  0 <= i < Js.len s ->
  exists c, Js.at_index s (Some i) = Some c /\ String.get (Z.to_nat i) s = Some c.
Proof.
  intros [Hlo Hhi]. unfold Js.at_index, Js.len in *.
  destruct (Z.ltb_spec i 0) as [|_]; [lia|].
  destruct (get_in_range s (Z.to_nat i)) as [c Hc]; [lia|].
  exists c. now rewrite Hc.
Qed.

Lemma string_length_app (s t : string) :
  String.length (s ++ t) = (String.length s + String.length t)%nat.
Proof. induction s as [|a s IH]; simpl; [reflexivity|]. now rewrite IH. Qed.

Lemma all_app (p : ascii -> bool) (s t : string) :
  Js.all p (s ++ t) = Js.all p s && Js.all p t.
Proof.
  induction s as [|a s IH]; simpl; [reflexivity|].
  now rewrite IH, andb_assoc.
Qed.

Lemma any_app (p : ascii -> bool) (s t : string) :
  Js.any p (s ++ t) = Js.any p s || Js.any p t.
Proof.
  induction s as [|a s IH]; simpl; [reflexivity|].
  now rewrite IH, orb_assoc.
Qed.

(** ** Loops of random draws *)

Lemma appends_one_charAt (p : ascii -> bool) (chars : string) :
  Js.all p chars = true ->
  appends_one p (Js.len chars) (fun code i => code ++ Js.charAt chars i).
Proof.
  intros Hall acc i Hi.
  destruct (charAt_in_range chars i Hi) as (c & Hc & Hget).
  exists c. rewrite Hc. eauto using get_all.
Qed.

Lemma appends_one_at_index (p : ascii -> bool) (chars : string) :
  Js.all p chars = true ->
  appends_one p (Js.len chars)
              (fun code i => Js.append_elem code (Js.at_index chars (Some i))).
Proof.
  intros Hall acc i Hi.
  destruct (at_index_in_range chars i Hi) as (c & Hc & Hget).
  exists c. rewrite Hc. simpl. eauto using get_all.
Qed.

Lemma drawn_shape (p : ascii -> bool) (step : string -> Z -> string) (m : Z)
      (src : nat -> nat) :
  0 < m -> appends_one p m step ->
  forall n pos acc,
    Js.all p acc = true ->
    String.length (drawn step m src pos n acc) = (String.length acc + n)%nat
    /\ Js.all p (drawn step m src pos n acc) = true.
Proof.
  intros Hm Hstep. induction n as [|n IH]; intros pos acc Hacc; simpl.
  - split; [lia|assumption].
  - destruct (Hstep acc (Z.of_nat (src pos) mod m)) as (c & Hc & Hp);
      [now apply Z.mod_pos_bound|].
    rewrite Hc.
    destruct (IH (S pos) (acc ++ String c "")) as [Hl Ha].
    + rewrite all_app, Hacc. simpl. now rewrite Hp.
    + rewrite Hl, string_length_app. simpl. split; [lia|assumption].
Qed.

Lemma random_loop_run (step : string -> Z -> string) (m : Z) (n : nat) (i : Z)
      (acc : string) (w : World) :
  for_loop (fun _ code => i <- Math_random_index m ;; ret (step code i)) i n acc w
  = (Ok (drawn step m (random_src w) (random_pos w) n acc),
     set_random_pos (random_pos w + n) w).
Proof.
  revert i acc w; induction n as [|n IH]; intros i acc w; simpl.
  - unfold ret. f_equal. destruct w; unfold set_random_pos; simpl.
    now rewrite Nat.add_0_r.
  - unfold bind at 1. unfold Math_random_index, bind, ret at 1.
    rewrite IH. simpl. f_equal.
    destruct w; unfold set_random_pos; simpl. f_equal. lia.
Qed.

(** ** The alphanumeric code generator *)

Lemma generateAlphanumericCode_step (depth : nat) (w : World) :
  generateAlphanumericCode (S depth) w
  = if mixed (attempt w 0)
    then (Ok (attempt w 0), set_random_pos (random_pos w + 8) w)
    else generateAlphanumericCode depth (set_random_pos (random_pos w + 8) w).
Proof.
  unfold attempt. rewrite Nat.mul_0_r, Nat.add_0_r.
  cbn [generateAlphanumericCode]. unfold bind at 1, draw_code.
  change (Z.to_nat CONFIG.CODE_LENGTH) with 8%nat.
  rewrite random_loop_run. unfold mixed.
  destruct (Js.any Js.is_upper _), (Js.any Js.is_digit _); reflexivity.
Qed.

Lemma attempt_shift (w : World) (k : nat) :
  attempt (set_random_pos (random_pos w + 8) w) k = attempt w (S k).
Proof.
  unfold attempt. destruct w; cbn [random_src random_pos set_random_pos].
  f_equal. lia.
Qed.

Lemma attempt_shape (w : World) (k : nat) :
  String.length (attempt w k) = 8%nat /\ Js.all is_alphanumeric (attempt w k) = true.
Proof.
  unfold attempt.
  apply (drawn_shape is_alphanumeric); [reflexivity| |reflexivity].
  now apply appends_one_charAt.
Qed.

(** C3: every code [generateAlphanumericCode] returns has length 8, only
    characters of [A-Z0-9], at least one letter and at least one digit. *)
Theorem generateAlphanumericCode_mixed (depth : nat) (w w' : World) (code : string) :
  generateAlphanumericCode depth w = (Ok code, w') ->
  String.length code = 8%nat
  /\ Js.all is_alphanumeric code = true
  /\ Js.any Js.is_upper code = true
  /\ Js.any Js.is_digit code = true.
Proof.
  revert w; induction depth as [|depth IH]; intros w H.
  - discriminate.
  - rewrite generateAlphanumericCode_step in H.
    destruct (mixed (attempt w 0)) eqn:Hm.
    + inversion H; subst. unfold mixed in Hm. apply andb_true_iff in Hm as [Hu Hd].
      destruct (attempt_shape w 0). auto.
    + eauto.
Qed.

(** The generator returns as soon as one attempt within the stack budget
    is mixed: the code of the first such attempt. *)
Lemma generateAlphanumericCode_returns (k : nat) :
  forall (depth : nat) (w : World),
    mixed (attempt w k) = true -> (k < depth)%nat ->
    exists j, (j <= k)%nat
      /\ mixed (attempt w j) = true
      /\ generateAlphanumericCode depth w
         = (Ok (attempt w j), set_random_pos (random_pos w + 8 * S j) w).
Proof.
  induction k as [|k IH]; intros depth w Hm Hd;
    (destruct depth as [|depth]; [lia|]); rewrite generateAlphanumericCode_step.
  - rewrite Hm. exists 0%nat. split; [lia|]. split; [assumption|]. repeat f_equal.
  - destruct (mixed (attempt w 0)) eqn:H0.
    + exists 0%nat. split; [lia|]. split; [assumption|]. repeat f_equal.
    + destruct (IH depth (set_random_pos (random_pos w + 8) w)) as (j & Hj & Hmj & Hrun).
      * now rewrite attempt_shift.
      * lia.
      * exists (S j). rewrite attempt_shift in Hmj. split; [lia|]. split; [assumption|].
        rewrite Hrun, attempt_shift.
        f_equal. destruct w; unfold set_random_pos; simpl. f_equal. lia.
Qed.

(** ** The display code generator *)

Lemma display_chars_in_alphabet : Js.all in_display_alphabet display_chars = true.
Proof. reflexivity. Qed.

(** The alphabet has digits and capital letters only, and neither I nor O. *)
Lemma display_alphabet_unambiguous :
  Js.all is_alphanumeric display_chars = true
  /\ in_display_alphabet "I" = false
  /\ in_display_alphabet "O" = false.
Proof. repeat split. Qed.

Lemma parseInt16_hex_of_byte (b : byte) :
  Js.parseInt16 (Js.hex_of_byte b) = Some (Z.of_nat (Byte.to_nat b)).
Proof. destruct b; reflexivity. Qed.

Lemma substring_toString_hex (bs : list byte) (i : nat) (b : byte) :
  bs !! i = Some b ->
  String.substring (2 * i) 2 (Js.toString_hex bs) = Js.hex_of_byte b.
Proof.
  revert i; induction bs as [|b0 bs IH]; intros i Hi; [discriminate|].
  change (Js.toString_hex (b0 :: bs))
    with (Js.hex_of_byte b0 ++ Js.toString_hex bs).
  destruct i as [|i].
  - inversion Hi; subst. unfold Js.hex_of_byte.
    cbn [Nat.mul String.append String.substring].
    now destruct (Js.toString_hex bs).
  - replace (2 * S i)%nat with (S (S (2 * i))) by lia.
    unfold Js.hex_of_byte at 1.
    cbn [String.append String.substring]. now apply IH.
Qed.

Lemma seeded_index (bs : list byte) (i : nat) (b : byte) :
  bs !! i = Some b ->
  exists c,
    Js.at_index display_chars
      (Js.rem (Js.parseInt16 (Js.substring (Js.toString_hex bs)
                                           (Z.of_nat i * 2) (Z.of_nat i * 2 + 2)))
              (Js.len display_chars)) = Some c
    /\ in_display_alphabet c = true.
Proof.
  intros Hb. unfold Js.substring.
  replace (Z.to_nat (Z.of_nat i * 2)) with (2 * i)%nat by lia.
  replace (Z.to_nat (Z.of_nat i * 2 + 2)) with (2 * i + 2)%nat by lia.
  replace (Nat.min (2 * i) (2 * i + 2)) with (2 * i)%nat by lia.
  replace (Nat.max (2 * i) (2 * i + 2) - 2 * i)%nat with 2%nat by lia.
  rewrite (substring_toString_hex bs i b Hb), parseInt16_hex_of_byte.
  change (Js.len display_chars) with 34. cbn [Js.rem Z.eqb].
  destruct (at_index_in_range display_chars (Z.rem (Z.of_nat (Byte.to_nat b)) 34))
    as (c & Hc & Hget).
  - change (Js.len display_chars) with 34.
    rewrite Z.rem_mod_nonneg by lia. now apply Z.mod_pos_bound.
  - exists c. split; [assumption|].
    exact (get_all _ _ _ _ Hget display_chars_in_alphabet).
Qed.

Lemma seeded_fold (bs : list byte) (l : list nat) :
  (forall i, In i l -> (i < length bs)%nat) ->
  forall acc,
    Js.all in_display_alphabet acc = true ->
    let code :=
      fold_left (fun code i =>
                   Js.append_elem code
                     (Js.at_index display_chars
                        (Js.rem (Js.parseInt16
                                   (Js.substring (Js.toString_hex bs) (i * 2) (i * 2 + 2)))
                                (Js.len display_chars))))
                (map Z.of_nat l) acc in
    String.length code = (String.length acc + length l)%nat
    /\ Js.all in_display_alphabet code = true.
Proof.
  induction l as [|i l IH]; intros Hl acc Hacc; cbn [map fold_left length].
  - split; [lia|assumption].
  - destruct (lookup_lt_is_Some_2 bs i) as [b Hb]; [apply Hl; now left|].
    destruct (seeded_index bs i b Hb) as (c & Hc & Hin). rewrite Hc.
    cbn [Js.append_elem].
    destruct (IH (fun j Hj => Hl j (or_intror Hj)) (acc ++ String c "")) as [Hlen Hall].
    + rewrite all_app, Hacc. simpl. now rewrite Hin.
    + cbv zeta in Hlen, Hall. rewrite Hlen, string_length_app. simpl. split; [lia|assumption].
Qed.

Lemma seeded_code_shape (bs : list byte) :
  (8 <= length bs)%nat ->
  String.length (seeded_code display_chars (Js.toString_hex bs)) = 8%nat
  /\ Js.all in_display_alphabet (seeded_code display_chars (Js.toString_hex bs)) = true.
Proof.
  intros Hlen. unfold seeded_code.
  apply (seeded_fold bs (seq 0 8)); [|reflexivity].
  intros i Hi. apply in_seq in Hi. lia.
Qed.

Lemma format_display_pattern (code : string) :
  String.length code = 8%nat ->
  Js.all in_display_alphabet code = true ->
  display_pattern (Js.substring code 0 4 ++ "-" ++ Js.substring_from code 4) = true.
Proof.
  intros Hlen Hall.
  do 9 (destruct code as [|? code]; try discriminate Hlen).
  cbn -[in_display_alphabet] in Hall |- *.
  repeat (apply andb_true_iff in Hall as [? Hall]).
  repeat (apply andb_true_iff; split); assumption || reflexivity.
Qed.

(** C4: whatever the seed, [generateDisplayCode] returns a string of the
    form XXXX-XXXX whose eight characters belong to the display alphabet. *)
Theorem generateDisplayCode_pattern (seed : option string) (w : World) :
  (forall s, length (md5 s) = 16%nat) ->
  exists code w',
    generateDisplayCode seed w = (Ok code, w') /\ display_pattern code = true.
Proof.
  intros Hmd5. unfold generateDisplayCode, bind.
  destruct (seed_truthy seed).
  - unfold ret. eexists _, _. split; [reflexivity|].
    destruct (seeded_code_shape (md5 (default "" seed))) as [Hl Ha];
      [rewrite Hmd5; lia|].
    now apply format_display_pattern.
  - unfold random_code. rewrite random_loop_run. unfold ret.
    eexists _, _. split; [reflexivity|].
    destruct (drawn_shape in_display_alphabet
                (fun code i => Js.append_elem code (Js.at_index display_chars (Some i)))
                (Js.len display_chars) (random_src w)) with
      (n := 8%nat) (pos := random_pos w) (acc := "") as [Hl Ha];
      [reflexivity|apply appends_one_at_index; reflexivity|reflexivity|].
    now apply format_display_pattern.
Qed.

(** ** The phone normaliser *)







Lemma digits_of_all_digits (input : string) :
  Js.all Js.is_digit (digits_of input) = true.
Proof.
  unfold digits_of. induction input as [|a s IH]; simpl; [reflexivity|].
  unfold Js.is_non_digit at 1. destruct (Js.is_digit a) eqn:Ha; simpl; [|assumption].
  now rewrite Ha.
Qed.




(** ** The pairing registry *)

Lemma generateSessionId_run (w : World) :
  generateSessionId w
  = (Ok (session_id_at w), set_crypto_pos (S (S (S (crypto_pos w)))) w).
Proof. reflexivity. Qed.

Lemma session_id_truthy (w : World) : seed_truthy (Some (session_id_at w)) = true.
Proof. reflexivity. Qed.

Lemma generateDisplayCode_seeded (sessionId : string) (w : World) :
  seed_truthy (Some sessionId) = true ->
  generateDisplayCode (Some sessionId) w = (Ok (display_code_of sessionId), w).
Proof.
  intros H. unfold generateDisplayCode, bind. now rewrite H.
Qed.

(** [generateNewPairingCode] returns as soon as the code generator does. *)
Lemma generateNewPairingCode_run (phoneNumber country : option string)
      (w : World) (k : nat) :
  generator_returns w k ->
  exists j, (j <= k)%nat
    /\ mixed (attempt w j) = true
    /\ generateNewPairingCode phoneNumber country w
       = (Ok (generated w country (attempt w j)),
          after_generate w phoneNumber country j).
Proof.
  intros [Hm Hk].
  destruct (generateAlphanumericCode_returns k stack_limit w Hm Hk)
    as (j & Hj & Hmj & Hrun).
  exists j. split; [assumption|]. split; [assumption|].
  unfold generateNewPairingCode. unfold bind at 1. rewrite Hrun.
  unfold bind at 1. rewrite generateSessionId_run.
  unfold bind at 1. rewrite generateDisplayCode_seeded by reflexivity.
  reflexivity.
Qed.

(** *** Linking on connection open *)

Lemma set_pairingCodes_id (w : World) : set_pairingCodes (pairingCodes w) w = w.
Proof. now destruct w. Qed.

Lemma link_loop_run (l : list (string * PairingRecord)) :
  forall w : World,
    for_each l
      (fun '(code, data) =>
         when (String.eqb (status data) "pending")
              (now <- Date_now ;;
               modify (fun w =>
                         set_pairingCodes
                           (<[code := mark_linked now data]> (pairingCodes w)) w))) w
    = (Ok tt, set_pairingCodes (foldl (link_step (clock w)) (pairingCodes w) l) w).
Proof.
  induction l as [|[code data] l IH]; intros w; cbn [for_each foldl].
  - unfold ret. now rewrite set_pairingCodes_id.
  - unfold bind at 1, when, link_step at 2. cbn [fst snd].
    destruct (String.eqb (status data) "pending").
    + unfold bind at 1, Date_now, gets, modify. rewrite IH. reflexivity.
    + unfold ret. apply IH.
Qed.

Lemma link_fold_other (now : Z) (l : list (string * PairingRecord)) (code : string) :
  code ∉ l.*1 ->
  forall codes, foldl (link_step now) codes l !! code = codes !! code.
Proof.
  induction l as [|[c d] l IH]; intros Hnot codes; cbn [foldl]; [reflexivity|].
  cbn in Hnot. apply not_elem_of_cons in Hnot as [Hne Hnot].
  rewrite IH by assumption. unfold link_step. cbn [fst snd].
  destruct (String.eqb (status d) "pending"); [|reflexivity].
  now rewrite lookup_insert_ne.
Qed.

Lemma link_fold_entry (now : Z) (l : list (string * PairingRecord))
      (code : string) (data : PairingRecord) :
  NoDup l.*1 -> (code, data) ∈ l ->
  forall codes,
    codes !! code = Some data ->
    foldl (link_step now) codes l !! code = Some (link_if_pending now data).
Proof.
  induction l as [|[c d] l IH]; intros Hnd Hin codes Hc; [now apply elem_of_nil in Hin|].
  cbn in Hnd. apply NoDup_cons in Hnd as [Hfresh Hnd].
  cbn [foldl]. apply elem_of_cons in Hin as [Heq|Hin].
  - inversion Heq; subst c d. rewrite link_fold_other by assumption.
    unfold link_step, link_if_pending. cbn [fst snd].
    destruct (String.eqb (status data) "pending"); [|assumption].
    apply lookup_insert_eq.
  - apply IH; [assumption..|].
    assert (c <> code) as Hne.
    { intros ->. apply Hfresh. apply list_elem_of_fmap. now exists (code, data). }
    unfold link_step. cbn [fst snd].
    destruct (String.eqb (status d) "pending"); [|assumption].
    now rewrite lookup_insert_ne.
Qed.

(** The loop maps [link_if_pending] over the registry. *)
Lemma link_fold_registry (now : Z) (codes : gmap string PairingRecord) :
  foldl (link_step now) codes (map_to_list codes) = link_if_pending now <$> codes.
Proof.
  apply map_eq. intros code. rewrite lookup_fmap.
  destruct (codes !! code) as [data|] eqn:Hc; cbn.
  - apply link_fold_entry; [apply NoDup_fst_map_to_list| |assumption].
    now apply elem_of_map_to_list.
  - rewrite link_fold_other; [assumption|].
    intros Hin. apply list_elem_of_fmap in Hin as ([c d] & -> & Hin).
    apply elem_of_map_to_list in Hin. cbn in Hc. congruence.
Qed.

Lemma link_pending_codes_run (w : World) :
  link_pending_codes w
  = (Ok tt, set_pairingCodes (link_if_pending (clock w) <$> pairingCodes w) w).
Proof.
  unfold link_pending_codes, bind, gets.
  now rewrite link_loop_run, link_fold_registry.
Qed.

(** The world [on_open] leaves. *)
Lemma on_open_run (w : World) :
  on_open w
  = (Ok tt,
     set_console (LogSessionSaved :: LogOnline :: console w)
       (set_sessionFile
          (Some (mkSessionInfo (clock w) (clock w + 30 * day_ms) "connected"
                               CONFIG.COMPANY_NAME (Some (clock w))))
          (set_pairingCodes (link_if_pending (clock w) <$> pairingCodes w)
             (set_autoActivationAttempts 0 (set_botStatus "online" w))))).
Proof.
  unfold on_open. unfold bind at 1. cbn [console_log modify].
  unfold bind at 1. cbn [modify]. unfold bind at 1. cbn [modify].
  unfold bind at 1. rewrite link_pending_codes_run. reflexivity.
Qed.

(** An open report and nothing else runs [on_open]. *)
Lemma connection_update_open_only (autoActivate : bool) (update : ConnectionUpdate)
      (w : World) :
  qr update = None -> connection update = Some "open" -> isNewLogin update = false ->
  connection_update autoActivate update w = on_open w.
Proof.
  intros Hq Hc Hl. unfold connection_update. rewrite Hq, Hc, Hl.
  cbn [string_truthy andb when connection_is String.eqb Ascii.eqb Bool.eqb].
  unfold bind, ret. destruct (on_open w) as [[[]|e] w']; reflexivity.
Qed.

(** C1: when the connection reports open, every record whose status is
    pending becomes linked with [linkedAt] the current time and every other
    record (linked, expired or anything else) stays as it is; no record is
    added or removed. *)
Theorem on_open_links_pending (w : World) :
  exists w',
    on_open w = (Ok tt, w')
    /\ (forall code data,
          pairingCodes w !! code = Some data -> status data = "pending" ->
          pairingCodes w' !! code = Some (mark_linked (clock w) data)
          /\ status (mark_linked (clock w) data) = "linked"
          /\ linkedAt (mark_linked (clock w) data) = Some (clock w))
    /\ (forall code data,
          pairingCodes w !! code = Some data -> status data <> "pending" ->
          pairingCodes w' !! code = Some data)
    /\ (forall code, pairingCodes w !! code = None -> pairingCodes w' !! code = None).
Proof.
  eexists. split; [apply on_open_run|].
  cbn [pairingCodes set_console set_sessionFile set_pairingCodes].
  split; [|split].
  - intros code data Hc Hs. rewrite lookup_fmap, Hc. cbn. unfold link_if_pending.
    now rewrite Hs.
  - intros code data Hc Hs. rewrite lookup_fmap, Hc. cbn. unfold link_if_pending.
    destruct (String.eqb_spec (status data) "pending"); congruence.
  - intros code Hc. now rewrite lookup_fmap, Hc.
Qed.

(** *** Expiry *)

Lemma expire_code_run (code displayCode : string) (w : World) :
  exists w',
    expire_code code displayCode w = (Ok tt, w')
    /\ pairingCodes w' = expire_registry code (pairingCodes w).
Proof.
  unfold expire_code, expire_registry, bind, gets.
  destruct (pairingCodes w !! code) as [data|]; [|now eexists].
  destruct (String.eqb (status data) "pending"); now eexists.
Qed.

Lemma expire_registry_deletes (code : string) (codes : gmap string PairingRecord) :
  (is_Some (codes !! code) /\ expire_registry code codes !! code = None)
  <-> exists data, codes !! code = Some data /\ status data = "pending".
Proof.
  unfold expire_registry. destruct (codes !! code) as [data|] eqn:Hc.
  - destruct (String.eqb_spec (status data) "pending") as [Hs|Hs].
    + rewrite lookup_delete_eq. split; [eauto|]. intros _. split; [eauto|reflexivity].
    + rewrite Hc. split; [intros [_ ?]; discriminate|].
      intros (d & Hd & Hp). congruence.
  - rewrite Hc. split; [intros [[? ?] _]; discriminate|].
    intros (d & Hd & _). discriminate.
Qed.

Lemma expire_registry_keeps (code : string) (codes : gmap string PairingRecord)
      (c : string) (data : PairingRecord) :
  codes !! c = Some data -> c <> code \/ status data <> "pending" ->
  expire_registry code codes !! c = Some data.
Proof.
  intros Hc Hkeep. unfold expire_registry.
  destruct (codes !! code) as [d|] eqn:Hcode; [|assumption].
  destruct (String.eqb_spec (status d) "pending") as [Hs|Hs]; [|assumption].
  destruct (decide (c = code)) as [->|Hne].
  - destruct Hkeep; congruence.
  - now rewrite lookup_delete_ne.
Qed.

Lemma expire_registry_other (code : string) (codes : gmap string PairingRecord)
      (c : string) :
  c <> code -> expire_registry code codes !! c = codes !! c.
Proof.
  intros Hne. unfold expire_registry.
  destruct (codes !! code) as [d|]; [|reflexivity].
  destruct (String.eqb (status d) "pending"); [|reflexivity].
  now rewrite lookup_delete_ne.
Qed.

(** Firing an expiry timer: nothing before it is due, the callback after. *)
Lemma fire_expiry_timer (i : nat) (attempt : outcome unit) (w : World)
      (t code displayCode : _) :
  timers w !! i = Some (mkTimer t (ExpireCode code displayCode)) ->
  exists w',
    fire_timer i attempt w = (Ok tt, w')
    /\ (clock w < t -> w' = w)
    /\ (t <= clock w -> pairingCodes w' = expire_registry code (pairingCodes w)).
Proof.
  intros Ht. unfold fire_timer, bind, Date_now, gets. rewrite Ht. cbn [due task].
  destruct (Z.leb_spec t (clock w)) as [Hdue|Hwait].
  - cbn [modify run_task].
    destruct (expire_code_run code displayCode
                (set_timers (take i (timers w) ++ drop (S i) (timers w)) w))
      as (w' & Hrun & Hcodes).
    exists w'. split; [exact Hrun|]. split; [lia|]. intros _. exact Hcodes.
  - exists w. split; [reflexivity|]. split; [reflexivity|lia].
Qed.

(** C2: a record created at time T comes with an expiry timer due at
    T + 10 minutes; that timer does nothing before it is due and, once due,
    deletes the record under the code exactly when one is present there
    with status pending.  Records that are not pending, linked ones among
    them, survive it, and so does every record under another code. *)
Theorem expiry_deletes_only_pending (phoneNumber country : option string)
        (w : World) (k : nat) :
  generator_returns w k ->
  exists g w1,
    generateNewPairingCode phoneNumber country w = (Ok g, w1)
    /\ (exists data,
          pairingCodes w1 !! g_code g = Some data
          /\ status data = "pending"
          /\ createdAt data = clock w
          /\ expiresAt data = clock w + 600000)
    /\ timers w1
       = (timers w
          ++ [mkTimer (clock w + 600000) (ExpireCode (g_code g) (g_displayCode g))])%list
    /\ forall (w2 : World) (i : nat) (attempt : outcome unit),
        timers w2 !! i
        = Some (mkTimer (clock w + 600000) (ExpireCode (g_code g) (g_displayCode g))) ->
        exists w3,
          fire_timer i attempt w2 = (Ok tt, w3)
          /\ (clock w2 < clock w + 600000 -> w3 = w2)
          /\ (clock w + 600000 <= clock w2 ->
              ((is_Some (pairingCodes w2 !! g_code g)
                /\ pairingCodes w3 !! g_code g = None)
               <-> exists data, pairingCodes w2 !! g_code g = Some data
                                /\ status data = "pending")
              /\ (forall c data,
                    pairingCodes w2 !! c = Some data -> status data <> "pending" ->
                    pairingCodes w3 !! c = Some data)
              /\ (forall c, c <> g_code g ->
                            pairingCodes w3 !! c = pairingCodes w2 !! c)).
Proof.
  intros Hret.
  destruct (generateNewPairingCode_run phoneNumber country w k Hret)
    as (j & _ & _ & Hrun).
  eexists _, _. split; [exact Hrun|].
  cbn [g_code g_displayCode generated after_generate pairingCodes timers
       set_timers set_console set_lastGeneratedCode set_pairingCodes].
  split; [|split; [reflexivity|]].
  - eexists. rewrite lookup_insert_eq. split; [reflexivity|]. now cbn.
  - intros w2 i att Ht.
    destruct (fire_expiry_timer i att w2 _ _ _ Ht) as (w3 & Hfire & Hearly & Hdue).
    exists w3. split; [assumption|]. split; [assumption|].
    intros Hnow. rewrite (Hdue Hnow). split; [apply expire_registry_deletes|].
    split.
    + intros c data Hc Hs. apply expire_registry_keeps; auto.
    + intros c Hne. now apply expire_registry_other.
Qed.

(** *** Storing a new record *)

(** C7, as the program has it: the registry holds at most one record per
    code, and [generateNewPairingCode] stores the new pending record under
    the code it generated without looking the code up first.  Every other
    code keeps its record; a record already present under the generated
    code is replaced and the size of the registry does not change,
    otherwise the size grows by one. *)
Theorem generateNewPairingCode_stores (phone_arg country_arg : option string)
        (w : World) (k : nat) :
  generator_returns w k ->
  exists g w1 data,
    generateNewPairingCode phone_arg country_arg w = (Ok g, w1)
    /\ pairingCodes w1 = <[g_code g := data]> (pairingCodes w)
    /\ pairingCodes w1 !! g_code g = Some data
    /\ code data = g_code g
    /\ status data = "pending"
    /\ sessionId data = g_sessionId g
    /\ phoneNumber data = phone_arg
    /\ (forall c, c <> g_code g -> pairingCodes w1 !! c = pairingCodes w !! c)
    /\ (is_Some (pairingCodes w !! g_code g) ->
        size (pairingCodes w1) = size (pairingCodes w))
    /\ (pairingCodes w !! g_code g = None ->
        size (pairingCodes w1) = S (size (pairingCodes w)))
    /\ (registry_keyed (pairingCodes w) -> registry_keyed (pairingCodes w1)).
Proof.
  intros Hret.
  destruct (generateNewPairingCode_run phone_arg country_arg w k Hret)
    as (j & _ & _ & Hrun).
  eexists _, _, _. split; [exact Hrun|].
  cbn [g_code g_sessionId generated after_generate pairingCodes
       set_timers set_console set_lastGeneratedCode set_pairingCodes].
  split; [reflexivity|]. split; [apply lookup_insert_eq|].
  do 4 (split; [reflexivity|]).
  split; [intros c Hne; now rewrite lookup_insert_ne|].
  split; [intros [old Hold]; now rewrite map_size_insert, Hold|].
  split; [intros Hnone; now rewrite map_size_insert, Hnone|].
  intros Hkeyed c data. rewrite lookup_insert.
  destruct (decide (attempt w j = c)) as [<-|Hne].
  - intros [= <-]. reflexivity.
  - apply Hkeyed.
Qed.

(** ** The HTTP endpoints *)

Lemma not_ready_spec (st : string) :
  not_ready st = true <-> st <> "qr_ready" /\ st <> "online".
Proof.
  forget_unused.
  unfold not_ready.
  destruct (String.eqb_spec st "qr_ready"), (String.eqb_spec st "online");
    cbn; split; try tauto; try discriminate; intros [? ?]; congruence.
Qed.

Lemma post_generate_code_missing (body : Js.object) (w : World) :
  Js.truthy (Js.field "phoneNumber" body) = false ->
  post_generate_code body w
  = (Ok (mkResponse 400 [("success", Js.Bool false);
                         ("message", Js.Str "Please enter a phone number")]), w).
Proof.
  intros H. unfold post_generate_code, try_catch. now rewrite H.
Qed.

Lemma post_generate_code_invalid (body : Js.object) (w : World) (error : string) :
  Js.truthy (Js.field "phoneNumber" body) = true ->
  validateAndFormatPhoneNumber (Js.field "phoneNumber" body) = Invalid error ->
  post_generate_code body w
  = (Ok (mkResponse 400 [("success", Js.Bool false);
                         ("message", Js.Str (error_or_default error))]), w).
Proof.
  intros Ht Hv. unfold post_generate_code, try_catch. now rewrite Ht, Hv.
Qed.

Lemma post_generate_code_not_ready (body : Js.object) (w : World)
      (formatted cc : string) (country : option string) (national raw : string) :
  Js.truthy (Js.field "phoneNumber" body) = true ->
  validateAndFormatPhoneNumber (Js.field "phoneNumber" body)
  = Valid formatted cc country national raw ->
  not_ready (botStatus w) = true ->
  post_generate_code body w
  = (Ok (mkResponse 503 [("success", Js.Bool false);
                         ("message", Js.Str "Service is connecting. Please wait a moment...")]),
     w).
Proof.
  intros Ht Hv Hs. unfold post_generate_code, try_catch. rewrite Ht, Hv.
  cbn [negb]. unfold bind, gets. now rewrite Hs.
Qed.

Lemma post_generate_code_ready (body : Js.object) (w : World) (k : nat)
      (formatted cc : string) (country : option string) (national raw : string) :
  Js.truthy (Js.field "phoneNumber" body) = true ->
  validateAndFormatPhoneNumber (Js.field "phoneNumber" body)
  = Valid formatted cc country national raw ->
  not_ready (botStatus w) = false ->
  generator_returns w k ->
  exists j, (j <= k)%nat
    /\ mixed (attempt w j) = true
    /\ post_generate_code body w
       = (Ok (mkResponse 200 (generate_code_success formatted country
                                (generated w country (attempt w j)))),
          after_generate w (Some formatted) country j).
Proof.
  intros Ht Hv Hs Hret.
  destruct (generateNewPairingCode_run (Some formatted) country w k Hret)
    as (j & Hj & Hmixed & Hrun).
  exists j. split; [assumption|]. split; [assumption|].
  unfold post_generate_code, try_catch. rewrite Ht, Hv.
  cbn [negb]. unfold bind at 1, gets. rewrite Hs. unfold bind. now rewrite Hrun.
Qed.

(** C6: POST /generate-code answers 400 with [success: false] when the
    phone number is missing or does not validate; otherwise 503 with
    [success: false] when the bot status is neither qr_ready nor online
    (so while connecting); otherwise, the code generator returning, 200
    with [success: true], the validated number as phoneNumber, a message,
    and the code, displayCode, sessionId and expiresAt of the pending
    record it has just stored under that code.  The body has the key
    country when the validation determined a country; when it did not, the
    value is [undefined] and the JSON body has no such key. *)
Theorem post_generate_code_responses (body : Js.object) (w : World) :
  let number := Js.field "phoneNumber" body in
  let valid := isValid (validateAndFormatPhoneNumber number) in
  (Js.truthy number = false \/ valid = false ->
   exists message,
     post_generate_code body w
     = (Ok (mkResponse 400 [("success", Js.Bool false);
                            ("message", Js.Str message)]), w))
  /\ (Js.truthy number = true -> valid = true ->
      botStatus w <> "qr_ready" -> botStatus w <> "online" ->
      exists message,
        post_generate_code body w
        = (Ok (mkResponse 503 [("success", Js.Bool false);
                               ("message", Js.Str message)]), w))
  /\ (Js.truthy number = true -> valid = true ->
      botStatus w = "connecting" ->
      exists message,
        post_generate_code body w
        = (Ok (mkResponse 503 [("success", Js.Bool false);
                               ("message", Js.Str message)]), w))
  /\ (forall k formatted cc country_arg national raw,
        Js.truthy number = true ->
        validateAndFormatPhoneNumber number
        = Valid formatted cc country_arg national raw ->
        botStatus w = "qr_ready" \/ botStatus w = "online" ->
        generator_returns w k ->
        exists g w' data,
          let answer := generate_code_success formatted country_arg g in
          post_generate_code body w = (Ok (mkResponse 200 answer), w')
          /\ map fst answer
             = match country_arg with
               | Some _ => ["success"; "code"; "displayCode"; "phoneNumber"; "country";
                            "sessionId"; "expiresAt"; "message"]
               | None => ["success"; "code"; "displayCode"; "phoneNumber";
                          "sessionId"; "expiresAt"; "message"]
               end
          /\ Js.field "success" answer = Js.Bool true
          /\ Js.field "code" answer = Js.Str (g_code g)
          /\ Js.field "displayCode" answer = Js.Str (g_displayCode g)
          /\ Js.field "phoneNumber" answer = Js.Str formatted
          /\ Js.field "country" answer = optional_string country_arg
          /\ Js.field "sessionId" answer = Js.Str (g_sessionId g)
          /\ Js.field "expiresAt" answer = Js.Date (g_expiresAt g)
          /\ Js.field "message" answer
             = Js.Str "IAN TECH: Pairing code generated successfully"
          /\ (exists j, (j <= k)%nat /\ g_code g = attempt w j
                        /\ mixed (g_code g) = true)
          /\ g_sessionId g = session_id_at w
          /\ g_displayCode g = display_code_of (g_sessionId g)
          /\ pairingCodes w' = <[g_code g := data]> (pairingCodes w)
          /\ code data = g_code g
          /\ displayCode data = g_displayCode g
          /\ sessionId data = g_sessionId g
          /\ expiresAt data = g_expiresAt g
          /\ g_expiresAt g = clock w + 600000
          /\ status data = "pending"
          /\ phoneNumber data = Some formatted
          /\ country data = country_arg
          /\ timers w'
             = (timers w ++ [mkTimer (g_expiresAt g)
                                     (ExpireCode (g_code g) (g_displayCode g))])%list).
Proof.
  intros number valid. subst valid.
  pose proof (eq_refl : number = Js.field "phoneNumber" body) as Hphone.
  clearbody number. subst number.
  assert (forall st, st <> "qr_ready" -> st <> "online" -> not_ready st = true)
    as Hnot by (intros; now apply not_ready_spec).
  split; [|split; [|split]].
  - intros [Hmissing|Hinvalid].
    + eexists. now apply post_generate_code_missing.
    + destruct (Js.truthy (Js.field "phoneNumber" body)) eqn:Ht.
      * destruct (validateAndFormatPhoneNumber (Js.field "phoneNumber" body)) eqn:Hv; [discriminate|].
        eexists. eapply post_generate_code_invalid; eassumption.
      * eexists. now apply post_generate_code_missing.
  - intros Ht Hvalid Hqr Honline.
    destruct (validateAndFormatPhoneNumber (Js.field "phoneNumber" body)) eqn:Hv; [|discriminate].
    eexists. eapply post_generate_code_not_ready; eauto.
  - intros Ht Hvalid Hst.
    destruct (validateAndFormatPhoneNumber (Js.field "phoneNumber" body)) eqn:Hv; [|discriminate].
    eexists. eapply post_generate_code_not_ready; eauto.
    now rewrite Hst.
  - intros k formatted cc country_arg national raw Ht Hv Hst Hret.
    destruct (post_generate_code_ready body w k formatted cc country_arg national raw)
      as (j & Hj & Hmixed & Hrun); auto.
    { destruct Hst as [-> | ->]; reflexivity. }
    exists (generated w country_arg (attempt w j)),
      (after_generate w (Some formatted) country_arg j),
      (new_record w (Some formatted) country_arg (attempt w j)).
    cbv zeta. split; [exact Hrun|].
    split; [destruct country_arg; reflexivity|].
    do 3 (split; [destruct country_arg; reflexivity|]).
    split; [destruct country_arg; reflexivity|].
    split; [destruct country_arg; reflexivity|].
    split; [destruct country_arg; reflexivity|].
    split; [destruct country_arg; reflexivity|].
    split; [destruct country_arg; reflexivity|].
    split; [exists j; split; [exact Hj|split; [reflexivity|exact Hmixed]]|].
    repeat split.
Qed.

(** C10: POST /getqr with a phone number that validates, while the bot is
    online, answers 200 with [success: true] and [qrImage] exactly [null],
    and has stored a fresh pending record whose code, display code, session
    id and expiry are the ones it returns. *)
Theorem post_getqr_online (body : Js.object) (w : World) (k : nat)
        (formatted cc : string) (country_arg : option string) (national raw : string) :
  Js.truthy (Js.field "phoneNumber" body) = true ->
  validateAndFormatPhoneNumber (Js.field "phoneNumber" body)
  = Valid formatted cc country_arg national raw ->
  botStatus w = "online" ->
  generator_returns w k ->
  exists g w' data,
    post_getqr body w
    = (Ok (mkResponse 200 (getqr_online_success formatted country_arg g)), w')
    /\ Js.field "success" (getqr_online_success formatted country_arg g) = Js.Bool true
    /\ Js.field "qrImage" (getqr_online_success formatted country_arg g) = Js.Null
    /\ pairingCodes w' = <[g_code g := data]> (pairingCodes w)
    /\ code data = g_code g
    /\ displayCode data = g_displayCode g
    /\ sessionId data = g_sessionId g
    /\ expiresAt data = g_expiresAt g
    /\ g_expiresAt g = clock w + 600000
    /\ status data = "pending"
    /\ phoneNumber data = Some formatted.
Proof.
  intros Ht Hv Hst Hret.
  destruct (generateNewPairingCode_run (Some formatted) country_arg w k Hret)
    as (j & _ & _ & Hrun).
  eexists _, _, _. split.
  - unfold post_getqr, try_catch at 1. rewrite Ht, Hv. cbn [negb].
    unfold bind at 1, gets. unfold bind at 1. rewrite Hst.
    cbn [String.eqb Ascii.eqb Bool.eqb andb].
    unfold bind. rewrite Hrun. reflexivity.
  - cbn [g_code g_displayCode g_sessionId g_expiresAt generated after_generate
         pairingCodes set_timers set_console set_lastGeneratedCode set_pairingCodes].
    repeat split.
Qed.

(** ** The connection manager *)

(** *** Initialisation failure *)

Lemma initWhatsApp_failure_run (autoActivate : bool) (msg : string) (w : World) :
  initWhatsApp autoActivate (Throw msg) w = (Ok tt, after_init_failure autoActivate msg w).
Proof.
  unfold initWhatsApp, after_init_failure, bind, try_catch, console_log, modify,
    lift, gets, setTimeout.
  cbn [autoActivationAttempts set_console set_botStatus].
  destruct (autoActivationAttempts w <? MAX_AUTO_ACTIVATION_ATTEMPTS); reflexivity.
Qed.

Lemma after_init_failure_pending (autoActivate : bool) (msg : string) (w : World) :
  retry_pending (after_init_failure autoActivate msg w).
Proof.
  unfold retry_pending, after_init_failure.
  destruct (autoActivationAttempts w <? MAX_AUTO_ACTIVATION_ATTEMPTS);
    cbn [timers set_timers]; rewrite last_snoc; eauto.
Qed.

Lemma fail_again_run (msg : string) (w : World) :
  retry_pending w ->
  exists w',
    fail_again msg w = (Ok tt, w')
    /\ botStatus w' = "error"
    /\ retry_pending w'.
Proof.
  intros (t & Hlast & Hretry).
  apply last_Some in Hlast as [ts Hts].
  unfold fail_again, bind at 1, gets. rewrite Hts, last_snoc.
  unfold bind at 1, advance_clock, modify, fire_timer, bind at 1, gets.
  cbn [timers set_clock]. rewrite Hts.
  unfold bind at 1, Date_now, gets. cbn [clock set_clock].
  rewrite length_app. cbn [length].
  replace (length ts + 1 - 1)%nat with (length ts) by lia.
  rewrite list_lookup_middle by reflexivity.
  destruct (Z.leb_spec (due t) (Z.max (clock w) (due t))) as [_|Hlt]; [|lia].
  unfold bind at 1, modify.
  destruct t as [d [c dc|[|]|]]; try discriminate Hretry;
    cbn [task run_task]; [|unfold bind at 1, modify];
    rewrite initWhatsApp_failure_run;
    (eexists; split; [reflexivity|]);
    (split; [|apply after_init_failure_pending]);
    unfold after_init_failure;
    match goal with |- context [if ?b then _ else _] => destruct b end;
    reflexivity.
Qed.

Lemma fail_repeatedly_run (msg : string) (n : nat) :
  forall w : World,
    retry_pending w -> botStatus w = "error" ->
    exists w',
      fail_repeatedly n msg w = (Ok tt, w')
      /\ botStatus w' = "error"
      /\ retry_pending w'.
Proof.
  induction n as [|n IH]; intros w Hpending Hst; cbn [fail_repeatedly].
  - exists w. auto.
  - destruct (fail_again_run msg w Hpending) as (w1 & Hrun & Hst1 & Hpending1).
    destruct (IH w1 Hpending1 Hst1) as (w2 & Hrun2 & Hst2 & Hpending2).
    exists w2. unfold bind. rewrite Hrun. auto.
Qed.

(** C9: an initialisation that throws always queues another one: after 10
    seconds while the attempt counter is below 3, otherwise after 30
    seconds by a callback that first resets the counter to zero; both
    callbacks call [initWhatsApp(true)].  However many times in a row the
    retry fails in its turn, a further retry is pending. *)
Theorem initWhatsApp_failure_retries (autoActivate : bool) (msg : string) (w : World) :
  exists w',
    initWhatsApp autoActivate (Throw msg) w = (Ok tt, w')
    /\ botStatus w' = "error"
    /\ autoActivationAttempts w' = autoActivationAttempts w
    /\ (autoActivationAttempts w < 3 ->
        timers w' = (timers w ++ [mkTimer (clock w + 10000) (Reinit true)])%list)
    /\ (3 <= autoActivationAttempts w ->
        timers w' = (timers w ++ [mkTimer (clock w + 30000) ResetAndReinit])%list)
    /\ (forall attempt w2,
          run_task (Reinit true) attempt w2 = initWhatsApp true attempt w2)
    /\ (forall attempt w2,
          run_task ResetAndReinit attempt w2
          = initWhatsApp true attempt (set_autoActivationAttempts 0 w2))
    /\ (forall n msg',
          exists w'',
            fail_repeatedly n msg' w' = (Ok tt, w'')
            /\ botStatus w'' = "error"
            /\ retry_pending w'').
Proof.
  exists (after_init_failure autoActivate msg w).
  split; [apply initWhatsApp_failure_run|].
  assert (botStatus (after_init_failure autoActivate msg w) = "error") as Hst.
  { unfold after_init_failure.
    destruct (autoActivationAttempts w <? MAX_AUTO_ACTIVATION_ATTEMPTS); reflexivity. }
  split; [exact Hst|]. split; [|split; [|split; [|split; [|split]]]].
  - unfold after_init_failure.
    destruct (autoActivationAttempts w <? MAX_AUTO_ACTIVATION_ATTEMPTS); reflexivity.
  - intros Hlt. unfold after_init_failure, MAX_AUTO_ACTIVATION_ATTEMPTS.
    destruct (Z.ltb_spec (autoActivationAttempts w) 3); [reflexivity|lia].
  - intros Hge. unfold after_init_failure, MAX_AUTO_ACTIVATION_ATTEMPTS.
    destruct (Z.ltb_spec (autoActivationAttempts w) 3); [lia|reflexivity].
  - reflexivity.
  - reflexivity.
  - intros n msg'. apply fail_repeatedly_run; [apply after_init_failure_pending|exact Hst].
Qed.

(** *** QR events *)

Lemma generateAlphanumericCode_cases (depth : nat) :
  forall w : World,
    (exists j, mixed (attempt w j) = true
               /\ generateAlphanumericCode depth w
                  = (Ok (attempt w j), set_random_pos (random_pos w + 8 * S j) w))
    \/ generateAlphanumericCode depth w
       = (Throw "Maximum call stack size exceeded",
          set_random_pos (random_pos w + 8 * depth) w).
Proof.
  induction depth as [|depth IH]; intros w.
  - right. cbn [generateAlphanumericCode]. unfold throw. f_equal.
    destruct w; unfold set_random_pos; simpl. f_equal. lia.
  - rewrite generateAlphanumericCode_step.
    destruct (mixed (attempt w 0)) eqn:Hm.
    + left. exists 0%nat. split; [assumption|]. repeat f_equal.
    + destruct (IH (set_random_pos (random_pos w + 8) w)) as [(j & Hmj & Hrun)|Hrun].
      * left. exists (S j). rewrite attempt_shift in Hmj, Hrun.
        split; [assumption|]. rewrite Hrun. f_equal.
        destruct w; unfold set_random_pos; simpl. f_equal. lia.
      * right. rewrite Hrun. f_equal. destruct w; unfold set_random_pos; simpl. f_equal. lia.
Qed.

Lemma generateNewPairingCode_cases (phone_arg country_arg : option string) (w : World) :
  (exists j, mixed (attempt w j) = true
             /\ generateNewPairingCode phone_arg country_arg w
                = (Ok (generated w country_arg (attempt w j)),
                   after_generate w phone_arg country_arg j))
  \/ exists n, generateNewPairingCode phone_arg country_arg w
               = (Throw "Maximum call stack size exceeded", set_random_pos n w).
Proof.
  destruct (generateAlphanumericCode_cases stack_limit w) as [(j & Hm & Hrun)|Hrun].
  - left. exists j. split; [assumption|].
    unfold generateNewPairingCode. unfold bind at 1. rewrite Hrun.
    unfold bind at 1. rewrite generateSessionId_run.
    unfold bind at 1. rewrite generateDisplayCode_seeded by reflexivity.
    reflexivity.
  - right. eexists. unfold generateNewPairingCode. unfold bind at 1.
    rewrite Hrun. reflexivity.
Qed.

Lemma publish_qr_run (qr : string) (w : World) :
  exists w',
    publish_qr qr w = (Ok tt, w')
    /\ publish_frame w w'
    /\ (forall url k,
          QRCode_toDataURL qr = Ok url -> generator_returns w k ->
          exists j, (j <= k)%nat
            /\ qrImageDataUrl w' = Some url
            /\ lastGeneratedCode w' = Some (attempt w j)
            /\ pairingCodes w' !! attempt w j
               = Some (new_record (set_qrImageDataUrl (Some url) w) None None
                                  (attempt w j))).
Proof.
  forget_unused.
  unfold publish_qr, try_catch. unfold bind at 1, lift.
  destruct (QRCode_toDataURL qr) as [url|e] eqn:Hurl.
  - unfold bind at 1, modify. unfold bind at 1, console_log, modify.
    unfold bind at 1.
    set (w1 := set_console _ _).
    destruct (generateNewPairingCode_cases None None w1) as [(j & Hm & Hrun)|(n & Hrun)];
      rewrite Hrun.
    + eexists. split; [reflexivity|]. split.
      * unfold publish_frame. cbn. repeat split.
        -- exists [LogReadyForPairingCodes;
                   LogGenerated (display_code_of (session_id_at w1)) None None;
                   LogQrReadyForWeb].
           split; [reflexivity|]. cbn. intuition discriminate.
        -- right. eauto.
      * intros url' k [= <-] Hret.
        destruct (generateNewPairingCode_run None None w1 k Hret) as (j' & Hj' & _ & Hrun').
        rewrite Hrun in Hrun'.
        assert (attempt w1 j = attempt w1 j') as Hcode
            by (unfold generated in Hrun'; congruence).
        exists j'. split; [assumption|].
        replace (attempt w j') with (attempt w1 j) by (rewrite Hcode; reflexivity).
        cbn. split; [reflexivity|]. split; [reflexivity|].
        rewrite lookup_insert_eq. reflexivity.
    + eexists. split; [reflexivity|]. split.
      * unfold publish_frame. cbn. repeat split.
        -- exists [LogQrGenerationError "Maximum call stack size exceeded"; LogQrReadyForWeb].
           split; [reflexivity|]. cbn. intuition discriminate.
        -- now left.
      * intros url' k [= <-] Hret.
        destruct (generateNewPairingCode_run None None w1 k Hret) as (j' & _ & _ & Hrun').
        rewrite Hrun in Hrun'. discriminate.
  - eexists. split; [reflexivity|]. split.
    + unfold publish_frame. cbn. repeat split.
      * exists [LogQrGenerationError e]. split; [reflexivity|]. cbn. intuition discriminate.
      * now left.
    + intros url k Hok. discriminate.
Qed.

Lemma on_qr_run (qr : string) (w w1 : World) :
  publish_qr qr (qr_announced qr w) = (Ok tt, w1) ->
  on_qr qr w = (Ok tt, qr_counted w1).
Proof.
  intros Hpub. unfold on_qr.
  unfold bind at 1, gets. unfold bind at 1, console_log, modify.
  unfold bind at 1. unfold bind at 1. unfold bind at 1.
  fold (qr_announced qr w). rewrite Hpub.
  unfold bind at 1. unfold bind at 1, gets. unfold qr_counted, when.
  cbn [autoActivationAttempts set_autoActivationAttempts].
  destruct (autoActivationAttempts w1 + 1 >=? MAX_AUTO_ACTIVATION_ATTEMPTS); reflexivity.
Qed.

Lemma connection_update_qr_only (update : ConnectionUpdate) (q : string) (w w1 : World) :
  qr update = Some q -> q <> "" -> connection update = None ->
  isNewLogin update = false ->
  on_qr q w = (Ok tt, w1) ->
  connection_update true update w = (Ok tt, w1).
Proof.
  intros Hq Hne Hc Hlogin Hrun. unfold connection_update. rewrite Hq, Hc, Hlogin.
  cbn [string_truthy from_option id connection_is when andb].
  apply String.eqb_neq in Hne. rewrite Hne. cbn [negb andb when].
  unfold bind. now rewrite Hrun.
Qed.

(** A QR report in auto-activation mode: the counter goes up by one
    whatever its value, the report is handled in full, and nothing but the
    expiry timer of the generated code is queued. *)
Lemma qr_event_handled (update : ConnectionUpdate) (q : string) (w : World) :
  qr update = Some q -> q <> "" -> connection update = None ->
  isNewLogin update = false ->
  exists w',
    connection_update true update w = (Ok tt, w')
    /\ autoActivationAttempts w' = autoActivationAttempts w + 1
    /\ currentQR w' = Some q
    /\ botStatus w' = "qr_ready"
    /\ (exists lines,
          console w' = (lines ++ console w)%list
          /\ (In (LogAutoActivationFailed 3) lines <-> 3 <= autoActivationAttempts w + 1))
    /\ (timers w' = timers w
        \/ exists c d,
            timers w' = (timers w ++ [mkTimer (clock w + 600000) (ExpireCode c d)])%list)
    /\ (forall url k,
          QRCode_toDataURL q = Ok url -> generator_returns w k ->
          exists j data,
            (j <= k)%nat
            /\ qrImageDataUrl w' = Some url
            /\ pairingCodes w' !! attempt w j = Some data
            /\ status data = "pending"
            /\ qrData data = Some q).
Proof.
  forget_unused.
  intros Hq Hne Hc Hlogin.
  destruct (publish_qr_run q (qr_announced q w))
    as (w1 & Hpub & (Hn & Hcur & Hst & Hclock & (lines & Hlines & Hnot) & Htimers) & Hrec).
  exists (qr_counted w1).
  split; [eapply connection_update_qr_only; eauto using on_qr_run|].
  unfold qr_counted. rewrite Hn. cbn [autoActivationAttempts qr_announced
    set_botStatus set_currentQR set_console].
  destruct (Z.geb_spec (autoActivationAttempts w + 1) MAX_AUTO_ACTIVATION_ATTEMPTS)
    as [Hcap|Hcap]; unfold MAX_AUTO_ACTIVATION_ATTEMPTS in Hcap;
    cbn [autoActivationAttempts currentQR botStatus console timers qrImageDataUrl
         pairingCodes set_console set_autoActivationAttempts];
    rewrite Hcur, Hst, Hlines;
    (split; [reflexivity|]); (split; [reflexivity|]); (split; [reflexivity|]).
  - split.
    { exists (LogAutoActivationFailed 3 :: lines ++ [LogQrAttempt (autoActivationAttempts w + 1) 3])%list.
      split; [cbn; now rewrite <- app_assoc|].
      split; [intros; lia|intros; now left]. }
    split; [exact Htimers|].
    intros url k Hurl Hret. destruct (Hrec url k Hurl Hret) as (j & Hj & Himg & _ & Hrecord).
    eexists j, _. split; [assumption|]. split; [assumption|]. split; [exact Hrecord|].
    split; reflexivity.
  - split.
    { exists (lines ++ [LogQrAttempt (autoActivationAttempts w + 1) 3])%list.
      split; [now rewrite <- app_assoc|].
      split; [|intros; lia].
      intros Hin. apply in_app_or in Hin as [Hin|Hin]; [now apply Hnot in Hin|].
      cbn in Hin. intuition discriminate. }
    split; [exact Htimers|].
    intros url k Hurl Hret. destruct (Hrec url k Hurl Hret) as (j & Hj & Himg & _ & Hrecord).
    eexists j, _. split; [assumption|]. split; [assumption|]. split; [exact Hrecord|].
    split; reflexivity.
Qed.

(** ** Further properties of the generators *)

(** X1: [generateAlphanumericCode] returns the first mixed attempt, having
    read eight draws per attempt made, and throws exactly when none of the
    attempts the stack allows is mixed. *)
Theorem generateAlphanumericCode_first_mixed (depth : nat) :
  forall w : World,
    (exists j, (j < depth)%nat
               /\ mixed (attempt w j) = true
               /\ (forall i, (i < j)%nat -> mixed (attempt w i) = false)
               /\ generateAlphanumericCode depth w
                  = (Ok (attempt w j), set_random_pos (random_pos w + 8 * S j) w))
    \/ ((forall j, (j < depth)%nat -> mixed (attempt w j) = false)
        /\ generateAlphanumericCode depth w
           = (Throw "Maximum call stack size exceeded",
              set_random_pos (random_pos w + 8 * depth) w)).
Proof.
  induction depth as [|depth IH]; intros w.
  - right. split; [intros j Hj; lia|].
    cbn [generateAlphanumericCode]. unfold throw. f_equal.
    destruct w; unfold set_random_pos; simpl. f_equal. lia.
  - rewrite generateAlphanumericCode_step.
    destruct (mixed (attempt w 0)) eqn:Hm.
    + left. exists 0%nat. split; [lia|]. split; [assumption|].
      split; [intros i Hi; lia|]. repeat f_equal.
    + destruct (IH (set_random_pos (random_pos w + 8) w))
        as [(j & Hj & Hmj & Hbefore & Hrun)|[Hnone Hrun]].
      * left. exists (S j). rewrite attempt_shift in Hmj, Hrun.
        split; [lia|]. split; [assumption|]. split.
        { intros [|i] Hi; [assumption|]. rewrite <- attempt_shift. apply Hbefore. lia. }
        rewrite Hrun. f_equal.
        destruct w; unfold set_random_pos; simpl. f_equal. lia.
      * right. split.
        { intros [|j] Hj; [assumption|]. rewrite <- attempt_shift. apply Hnone. lia. }
        rewrite Hrun. f_equal. destruct w; unfold set_random_pos; simpl. f_equal. lia.
Qed.

Lemma toUpperCase_app (s t : string) :
  Js.toUpperCase (s ++ t) = Js.toUpperCase s ++ Js.toUpperCase t.
Proof.
  induction s as [|a s IH]; [reflexivity|].
  change (String (Js.to_upper_char a) (Js.toUpperCase (s ++ t))
          = String (Js.to_upper_char a) (Js.toUpperCase s ++ Js.toUpperCase t)).
  now rewrite IH.
Qed.

Lemma upper_hex_of_byte (b : byte) :
  exists c1 c2,
    Js.toUpperCase (Js.hex_of_byte b) = String c1 (String c2 "")
    /\ is_upper_hex c1 = true /\ is_upper_hex c2 = true.
Proof. destruct b; eexists _, _; repeat split. Qed.

(** X2: a session id is the prefix, the clock in decimal and six
    characters of [0-9A-F], joined by underscores; making it reads three
    bytes of [crypto.randomBytes] and leaves everything else alone, the
    draws of [Math.random] included. *)
Theorem generateSessionId_format (w : World) :
  exists suffix,
    generateSessionId w
    = (Ok ("IAN_TECH_" ++ pretty (clock w) ++ "_" ++ suffix),
       set_crypto_pos (crypto_pos w + 3) w)
    /\ String.length suffix = 6%nat
    /\ Js.all is_upper_hex suffix = true.
Proof.
  rewrite generateSessionId_run. unfold session_id_at.
  destruct (upper_hex_of_byte (crypto_src w (crypto_pos w))) as (a1 & a2 & Ha & Ha1 & Ha2).
  destruct (upper_hex_of_byte (crypto_src w (S (crypto_pos w))))
    as (b1 & b2 & Hb & Hb1 & Hb2).
  destruct (upper_hex_of_byte (crypto_src w (S (S (crypto_pos w)))))
    as (c1 & c2 & Hc & Hc1 & Hc2).
  exists (String a1 (String a2 (String b1 (String b2 (String c1 (String c2 "")))))).
  split; [|split; [reflexivity|cbn [Js.all]; now rewrite Ha1, Ha2, Hb1, Hb2, Hc1, Hc2]].
  f_equal; [|destruct w; unfold set_crypto_pos; simpl; f_equal; lia].
  f_equal.
  change (Js.toString_hex [crypto_src w (crypto_pos w);
                           crypto_src w (S (crypto_pos w));
                           crypto_src w (S (S (crypto_pos w)))])
    with (Js.hex_of_byte (crypto_src w (crypto_pos w))
          ++ Js.hex_of_byte (crypto_src w (S (crypto_pos w)))
          ++ Js.hex_of_byte (crypto_src w (S (S (crypto_pos w)))) ++ "").
  rewrite !toUpperCase_app, Ha, Hb, Hc. reflexivity.
Qed.

Lemma seeded_index_value (bs : list byte) (i : nat) (b : byte) :
  bs !! i = Some b ->
  Js.at_index display_chars
    (Js.rem (Js.parseInt16 (Js.substring (Js.toString_hex bs)
                                         (Z.of_nat i * 2) (Z.of_nat i * 2 + 2)))
            (Js.len display_chars)) = Some (alphabet_char b).
Proof.
  intros Hb. unfold Js.substring.
  replace (Z.to_nat (Z.of_nat i * 2)) with (2 * i)%nat by lia.
  replace (Z.to_nat (Z.of_nat i * 2 + 2)) with (2 * i + 2)%nat by lia.
  replace (Nat.min (2 * i) (2 * i + 2)) with (2 * i)%nat by lia.
  replace (Nat.max (2 * i) (2 * i + 2) - 2 * i)%nat with 2%nat by lia.
  rewrite (substring_toString_hex bs i b Hb), parseInt16_hex_of_byte.
  clear. destruct b; reflexivity.
Qed.

(** X3: hexadecimal rendering and [parseInt] cancel, so the seeded display
    code is read off the first eight bytes of the digest: character [k] is
    the letter of the alphabet at index (byte [k] mod 34), with the hyphen
    after the fourth. *)
Theorem generateDisplayCode_seeded_bytes (seed : string) (w : World)
        (b0 b1 b2 b3 b4 b5 b6 b7 : byte) (rest : list byte) :
  seed <> "" ->
  md5 seed = b0 :: b1 :: b2 :: b3 :: b4 :: b5 :: b6 :: b7 :: rest ->
  generateDisplayCode (Some seed) w
  = (Ok (string_of_list_ascii (map alphabet_char [b0; b1; b2; b3])
         ++ "-" ++ string_of_list_ascii (map alphabet_char [b4; b5; b6; b7])),
     w).
Proof.
  intros Hseed Hmd5.
  rewrite generateDisplayCode_seeded
    by (cbn; apply String.eqb_neq in Hseed; now rewrite Hseed).
  unfold display_code_of, seeded_code. rewrite Hmd5.
  cbn [seq map fold_left].
  rewrite !(seeded_index_value _ 0 b0), !(seeded_index_value _ 1 b1),
    !(seeded_index_value _ 2 b2), !(seeded_index_value _ 3 b3),
    !(seeded_index_value _ 4 b4), !(seeded_index_value _ 5 b5),
    !(seeded_index_value _ 6 b6), !(seeded_index_value _ 7 b7) by reflexivity.
  reflexivity.
Qed.

(** ** Further properties of the phone normaliser *)

Lemma prefix_app (p s : string) : String.prefix p (p ++ s) = true.
Proof.
  induction p as [|a p IH]; [now destruct s|].
  change (String.prefix (String a p) (String a (p ++ s)) = true).
  cbn [String.prefix]. destruct (ascii_dec a a); [assumption|congruence].
Qed.

Lemma substring_after_prefix (p s : string) (n : nat) :
  (String.length s <= n)%nat ->
  String.substring (String.length p) n (p ++ s) = s.
Proof.
  intros Hn. induction p as [|a p IH].
  - change (String.substring 0 n s = s). revert n Hn.
    induction s as [|a s IH]; intros n Hn; [now destruct n|].
    destruct n as [|n]; [simpl in Hn; lia|].
    cbn [String.substring]. rewrite IH; [reflexivity|]. simpl in Hn. lia.
  - change (String.substring (S (String.length p)) n (String a (p ++ s)) = s).
    cbn [String.substring]. exact IH.
Qed.

Lemma replace_first_prefix (p s : string) : Js.replace_first p "" (p ++ s) = s.
Proof.
  assert (forall t, Js.replace_first p "" t
                    = if String.prefix p t
                      then "" ++ String.substring (String.length p) (String.length t) t
                      else match t with
                           | EmptyString => EmptyString
                           | String c t' => String c (Js.replace_first p "" t')
                           end) as Hunfold by (intros [|c t]; reflexivity).
  rewrite Hunfold, prefix_app.
  change ("" ++ ?x) with x.
  apply substring_after_prefix. rewrite string_length_app. lia.
Qed.

Lemma replace_first_digits (p digits : string) :
  Js.all Js.is_digit digits = true ->
  Js.replace_first (String "+" p) "" digits = digits.
Proof.
  induction digits as [|d digits IH]; [reflexivity|].
  intros Hall. change (Js.all Js.is_digit (String d digits))
    with (Js.is_digit d && Js.all Js.is_digit digits) in Hall.
  apply andb_prop in Hall as [Hd Hall].
  change (Js.replace_first (String "+" p) "" (String d digits))
    with (if String.prefix (String "+" p) (String d digits)
          then "" ++ String.substring (String.length (String "+" p))
                       (String.length (String d digits)) (String d digits)
          else String d (Js.replace_first (String "+" p) "" digits)).
  cbn [String.prefix].
  destruct (ascii_dec "+" d) as [<-|_]; [discriminate|].
  now rewrite IH.
Qed.

(** X4: the phone package returns its [countryCode] with the plus sign
    ("+1") and its [phoneNumber] as a plus sign and digits.  When the strict
    parse fails and the package accepts the number, the result is built
    from the package alone, and the pattern ["+" ++ countryCode] the
    function removes from the number then has two plus signs and is not
    found: the national number is the whole formatted number, country code
    and plus sign included. *)
Theorem phone_package_validation (input cc digits : string) (r : PhoneResult) :
  strict_parse_fails input ->
  phone (Js.trim input) = Ok r ->
  ph_isValid r = true ->
  ph_countryCode r = "+" ++ cc ->
  ph_phoneNumber r = "+" ++ digits ->
  Js.all Js.is_digit digits = true ->
  validateAndFormatPhoneNumber (Js.Str input)
  = Valid (ph_phoneNumber r) (ph_countryCode r) (ph_countryIso2 r)
          (ph_phoneNumber r) (ph_phoneNumber r).
Proof.
  intros Hstrict Hphone Hvalid Hcode Hnumber Hdigits.
  assert (validateAndFormatPhoneNumber (Js.Str input) = phone_fallback (Js.trim input))
    as -> by (unfold validateAndFormatPhoneNumber;
              destruct Hstrict as [-> | (p & -> & ->)]; reflexivity).
  unfold phone_fallback. rewrite Hphone, Hvalid. f_equal.
  rewrite Hcode, Hnumber.
  change (Js.replace_first ("+" ++ "+" ++ cc) "" ("+" ++ digits))
    with (if String.prefix (String "+" cc) digits
          then "" ++ String.substring (String.length ("+" ++ "+" ++ cc))
                       (String.length ("+" ++ digits)) ("+" ++ digits)
          else String "+" (Js.replace_first ("+" ++ "+" ++ cc) "" digits)).
  assert (String.prefix (String "+" cc) digits = false) as ->.
  { destruct digits as [|d digits]; [reflexivity|].
    change (Js.all Js.is_digit (String d digits))
      with (Js.is_digit d && Js.all Js.is_digit digits) in Hdigits.
    apply andb_prop in Hdigits as [Hd _].
    cbn [String.prefix]. destruct (ascii_dec "+" d) as [<-|_]; [discriminate|reflexivity]. }
  change ("+" ++ "+" ++ cc) with (String "+" (String "+" cc)).
  now rewrite replace_first_digits.
Qed.

(** X5: a phone number that is not a JSON string (a number, a boolean, an
    object, [null], or none at all) is answered 400 by both POST endpoints,
    whatever the state of the bot, and nothing changes. *)
Theorem non_string_phone_rejected (body : Js.object) (w : World) :
  (forall s, Js.field "phoneNumber" body <> Js.Str s) ->
  exists message message',
    post_generate_code body w
    = (Ok (mkResponse 400 [("success", Js.Bool false); ("message", Js.Str message)]), w)
    /\ post_getqr body w
       = (Ok (mkResponse 400 [("success", Js.Bool false); ("message", Js.Str message')]), w).
Proof.
  intros Hnot. unfold post_generate_code, post_getqr, try_catch.
  destruct (Js.field "phoneNumber" body) as [| |[|]|n|s| |] eqn:Hfield;
    try (now destruct (Hnot s));
    cbn [Js.truthy negb validateAndFormatPhoneNumber];
    try (eexists _, _; split; reflexivity).
  destruct (n =? 0); eexists _, _; split; reflexivity.
Qed.

(** ** Further properties of the connection manager *)

(** *** Closed connections *)

Lemma on_close_temporary_run (statusCode : option Z) (w : World) :
  is_temporary statusCode = true ->
  on_close statusCode w
  = (Ok tt,
     set_timers (timers w ++ [mkTimer (clock w + 3000) (Reinit false)])
       (set_console (LogReconnecting 3 :: LogConnectionClosed statusCode :: console w) w)).
Proof.
  intros Htemp. unfold on_close, is_temporary in *. unfold bind at 1.
  cbn [console_log modify]. rewrite Htemp. reflexivity.
Qed.





(** *** Reconnecting *)

Lemma initWhatsApp_success_run (autoActivate : bool) (w : World) :
  initWhatsApp autoActivate (Ok tt) w
  = (Ok tt,
     set_console (LogClientInitialized :: LogInitializing autoActivate :: console w)
       (set_activeSocket (Some autoActivate) (set_botStatus "connecting" w))).
Proof. reflexivity. Qed.

Lemma fire_reinit_timer (i : nat) (attempt : outcome unit) (w : World) (t : Z)
      (autoActivate : bool) :
  timers w !! i = Some (mkTimer t (Reinit autoActivate)) ->
  t <= clock w ->
  fire_timer i attempt w
  = initWhatsApp autoActivate attempt
      (set_timers (take i (timers w) ++ drop (S i) (timers w)) w).
Proof.
  intros Ht Hdue. unfold fire_timer, bind, Date_now, gets. rewrite Ht. cbn [due task].
  destruct (Z.leb_spec t (clock w)) as [_|Hlt]; [|lia].
  cbn [modify run_task]. reflexivity.
Qed.

Lemma connection_update_ignores_qr (q : string) (w : World) :
  connection_update false (qr_event q) w = (Ok tt, w).
Proof.
  unfold connection_update, qr_event. cbn [qr connection isNewLogin statusCode].
  rewrite andb_false_r. reflexivity.
Qed.

(** X7: after a temporary disconnection the socket is recreated without
    auto-activation, so a QR report from it is ignored: once the reconnect
    timer has fired and the socket exists, the status stays connecting, the
    QR is not captured, and POST /generate-code with a valid number is
    answered 503. *)
Theorem reconnect_ignores_qr (statusCode : option Z) (q : string) (t : Z)
        (body : Js.object) (w : World)
        (formatted cc : string) (country_arg : option string) (national raw : string) :
  is_temporary statusCode = true ->
  clock w + 3000 <= t ->
  Js.truthy (Js.field "phoneNumber" body) = true ->
  validateAndFormatPhoneNumber (Js.field "phoneNumber" body)
  = Valid formatted cc country_arg national raw ->
  exists w',
    (on_close statusCode ;;
     advance_clock t ;;
     fire_timer (length (timers w)) (Ok tt) ;;
     connection_update false (qr_event q) ;;
     post_generate_code body) w
    = (Ok (mkResponse 503 [("success", Js.Bool false);
                           ("message", Js.Str "Service is connecting. Please wait a moment...")]),
       w')
    /\ botStatus w' = "connecting"
    /\ activeSocket w' = Some false
    /\ currentQR w' = currentQR w
    /\ pairingCodes w' = pairingCodes w
    /\ timers w' = timers w.
Proof.
  intros Htemp Ht Htruthy Hvalid.
  unfold bind at 1. rewrite (on_close_temporary_run _ _ Htemp).
  unfold bind at 1. cbn [advance_clock modify].
  unfold bind at 1. rewrite (fire_reinit_timer _ _ _ (clock w + 3000) false).
  - cbn [timers set_clock set_timers]. rewrite take_app_length.
    rewrite drop_ge by (rewrite length_app; simpl; lia).
    rewrite initWhatsApp_success_run.
    unfold bind at 1. rewrite connection_update_ignores_qr.
    erewrite post_generate_code_not_ready; [|eassumption..|reflexivity].
    eexists. split; [reflexivity|]. cbn. rewrite app_nil_r. repeat split.
  - cbn [timers set_clock set_timers]. now rewrite list_lookup_middle.
  - cbn [clock set_clock set_timers set_console]. lia.
Qed.

(** ** Further properties of the endpoints *)

Lemma generateNewPairingCode_outcomes (phone_arg country_arg : option string) (w : World) :
  forall o w',
    generateNewPairingCode phone_arg country_arg w = (o, w') ->
    (exists g, o = Ok g /\ one_stored w w' phone_arg (g_code g)
               /\ g_expiresAt g = clock w + 600000)
    \/ (exists e, o = Throw e /\ nothing_stored w w').
Proof.
  intros o w' Hrun.
  destruct (generateNewPairingCode_cases phone_arg country_arg w)
    as [(j & _ & Hok)|(n & Hthrow)].
  - rewrite Hok in Hrun. injection Hrun as <- <-. left.
    eexists. split; [reflexivity|]. split; [|reflexivity].
    eexists. cbn. repeat split.
  - rewrite Hthrow in Hrun. injection Hrun as <- <-. right.
    eexists. split; [reflexivity|]. split; reflexivity.
Qed.

(** X8: POST /generate-code always answers, with status 200, 400, 503 or
    500, and only an answer 200 stores anything: it adds the pending record
    of the formatted number under the code it returns, with that code's
    expiry timer; any other answer leaves the registry and the timers as
    they were. *)
Theorem post_generate_code_stores_only_on_200 (body : Js.object) (w : World) :
  exists response w',
    post_generate_code body w = (Ok response, w')
    /\ (res_status response = 200
        /\ (exists formatted code,
              Js.field "phoneNumber" (res_body response) = Js.Str formatted
              /\ Js.field "code" (res_body response) = Js.Str code
              /\ one_stored w w' (Some formatted) code)
        \/ (res_status response = 400 \/ res_status response = 503
            \/ res_status response = 500)
           /\ Js.field "success" (res_body response) = Js.Bool false
           /\ nothing_stored w w').
Proof.
  unfold post_generate_code, try_catch.
  destruct (Js.truthy (Js.field "phoneNumber" body)); cbn [negb];
    [|eexists _, _; split; [reflexivity|right; repeat split; auto]].
  destruct (validateAndFormatPhoneNumber (Js.field "phoneNumber" body))
    as [formatted cc country_arg national raw|error];
    [|eexists _, _; split; [reflexivity|right; repeat split; auto]].
  unfold bind at 1, gets.
  destruct (not_ready (botStatus w));
    [eexists _, _; split; [reflexivity|right; repeat split; auto]|].
  unfold bind at 1.
  destruct (generateNewPairingCode (Some formatted) country_arg w) as [o w1] eqn:Hrun.
  destruct (generateNewPairingCode_outcomes _ _ _ _ _ Hrun)
    as [(g & -> & Hstored & _)|(e & -> & Hcodes & Htimers)].
  - eexists _, _. split; [reflexivity|]. left. split; [reflexivity|].
    exists formatted, (g_code g). repeat split. exact Hstored.
  - eexists _, _. split; [reflexivity|]. right. repeat split; auto.
Qed.

Lemma generate_after_frame (phone_arg country_arg : option string) (w w1 : World)
      (k : nat) :
  generator_returns w k ->
  pairingCodes w1 = pairingCodes w -> timers w1 = timers w -> clock w1 = clock w ->
  random_src w1 = random_src w -> random_pos w1 = random_pos w ->
  exists g w',
    generateNewPairingCode phone_arg country_arg w1 = (Ok g, w')
    /\ one_stored w w' phone_arg (g_code g)
    /\ qrImageDataUrl w' = qrImageDataUrl w1
    /\ currentQR w' = currentQR w1
    /\ (exists data, pairingCodes w' !! g_code g = Some data
                     /\ qrData data = currentQR w1
                     /\ qrImage data = qrImageDataUrl w1).
Proof.
  intros Hret Hc Htm Hcl Hsrc Hpos.
  assert (generator_returns w1 k) as Hret1
      by (unfold generator_returns, attempt in *; now rewrite Hsrc, Hpos).
  destruct (generateNewPairingCode_run phone_arg country_arg w1 k Hret1)
    as (j & _ & _ & Hrun).
  eexists _, _. split; [exact Hrun|]. split; [|split; [reflexivity|split; [reflexivity|]]].
  - eexists. cbn. rewrite Hc, Htm, Hcl. repeat split.
  - eexists. cbn. rewrite lookup_insert_eq. repeat split.
Qed.

(** The QR branch of POST /getqr (lines 1154-1183). *)
Lemma post_getqr_ready_branch (body : Js.object) (w : World) (q : string)
      (formatted cc : string) (country_arg : option string) (national raw : string) :
  Js.truthy (Js.field "phoneNumber" body) = true ->
  validateAndFormatPhoneNumber (Js.field "phoneNumber" body)
  = Valid formatted cc country_arg national raw ->
  botStatus w = "qr_ready" ->
  currentQR w = Some q -> q <> "" ->
  post_getqr body w
  = try_catch
      (try_catch
         (image <- gets qrImageDataUrl ;;
          when (negb (string_truthy image))
               (url <- lift (QRCode_toDataURL q) ;;
                modify (set_qrImageDataUrl (Some url))) ;;
          g <- generateNewPairingCode (Some formatted) country_arg ;;
          image' <- gets qrImageDataUrl ;;
          ret (mkResponse 200 (getqr_ready_success formatted country_arg g image')))
         (fun msg =>
            console_log (LogEndpointError "QR generation error" msg) ;;
            status_json 500 [("success", Js.Bool false);
                             ("message", Js.Str "IAN TECH: Error generating QR image");
                             ("error", Js.Str msg)]))
      (fun msg =>
         console_log (LogEndpointError "QR endpoint error" msg) ;;
         status_json 500 [("success", Js.Bool false);
                          ("message", Js.Str "IAN TECH: Internal server error");
                          ("error", Js.Str msg)]) w.
Proof.
  intros Ht Hv Hst Hq Hne. apply String.eqb_neq in Hne.
  unfold post_getqr, try_catch at 1 3. rewrite Ht, Hv. cbn [negb].
  unfold bind at 1, gets. unfold bind at 1. rewrite Hst, Hq.
  cbn [String.eqb Ascii.eqb Bool.eqb andb string_truthy from_option id].
  rewrite Hne. reflexivity.
Qed.

Lemma post_getqr_cached (body : Js.object) (w : World) (k : nat) (q image : string)
      (formatted cc : string) (country_arg : option string) (national raw : string) :
  Js.truthy (Js.field "phoneNumber" body) = true ->
  validateAndFormatPhoneNumber (Js.field "phoneNumber" body)
  = Valid formatted cc country_arg national raw ->
  botStatus w = "qr_ready" ->
  currentQR w = Some q -> q <> "" ->
  generator_returns w k ->
  qrImageDataUrl w = Some image -> image <> "" ->
  exists g w',
    post_getqr body w
    = (Ok (mkResponse 200 (getqr_ready_success formatted country_arg g (Some image))), w')
    /\ one_stored w w' (Some formatted) (g_code g)
    /\ qrImageDataUrl w' = Some image
    /\ currentQR w' = Some q
    /\ (exists data, pairingCodes w' !! g_code g = Some data
                     /\ qrData data = Some q
                     /\ qrImage data = Some image).
Proof.
  intros Ht Hv Hst Hq Hne Hret Himg Himgne.
  rewrite (post_getqr_ready_branch _ _ _ _ _ _ _ _ Ht Hv Hst Hq Hne).
  apply String.eqb_neq in Himgne.
  unfold try_catch, gets. unfold bind at 1. rewrite Himg.
  cbn [string_truthy]. rewrite Himgne. cbn [negb when].
  unfold bind at 1, ret. unfold bind at 1.
  destruct (generate_after_frame (Some formatted) country_arg w w k Hret)
    as (g & w' & Hrun & Hstored & Himage & Hcur & Hdata); try reflexivity.
  rewrite Hrun. unfold bind, json, ret. rewrite Himage, Himg.
  eexists _, _. split; [reflexivity|]. split; [assumption|].
  rewrite Himage, Hcur, <- Himg, <- Hq. auto.
Qed.

(** X9: POST /getqr while a QR is on offer (status qr_ready, a current QR)
    answers with the cached QR image when there is one, without rendering
    anything; it renders the current QR only when no image is cached and
    then keeps the result; and when that rendering throws it answers 500
    and stores nothing. *)
Theorem post_getqr_qr_ready (body : Js.object) (w : World) (k : nat) (q : string)
        (formatted cc : string) (country_arg : option string) (national raw : string) :
  Js.truthy (Js.field "phoneNumber" body) = true ->
  validateAndFormatPhoneNumber (Js.field "phoneNumber" body)
  = Valid formatted cc country_arg national raw ->
  botStatus w = "qr_ready" ->
  currentQR w = Some q -> q <> "" ->
  generator_returns w k ->
  (forall image, qrImageDataUrl w = Some image -> image <> "" ->
     exists g w',
       post_getqr body w
       = (Ok (mkResponse 200 (getqr_ready_success formatted country_arg g (Some image))),
          w')
       /\ one_stored w w' (Some formatted) (g_code g)
       /\ qrImageDataUrl w' = Some image)
  /\ (forall url, string_truthy (qrImageDataUrl w) = false ->
        QRCode_toDataURL q = Ok url ->
        exists g w',
          post_getqr body w
          = (Ok (mkResponse 200 (getqr_ready_success formatted country_arg g (Some url))),
             w')
          /\ one_stored w w' (Some formatted) (g_code g)
          /\ qrImageDataUrl w' = Some url)
  /\ (forall e, string_truthy (qrImageDataUrl w) = false ->
        QRCode_toDataURL q = Throw e ->
        exists w',
          post_getqr body w
          = (Ok (mkResponse 500 [("success", Js.Bool false);
                                 ("message", Js.Str "IAN TECH: Error generating QR image");
                                 ("error", Js.Str e)]), w')
          /\ nothing_stored w w'
          /\ qrImageDataUrl w' = qrImageDataUrl w).
Proof.
  intros Ht Hv Hst Hq Hne Hret.
  split; [|split].
  - intros image Himg Himgne.
    destruct (post_getqr_cached body w k q image _ _ _ _ _ Ht Hv Hst Hq Hne Hret Himg Himgne)
      as (g & w' & Hrun & Hstored & Himage & _).
    eauto.
  - intros url Hnone Hurl.
    rewrite (post_getqr_ready_branch _ _ _ _ _ _ _ _ Ht Hv Hst Hq Hne).
    unfold try_catch, gets. unfold bind at 1. rewrite Hnone. cbn [negb when].
    unfold bind at 1. unfold bind at 1, lift. rewrite Hurl.
    cbn [modify]. unfold bind at 1.
    destruct (generate_after_frame (Some formatted) country_arg w
                (set_qrImageDataUrl (Some url) w) k Hret)
      as (g & w' & Hrun & Hstored & Himage & _); try reflexivity.
    rewrite Hrun. unfold bind, json, ret. rewrite Himage.
    eexists _, _. split; [reflexivity|]. split; [assumption|exact Himage].
  - intros e Hnone Hurl.
    rewrite (post_getqr_ready_branch _ _ _ _ _ _ _ _ Ht Hv Hst Hq Hne).
    unfold try_catch, gets. unfold bind at 1. rewrite Hnone. cbn [negb when].
    unfold bind at 1. unfold bind at 1, lift. rewrite Hurl.
    eexists. split; [reflexivity|]. repeat split.
Qed.

Lemma publish_qr_render_fails (q e : string) (w : World) :
  QRCode_toDataURL q = Throw e ->
  publish_qr q w = (Ok tt, set_console (LogQrGenerationError e :: console w) w).
Proof.
  intros Hurl. unfold publish_qr, try_catch. unfold bind at 1, lift.
  now rewrite Hurl.
Qed.

(** X10: when the image of a new QR fails to render, the QR still becomes
    the current one while the cached image stays that of the previous QR;
    a POST /getqr that follows answers 200 with the previous image, and the
    record it stores pairs the new QR with that image. *)
Theorem failed_render_serves_previous_image (q e image : string) (body : Js.object)
        (w : World) (k : nat)
        (formatted cc : string) (country_arg : option string) (national raw : string) :
  q <> "" ->
  QRCode_toDataURL q = Throw e ->
  qrImageDataUrl w = Some image -> image <> "" ->
  Js.truthy (Js.field "phoneNumber" body) = true ->
  validateAndFormatPhoneNumber (Js.field "phoneNumber" body)
  = Valid formatted cc country_arg national raw ->
  generator_returns w k ->
  exists g w' data,
    (connection_update true (qr_event q) ;; post_getqr body) w
    = (Ok (mkResponse 200 (getqr_ready_success formatted country_arg g (Some image))), w')
    /\ currentQR w' = Some q
    /\ qrImageDataUrl w' = Some image
    /\ pairingCodes w' !! g_code g = Some data
    /\ qrData data = Some q
    /\ qrImage data = Some image.
Proof.
  intros Hne Hurl Himg Himgne Ht Hv Hret.
  pose proof (on_qr_run q w _ (publish_qr_render_fails q e _ Hurl)) as Hqr.
  pose proof (connection_update_qr_only (qr_event q) q w _ eq_refl Hne eq_refl eq_refl Hqr)
    as Hupdate.
  unfold bind. rewrite Hupdate.
  match goal with |- context [post_getqr body ?w1] => set (w2 := w1) end.
  assert (generator_returns w2 k) as Hret2.
  { unfold generator_returns, attempt in *. subst w2. unfold qr_counted.
    destruct (_ >=? _); exact Hret. }
  assert (botStatus w2 = "qr_ready" /\ currentQR w2 = Some q
          /\ qrImageDataUrl w2 = Some image) as (Hst & Hcur & Himg2).
  { subst w2. unfold qr_counted. destruct (_ >=? _); cbn; auto. }
  destruct (post_getqr_cached body w2 k q image _ _ _ _ _ Ht Hv Hst Hcur Hne Hret2
              Himg2 Himgne)
    as (g & w' & Hrun & _ & Himage & Hcurrent & data & Hdata & Hqr' & Himg').
  rewrite Hrun. eauto 10.
Qed.

(** A field of an answer is read once the optional values in front of it
    are known. *)
Ltac answer_field :=
  cbn [res_body];
  repeat match goal with
    | |- context [optional_image ?x] =>
        lazymatch x with Some _ => fail | None => fail | _ => destruct x end
    | |- context [optional_string ?x] =>
        lazymatch x with Some _ => fail | None => fail | _ => destruct x end
    end;
  reflexivity.

(** X11: POST /getqr always answers, with status 200, 400, 503 or 500, and
    only an answer 200 stores anything: the pending record of the formatted
    number under the code it returns, with that code's expiry timer.  Any
    other answer, the 500 of a QR image that fails to render included,
    leaves the registry and the timers as they were. *)
Theorem post_getqr_stores_only_on_200 (body : Js.object) (w : World) :
  exists response w',
    post_getqr body w = (Ok response, w')
    /\ (res_status response = 200
        /\ (exists formatted code,
              Js.field "phoneNumber" (res_body response) = Js.Str formatted
              /\ Js.field "code" (res_body response) = Js.Str code
              /\ one_stored w w' (Some formatted) code)
        \/ (res_status response = 400 \/ res_status response = 503
            \/ res_status response = 500)
           /\ Js.field "success" (res_body response) = Js.Bool false
           /\ nothing_stored w w').
Proof.
  unfold post_getqr, try_catch at 1.
  destruct (Js.truthy (Js.field "phoneNumber" body)); cbn [negb];
    [|eexists _, _; split; [reflexivity|right; repeat split; auto]].
  destruct (validateAndFormatPhoneNumber (Js.field "phoneNumber" body))
    as [formatted cc country_arg national raw|error];
    [|eexists _, _; split; [reflexivity|right; repeat split; auto]].
  unfold bind at 1, gets. unfold bind at 1.
  destruct (String.eqb (botStatus w) "qr_ready" && string_truthy (currentQR w)).
  - unfold try_catch. unfold bind at 1, gets.
    destruct (negb (string_truthy (qrImageDataUrl w))); cbn [when].
    + unfold bind at 1. unfold bind at 1, lift.
      destruct (QRCode_toDataURL (default "" (currentQR w))) as [url|e];
        [|eexists _, _; split; [reflexivity|right; repeat split; auto]].
      cbn [modify]. unfold bind at 1.
      destruct (generateNewPairingCode (Some formatted) country_arg
                  (set_qrImageDataUrl (Some url) w)) as [o w1] eqn:Hrun.
      destruct (generateNewPairingCode_outcomes _ _ _ _ _ Hrun)
        as [(g & -> & Hstored & _)|(e & -> & Hcodes & Htimers)].
      * eexists _, _. split; [reflexivity|]. left. split; [reflexivity|].
        exists formatted, (g_code g).
        split; [answer_field|]. split; [answer_field|exact Hstored].
      * eexists _, _. split; [reflexivity|]. right. repeat split; auto.
    + unfold bind at 1, ret. unfold bind at 1.
      destruct (generateNewPairingCode (Some formatted) country_arg w) as [o w1] eqn:Hrun.
      destruct (generateNewPairingCode_outcomes _ _ _ _ _ Hrun)
        as [(g & -> & Hstored & _)|(e & -> & Hcodes & Htimers)].
      * eexists _, _. split; [reflexivity|]. left. split; [reflexivity|].
        exists formatted, (g_code g).
        split; [answer_field|]. split; [answer_field|exact Hstored].
      * eexists _, _. split; [reflexivity|]. right. repeat split; auto.
  - destruct (String.eqb (botStatus w) "online");
      [|eexists _, _; split; [reflexivity|right; repeat split; auto]].
    unfold bind at 1.
    destruct (generateNewPairingCode (Some formatted) country_arg w) as [o w1] eqn:Hrun.
    destruct (generateNewPairingCode_outcomes _ _ _ _ _ Hrun)
      as [(g & -> & Hstored & _)|(e & -> & Hcodes & Htimers)].
    + eexists _, _. split; [reflexivity|]. left. split; [reflexivity|].
      exists formatted, (g_code g).
        split; [answer_field|]. split; [answer_field|exact Hstored].
    + eexists _, _. split; [reflexivity|]. right. repeat split; auto.
Qed.

(** ** Invariants of the running server *)

Lemma preserves_ret (I : World -> Prop) {A} (a : A) : preserves I (ret a).
Proof. intros w o w' [= <- <-]. auto. Qed.

Lemma preserves_throw (I : World -> Prop) {A} (e : string) :
  preserves I (throw e : M A).
Proof. intros w o w' [= <- <-]. auto. Qed.

Lemma preserves_gets (I : World -> Prop) {A} (f : World -> A) : preserves I (gets f).
Proof. intros w o w' [= <- <-]. auto. Qed.

Lemma preserves_lift (I : World -> Prop) {A} (x : outcome A) : preserves I (lift x).
Proof. intros w o w' [= <- <-]. auto. Qed.

Lemma preserves_modify (I : World -> Prop) (f : World -> World) :
  (forall w, I w -> I (f w)) -> preserves I (modify f).
Proof. intros Hf w o w' [= <- <-]. auto. Qed.

Lemma preserves_bind (I : World -> Prop) {A B} (m : M A) (k : A -> M B) :
  preserves I m -> (forall a, preserves I (k a)) -> preserves I (bind m k).
Proof.
  intros Hm Hk w o w' Hrun Hw. unfold bind in Hrun.
  destruct (m w) as [[a|e] w1] eqn:Hmw.
  - eapply Hk; eauto.
  - injection Hrun as <- <-. eauto.
Qed.

Lemma preserves_try_catch (I : World -> Prop) {A} (m : M A) (h : string -> M A) :
  preserves I m -> (forall e, preserves I (h e)) -> preserves I (try_catch m h).
Proof.
  intros Hm Hh w o w' Hrun Hw. unfold try_catch in Hrun.
  destruct (m w) as [[a|e] w1] eqn:Hmw.
  - injection Hrun as <- <-. eauto.
  - eapply Hh; eauto.
Qed.

Lemma preserves_when (I : World -> Prop) (b : bool) (m : M unit) :
  (b = true -> preserves I m) -> preserves I (when b m).
Proof. destruct b; intros Hm; [now apply Hm|apply preserves_ret]. Qed.

Lemma preserves_for_each (I : World -> Prop) {A} (l : list A) (body : A -> M unit) :
  (forall x, preserves I (body x)) -> preserves I (for_each l body).
Proof.
  intros Hbody. induction l as [|x l IH]; cbn [for_each].
  - apply preserves_ret.
  - apply preserves_bind; auto.
Qed.

Lemma preserves_generateNewPairingCode (I : World -> Prop)
      (phone_arg country_arg : option string) :
  (forall w n, I w -> I (set_random_pos n w)) ->
  (forall w j, mixed (attempt w j) = true -> I w ->
               I (after_generate w phone_arg country_arg j)) ->
  preserves I (generateNewPairingCode phone_arg country_arg).
Proof.
  intros Hthrow Hok w o w' Hrun Hw.
  destruct (generateNewPairingCode_cases phone_arg country_arg w)
    as [(j & Hm & Hj)|(n & Hn)].
  - rewrite Hj in Hrun. injection Hrun as <- <-. auto.
  - rewrite Hn in Hrun. injection Hrun as <- <-. auto.
Qed.

Lemma preserves_link_pending_codes (I : World -> Prop) :
  (forall w, I w ->
             I (set_pairingCodes (link_if_pending (clock w) <$> pairingCodes w) w)) ->
  preserves I link_pending_codes.
Proof.
  intros Hlink w o w' Hrun Hw. rewrite link_pending_codes_run in Hrun.
  injection Hrun as <- <-. auto.
Qed.

(** Take a handler apart along its control structure. *)
Ltac preserving :=
  repeat match goal with
    | |- preserves _ (ret _) => apply preserves_ret
    | |- preserves _ (throw _) => apply preserves_throw
    | |- preserves _ (gets _) => apply preserves_gets
    | |- preserves _ (lift _) => apply preserves_lift
    | |- preserves _ (bind _ _) => apply preserves_bind; [|intros ?]
    | |- preserves _ (try_catch _ _) => apply preserves_try_catch; [|intros ?]
    | |- preserves _ (when _ _) => apply preserves_when; intros ?
    | |- preserves _ (for_each _ _) => apply preserves_for_each; intros ?
    | |- preserves _ (if ?b then _ else _) => destruct b
    | |- preserves _ (match ?x with _ => _ end) => destruct x
    | |- preserves _ (status_json _ _) => apply preserves_ret
    | |- preserves _ (json _) => apply preserves_ret
    | |- preserves _ Date_now => apply preserves_gets
    | |- preserves _ (console_log _) => unfold console_log
    | |- preserves _ (setTimeout _ _) => unfold setTimeout
    | |- preserves _ (advance_clock _) => unfold advance_clock
    | |- preserves _ fs_readdirSync => apply preserves_gets
    | |- preserves _ (fs_unlinkSync _) => unfold fs_unlinkSync
    | |- preserves _ (clean_file _) => unfold clean_file
    end.

(** *** The registry and the timers *)

Lemma store_inv_frame (w w' : World) :
  pairingCodes w' = pairingCodes w -> timers w' = timers w -> clock w' = clock w ->
  store_inv w -> store_inv w'.
Proof.
  unfold store_inv, registry_wf, timers_cover. intros -> -> ->. auto.
Qed.

Lemma store_inv_timer_added (w : World) (t : Timer) :
  store_inv w -> store_inv (set_timers (timers w ++ [t]) w).
Proof.
  intros [Hwf Hcover]. split; [exact Hwf|].
  intros c r Hc Hs. cbn [timers set_timers]. apply in_or_app. left. eauto.
Qed.

Lemma record_wf_later (now now' : Z) (c : string) (r : PairingRecord) :
  now <= now' -> record_wf now c r -> record_wf now' c r.
Proof.
  intros Hle (H1 & H2 & H3 & H4 & H5 & H6 & H7 & H8).
  repeat (split; [assumption || lia|]).
  destruct H8 as [?|(Hs & t & Ht & Hrange)]; [now left|].
  right. split; [assumption|]. exists t. split; [assumption|lia].
Qed.

Lemma store_inv_clock (w : World) (t : Z) :
  store_inv w -> store_inv (set_clock (Z.max (clock w) t) w).
Proof.
  intros [Hwf Hcover]. split; [|exact Hcover].
  intros c r Hc. cbn [clock set_clock].
  apply (record_wf_later (clock w)); [lia|]. now apply Hwf.
Qed.

Lemma store_inv_generate (w : World) (phone_arg country_arg : option string) (j : nat) :
  mixed (attempt w j) = true -> store_inv w ->
  store_inv (after_generate w phone_arg country_arg j).
Proof.
  intros Hm [Hwf Hcover].
  destruct (attempt_shape w j) as [Hlen Hall].
  split.
  - intros c r. cbn [pairingCodes clock after_generate set_timers set_console
                     set_lastGeneratedCode set_pairingCodes set_crypto_pos set_random_pos].
    rewrite lookup_insert. destruct (decide (attempt w j = c)) as [<-|Hne].
    + intros [= <-]. unfold record_wf, new_record, expiry_delay. cbn.
      repeat (split; [assumption || reflexivity || lia|]). now left.
    + apply Hwf.
  - intros c r. cbn [pairingCodes timers after_generate set_timers set_console
                     set_lastGeneratedCode set_pairingCodes set_crypto_pos set_random_pos].
    rewrite lookup_insert. destruct (decide (attempt w j = c)) as [<-|Hne].
    + intros [= <-] _. apply in_or_app. right. left. reflexivity.
    + intros Hc Hs. apply in_or_app. left. eauto.
Qed.

Lemma store_inv_link (w : World) :
  store_inv w ->
  store_inv (set_pairingCodes (link_if_pending (clock w) <$> pairingCodes w) w).
Proof.
  intros [Hwf Hcover]. split.
  - intros c r'. cbn [pairingCodes clock set_pairingCodes]. rewrite lookup_fmap.
    destruct (pairingCodes w !! c) as [r|] eqn:Hc; [|discriminate].
    cbn. intros [= <-]. specialize (Hwf c r Hc).
    unfold link_if_pending. destruct (String.eqb (status r) "pending"); [|assumption].
    destruct Hwf as (H1 & H2 & H3 & H4 & H5 & H6 & H7 & H8).
    unfold record_wf. cbn. repeat (split; [assumption|]).
    right. split; [reflexivity|]. exists (clock w). split; [reflexivity|lia].
  - intros c r'. cbn [pairingCodes timers set_pairingCodes]. rewrite lookup_fmap.
    destruct (pairingCodes w !! c) as [r|] eqn:Hc; [|discriminate].
    cbn. intros [= <-]. unfold link_if_pending.
    destruct (String.eqb_spec (status r) "pending") as [Hs|Hs].
    + discriminate.
    + intros Hp. contradiction.
Qed.

Lemma store_inv_expire (w : World) (c d : string) (ts : list Timer) :
  store_inv w ->
  (forall t, In t (timers w) -> In t ts \/ exists due, t = mkTimer due (ExpireCode c d)) ->
  store_inv (set_pairingCodes (expire_registry c (pairingCodes w)) (set_timers ts w)).
Proof.
  intros [Hwf Hcover] Hts. split.
  - intros c' r. cbn [pairingCodes clock set_pairingCodes set_timers].
    unfold expire_registry.
    destruct (pairingCodes w !! c) as [data|] eqn:Hc; [|apply Hwf].
    destruct (String.eqb (status data) "pending"); [|apply Hwf].
    rewrite lookup_delete. destruct (decide (c = c')); [discriminate|apply Hwf].
  - intros c' r. cbn [pairingCodes timers set_pairingCodes set_timers].
    intros Hc' Hs.
    assert (pairingCodes w !! c' = Some r) as Hold.
    { revert Hc'. unfold expire_registry.
      destruct (pairingCodes w !! c) as [data|]; [|auto].
      destruct (String.eqb (status data) "pending"); [|auto].
      rewrite lookup_delete. destruct (decide (c = c')); [discriminate|auto]. }
    destruct (Hts _ (Hcover c' r Hold Hs)) as [Hin|(due & [= _ <- _])]; [assumption|].
    exfalso. revert Hc'. unfold expire_registry. rewrite Hold.
    apply String.eqb_eq in Hs. rewrite Hs, lookup_delete_eq. discriminate.
Qed.

Lemma in_remove_nth {A} (l : list A) (i : nat) (x y : A) :
  l !! i = Some y -> In x l -> In x (take i l ++ drop (S i) l) \/ x = y.
Proof.
  intros Hi Hin.
  rewrite <- (take_drop_middle l i y Hi) in Hin.
  apply in_app_or in Hin as [Hin|[<-|Hin]]; [left|right|left];
    try reflexivity; apply in_or_app; auto.
Qed.

Ltac store_leaf :=
  match goal with
  | |- preserves store_inv (modify _) =>
      apply preserves_modify; intros ? ?;
      first [ apply store_inv_timer_added; assumption
            | apply store_inv_clock; assumption
            | eapply store_inv_frame; [reflexivity..|eassumption] ]
  | |- preserves store_inv (generateNewPairingCode _ _) =>
      apply preserves_generateNewPairingCode;
      [ intros ? ? ?; eapply store_inv_frame; [reflexivity..|eassumption]
      | intros ? ? ? ?; now apply store_inv_generate ]
  | |- preserves store_inv link_pending_codes =>
      apply preserves_link_pending_codes; intros ? ?; now apply store_inv_link
  end.

Lemma initWhatsApp_preserves_store (autoActivate : bool) (attempt : outcome unit) :
  preserves store_inv (initWhatsApp autoActivate attempt).
Proof. unfold initWhatsApp. preserving; store_leaf. Qed.

Lemma expire_code_preserves_store (c d : string) :
  preserves store_inv (expire_code c d).
Proof.
  intros w o w' Hrun Hw.
  destruct (expire_code_run c d w) as (w1 & Hrun1 & Hcodes).
  rewrite Hrun1 in Hrun. injection Hrun as <- <-.
  assert (timers w1 = timers w /\ clock w1 = clock w) as [Htimers Hclock].
  { unfold expire_code, bind, gets in Hrun1.
    destruct (pairingCodes w !! c) as [data|]; [|now injection Hrun1 as <-].
    destruct (String.eqb (status data) "pending"); now injection Hrun1 as <-. }
  apply (store_inv_frame
           (set_pairingCodes (expire_registry c (pairingCodes w)) (set_timers (timers w) w)));
    try assumption.
  apply (store_inv_expire w c d); auto.
Qed.

Lemma fire_timer_preserves_store (i : nat) (attempt : outcome unit) :
  preserves store_inv (fire_timer i attempt).
Proof.
  intros w o w' Hrun Hw. unfold fire_timer, bind, Date_now, gets in Hrun.
  destruct (timers w !! i) as [[t tk]|] eqn:Hi;
    [|now injection Hrun as <- <-].
  cbn [due task] in Hrun. destruct (t <=? clock w); [|now injection Hrun as <- <-].
  cbn [modify] in Hrun.
  destruct tk as [c d|autoActivate|]; cbn [run_task] in Hrun.
  - destruct (expire_code_run c d
                (set_timers (take i (timers w) ++ drop (S i) (timers w)) w))
      as (w1 & Hrun1 & Hcodes).
    rewrite Hrun1 in Hrun. injection Hrun as <- <-.
    assert (timers w1 = (take i (timers w) ++ drop (S i) (timers w))%list
            /\ clock w1 = clock w) as [Htimers Hclock].
    { unfold expire_code, bind, gets in Hrun1. cbn [pairingCodes set_timers] in Hrun1.
      destruct (pairingCodes w !! c) as [data|]; [|now injection Hrun1 as <-].
      destruct (String.eqb (status data) "pending"); now injection Hrun1 as <-. }
    eapply (store_inv_frame
              (set_pairingCodes (expire_registry c (pairingCodes w))
                 (set_timers (take i (timers w) ++ drop (S i) (timers w)) w)));
      try assumption.
    apply (store_inv_expire w c d); [assumption|].
    intros x Hx. destruct (in_remove_nth _ _ _ _ Hi Hx) as [Hin| ->]; eauto.
  - eapply initWhatsApp_preserves_store; [exact Hrun|].
    destruct Hw as [Hwf Hcover]. split; [exact Hwf|].
    intros c r Hc Hs. cbn [timers set_timers].
    destruct (in_remove_nth _ _ _ _ Hi (Hcover c r Hc Hs)) as [Hin|Heq];
      [assumption|discriminate].
  - unfold bind, modify in Hrun.
    eapply initWhatsApp_preserves_store; [exact Hrun|].
    destruct Hw as [Hwf Hcover]. split; [exact Hwf|].
    intros c r Hc Hs. cbn [timers set_timers set_autoActivationAttempts].
    destruct (in_remove_nth _ _ _ _ Hi (Hcover c r Hc Hs)) as [Hin|Heq];
      [assumption|discriminate].
Qed.

Lemma handle_preserves_store (e : Event) : preserves store_inv (handle e).
Proof.
  destruct e as [attempt|autoActivate update|i attempt|t|body|body|]; cbn [handle].
  - apply initWhatsApp_preserves_store.
  - unfold connection_update, on_qr, publish_qr, on_open, on_close.
    preserving; store_leaf.
  - apply fire_timer_preserves_store.
  - unfold advance_clock. store_leaf.
  - unfold post_generate_code. preserving; store_leaf.
  - unfold post_getqr. preserving; store_leaf.
  - unfold get_status. preserving; store_leaf.
Qed.

Lemma initial_store_inv (w : World) : initial w -> store_inv w.
Proof.
  intros (_ & _ & _ & Hcodes & _). split; intros c r; rewrite Hcodes, lookup_empty;
    discriminate.
Qed.

Lemma run_events_preserves (I : World -> Prop) :
  (forall e, preserves I (handle e)) ->
  forall es w, I w -> I (run_events es w).
Proof.
  intros Hstep. induction es as [|e es IH]; intros w Hw; cbn [run_events]; [assumption|].
  apply IH. destruct (handle e w) as [o w'] eqn:Hrun. cbn. eapply Hstep; eauto.
Qed.

Lemma reachable_store_inv (w : World) : reachable w -> store_inv w.
Proof.
  intros (w0 & es & Hinit & ->).
  apply run_events_preserves; [apply handle_preserves_store|].
  now apply initial_store_inv.
Qed.

(** X12: in every state the server can reach, each record of the registry
    sits under its own code, eight characters of [A-Z0-9] with a letter and
    a digit; its display code is the one derived from its session id; it
    expires ten minutes after its creation; and its status is pending with
    no link time, or linked with a link time not before its creation.  No
    record ever has the status expired. *)
Theorem reachable_registry_wf (w : World) (c : string) (r : PairingRecord) :
  reachable w ->
  pairingCodes w !! c = Some r ->
  record_wf (clock w) c r /\ status r <> "expired".
Proof.
  intros Hreach Hc. destruct (reachable_store_inv w Hreach) as [Hwf _].
  specialize (Hwf c r Hc). split; [assumption|].
  destruct Hwf as (_ & _ & _ & _ & _ & _ & _ & [[-> _]|[-> _]]); discriminate.
Qed.

(** X13: in every state the server can reach, every pending record still
    has its expiry callback in the timer queue, due at the record's
    [expiresAt]: no pending record is left without the timer that removes
    it. *)
Theorem reachable_pending_has_timer (w : World) (c : string) (r : PairingRecord) :
  reachable w ->
  pairingCodes w !! c = Some r -> status r = "pending" ->
  exists i, timers w !! i = Some (mkTimer (expiresAt r) (ExpireCode c (displayCode r))).
Proof.
  intros Hreach Hc Hs. destruct (reachable_store_inv w Hreach) as [_ Hcover].
  apply list_elem_of_lookup, list_elem_of_In. eauto.
Qed.

(** *** The connection state *)

Ltac conn_frame :=
  let H1 := fresh "Hqr" in
  let H2 := fresh "Hcount" in
  let H3 := fresh "Hstatus" in
  intros (H1 & H2 & H3); unfold conn_inv;
  cbn [botStatus currentQR autoActivationAttempts
       set_activeSocket set_currentQR set_qrImageDataUrl set_pairingCodes set_botStatus
       set_lastGeneratedCode set_autoActivationAttempts set_clock set_random_pos
       set_crypto_pos set_timers set_console set_sessionFile set_authFiles];
  split; [first [exact H1 | intros ?; discriminate]
         |split; [first [exact H2 | lia]
                 |first [exact H3 | cbn; repeat (first [left; reflexivity | right])]]].

Ltac conn_leaf :=
  match goal with
  | |- preserves conn_inv (modify _) => apply preserves_modify; intros ?; conn_frame
  | |- preserves conn_inv (generateNewPairingCode _ _) =>
      apply preserves_generateNewPairingCode;
      [ intros ? ?; conn_frame
      | intros ? ? ?; unfold after_generate; conn_frame ]
  | |- preserves conn_inv link_pending_codes =>
      apply preserves_link_pending_codes; intros ?; conn_frame
  end.

Lemma initWhatsApp_preserves_conn (autoActivate : bool) (attempt : outcome unit) :
  preserves conn_inv (initWhatsApp autoActivate attempt).
Proof. unfold initWhatsApp. preserving; conn_leaf. Qed.

Lemma on_qr_preserves_conn (q : string) :
  q <> "" -> preserves conn_inv (on_qr q).
Proof.
  intros Hne w o w' Hrun (Hqr & Hcount & Hstatus).
  destruct (publish_qr_run q (qr_announced q w))
    as (w1 & Hpub & (Hn & Hcur & Hst & _) & _).
  rewrite (on_qr_run q w w1 Hpub) in Hrun. injection Hrun as <- <-.
  cbn [autoActivationAttempts currentQR botStatus qr_announced set_botStatus
       set_currentQR set_console] in Hn, Hcur, Hst.
  apply String.eqb_neq in Hne.
  unfold conn_inv, qr_counted. rewrite Hn.
  destruct (_ >=? _);
    cbn [botStatus currentQR autoActivationAttempts set_console
         set_autoActivationAttempts];
    rewrite Hcur, Hst; cbn [string_truthy]; rewrite Hne;
    (split; [reflexivity|split; [lia|cbn; repeat (first [left; reflexivity | right])]]).
Qed.

Lemma handle_preserves_conn (e : Event) : preserves conn_inv (handle e).
Proof.
  destruct e as [attempt|autoActivate update|i attempt|t|body|body|]; cbn [handle].
  - apply initWhatsApp_preserves_conn.
  - unfold connection_update, on_open, on_close.
    preserving; try conn_leaf.
    destruct (qr update) as [q|]; [|discriminate].
    cbn [from_option id]. apply on_qr_preserves_conn.
    intros Hempty. subst q. discriminate.
  - unfold fire_timer. preserving; try conn_leaf.
    match goal with |- preserves _ (run_task ?t _) => destruct t end;
      cbn [run_task]; [unfold expire_code|apply initWhatsApp_preserves_conn|];
      preserving; try conn_leaf; apply initWhatsApp_preserves_conn.
  - unfold advance_clock. conn_leaf.
  - unfold post_generate_code. preserving; conn_leaf.
  - unfold post_getqr. preserving; conn_leaf.
  - unfold get_status. preserving; conn_leaf.
Qed.

Lemma initial_conn_inv (w : World) : initial w -> conn_inv w.
Proof.
  intros (_ & _ & _ & _ & Hst & _ & Hn & _). unfold conn_inv. rewrite Hst, Hn.
  split; [discriminate|]. split; [lia|]. cbn. repeat (first [left; reflexivity | right]).
Qed.

Lemma reachable_conn_inv (w : World) : reachable w -> conn_inv w.
Proof.
  intros (w0 & es & Hinit & ->).
  apply run_events_preserves; [apply handle_preserves_conn|].
  now apply initial_conn_inv.
Qed.

(** X14: in every state the server can reach, a status qr_ready comes with
    a current QR.  So whenever GET /status reports [hasQR: true], a POST
    /getqr with a valid number is never answered 503. *)
Theorem reachable_hasQR_serves (w : World) (body : Js.object)
        (formatted cc : string) (country_arg : option string) (national raw : string) :
  reachable w ->
  Js.field "hasQR" (answer get_status w) = Js.Bool true ->
  Js.truthy (Js.field "phoneNumber" body) = true ->
  validateAndFormatPhoneNumber (Js.field "phoneNumber" body)
  = Valid formatted cc country_arg national raw ->
  exists response w',
    post_getqr body w = (Ok response, w')
    /\ (res_status response = 200 \/ res_status response = 500).
Proof.
  intros Hreach Hhas Ht Hv.
  destruct (reachable_conn_inv w Hreach) as (Hqr & _ & _).
  assert (botStatus w = "qr_ready") as Hst.
  { cbn in Hhas. injection Hhas as Hhas. now apply String.eqb_eq. }
  specialize (Hqr Hst).
  unfold post_getqr, try_catch at 1. rewrite Ht, Hv. cbn [negb].
  unfold bind at 1, gets. unfold bind at 1. rewrite Hst, Hqr.
  cbn [String.eqb Ascii.eqb Bool.eqb andb].
  unfold try_catch. unfold bind at 1, gets.
  destruct (negb (string_truthy (qrImageDataUrl w))); cbn [when].
  - unfold bind at 1. unfold bind at 1, lift.
    destruct (QRCode_toDataURL (default "" (currentQR w))) as [url|e];
      [|eexists _, _; split; [reflexivity|now right]].
    cbn [modify]. unfold bind at 1.
    destruct (generateNewPairingCode _ _ (set_qrImageDataUrl (Some url) w)) as [[g|e] w1];
      eexists _, _; (split; [reflexivity|]); [now left|now right].
  - unfold bind at 1, ret. unfold bind at 1.
    destruct (generateNewPairingCode _ _ w) as [[g|e] w1];
      eexists _, _; (split; [reflexivity|]); [now left|now right].
Qed.

(** X15: in every state the server can reach, the bot status is one of
    disconnected, connecting, qr_ready, online and error, and the attempt
    counter is not negative. *)
Theorem reachable_status_values (w : World) :
  reachable w ->
  In (botStatus w) ["disconnected"; "connecting"; "qr_ready"; "online"; "error"]
  /\ 0 <= autoActivationAttempts w.
Proof.
  intros Hreach. destruct (reachable_conn_inv w Hreach) as (_ & Hn & Hst). auto.
Qed.

(** ** How the handlers compose *)

Lemma qr_counted_frame (w : World) :
  pairingCodes (qr_counted w) = pairingCodes w
  /\ clock (qr_counted w) = clock w
  /\ lastGeneratedCode (qr_counted w) = lastGeneratedCode w
  /\ botStatus (qr_counted w) = botStatus w.
Proof. unfold qr_counted. destruct (_ >=? _); repeat split. Qed.

Lemma qr_event_stores (q url : string) (w : World) (k : nat) :
  q <> "" -> QRCode_toDataURL q = Ok url -> generator_returns w k ->
  exists j w',
    (j <= k)%nat
    /\ connection_update true (qr_event q) w = (Ok tt, w')
    /\ clock w' = clock w
    /\ lastGeneratedCode w' = Some (attempt w j)
    /\ pairingCodes w' !! attempt w j
       = Some (new_record (set_qrImageDataUrl (Some url) (set_currentQR (Some q) w))
                          None None (attempt w j)).
Proof.
  intros Hne Hurl Hret.
  destruct (publish_qr_run q (qr_announced q w))
    as (w1 & Hpub & (_ & _ & _ & Hclock & _) & Hrec).
  destruct (Hrec url k Hurl Hret) as (j & Hj & _ & Hlast & Hlookup).
  destruct (qr_counted_frame w1) as (Hcodes & Hclock' & Hlast' & _).
  exists j, (qr_counted w1). split; [assumption|].
  split; [eapply connection_update_qr_only; eauto using on_qr_run|].
  rewrite Hcodes, Hclock', Hlast'. split; [exact Hclock|]. split; [exact Hlast|].
  exact Hlookup.
Qed.

(** X16: the pairing code generated for a QR report belongs to no phone
    number, yet the open report that follows marks it linked like every
    other pending record, at the time of the report; the status is then
    online and the attempt counter back to zero. *)
Theorem qr_then_open_links_qr_code (q url : string) (autoActivate : bool)
        (w : World) (k : nat) :
  q <> "" -> QRCode_toDataURL q = Ok url -> generator_returns w k ->
  exists j w' data,
    (connection_update true (qr_event q) ;;
     connection_update autoActivate open_event) w = (Ok tt, w')
    /\ pairingCodes w' !! attempt w j = Some data
    /\ phoneNumber data = None
    /\ qrData data = Some q
    /\ status data = "linked"
    /\ linkedAt data = Some (clock w)
    /\ botStatus w' = "online"
    /\ autoActivationAttempts w' = 0.
Proof.
  intros Hne Hurl Hret.
  destruct (qr_event_stores q url w k Hne Hurl Hret)
    as (j & w1 & _ & Hrun & Hclock & _ & Hlookup).
  unfold bind. rewrite Hrun.
  rewrite (connection_update_open_only autoActivate open_event w1) by reflexivity.
  rewrite on_open_run.
  eexists j, _, _. split; [reflexivity|].
  cbn [pairingCodes botStatus autoActivationAttempts set_console set_sessionFile
       set_pairingCodes set_autoActivationAttempts set_botStatus].
  rewrite lookup_fmap, Hlookup, Hclock. cbn. repeat split.
Qed.

(** X17: the last code GET /status shows is not of one kind.  After a QR
    report handled in full it is the raw pairing code, the key of the
    record; after a successful POST /generate-code it is the display code
    of the answer. *)
Theorem status_last_code (w : World) (k : nat) :
  generator_returns w k ->
  (forall q url,
     q <> "" -> QRCode_toDataURL q = Ok url ->
     exists w' data,
       connection_update true (qr_event q) w = (Ok tt, w')
       /\ Js.field "lastCode" (answer get_status w') = Js.Str (code data)
       /\ pairingCodes w' !! code data = Some data)
  /\ (forall body response w',
        post_generate_code body w = (Ok response, w') ->
        res_status response = 200 ->
        Js.field "lastCode" (answer get_status w')
        = Js.field "displayCode" (res_body response)).
Proof.
  intros Hret. split.
  - intros q url Hne Hurl.
    destruct (qr_event_stores q url w k Hne Hurl Hret)
      as (j & w1 & _ & Hrun & _ & Hlast & Hlookup).
    exists w1, (new_record (set_qrImageDataUrl (Some url) (set_currentQR (Some q) w))
                           None None (attempt w j)).
    split; [exact Hrun|].
    split; [|cbn [code new_record]; exact Hlookup].
    unfold answer, get_status, bind, gets, Date_now, json, ret. cbn [fst res_body Js.field].
    cbn [String.eqb Ascii.eqb Bool.eqb]. now rewrite Hlast.
  - intros body response w' Hrun H200.
    unfold post_generate_code, try_catch in Hrun.
    destruct (Js.truthy (Js.field "phoneNumber" body)); cbn [negb] in Hrun;
      [|injection Hrun as <- <-; discriminate].
    destruct (validateAndFormatPhoneNumber (Js.field "phoneNumber" body))
      as [formatted cc country_arg national raw|error];
      [|injection Hrun as <- <-; discriminate].
    unfold bind at 1, gets in Hrun.
    destruct (not_ready (botStatus w)); [injection Hrun as <- <-; discriminate|].
    unfold bind at 1 in Hrun.
    destruct (generateNewPairingCode_cases (Some formatted) country_arg w)
      as [(j & _ & Hok)|(n & Hthrow)].
    + rewrite Hok in Hrun. injection Hrun as <- <-. reflexivity.
    + rewrite Hthrow in Hrun. injection Hrun as <- <-. discriminate.
Qed.

Lemma expire_registry_none_pending (c : string) (codes : gmap string PairingRecord) :
  (forall c' r, codes !! c' = Some r -> status r <> "pending") ->
  expire_registry c codes = codes.
Proof.
  intros Hnone. unfold expire_registry.
  destruct (codes !! c) as [r|] eqn:Hc; [|reflexivity].
  destruct (String.eqb_spec (status r) "pending") as [Hs|]; [|reflexivity].
  now destruct (Hnone c r Hc).
Qed.


(** ** What moves the attempt counter, what empties the registry *)

Lemma preserves_snd (I : World -> Prop) {A} (m : M A) (w : World) :
  preserves I m -> I w -> I (snd (m w)).
Proof. intros Hm Hw. destruct (m w) as [o w'] eqn:Hrun. exact (Hm w o w' Hrun Hw). Qed.

(** A modification that leaves the counter, or the registry, where it was. *)
Ltac frame_leaf :=
  match goal with
  | |- preserves _ (modify _) =>
      let H := fresh in
      apply preserves_modify; intros ? H; unfold counter_is, registry_is in *;
      cbn [pairingCodes autoActivationAttempts
           set_activeSocket set_currentQR set_qrImageDataUrl set_pairingCodes
           set_botStatus set_lastGeneratedCode set_autoActivationAttempts set_clock
           set_random_pos set_crypto_pos set_timers set_console set_sessionFile
           set_authFiles];
      exact H
  end.

Lemma generateNewPairingCode_keeps_counter (n : Z) (phone_arg country_arg : option string) :
  preserves (counter_is n) (generateNewPairingCode phone_arg country_arg).
Proof.
  apply preserves_generateNewPairingCode; intros; assumption.
Qed.

Lemma link_pending_codes_keeps_counter (n : Z) :
  preserves (counter_is n) link_pending_codes.
Proof. apply preserves_link_pending_codes. intros; assumption. Qed.

Ltac counter_leaf :=
  first [ frame_leaf
        | apply generateNewPairingCode_keeps_counter
        | apply link_pending_codes_keeps_counter ].

Lemma initWhatsApp_keeps_counter (n : Z) (autoActivate : bool) (attempt : outcome unit) :
  preserves (counter_is n) (initWhatsApp autoActivate attempt).
Proof. unfold initWhatsApp. preserving; counter_leaf. Qed.

Lemma on_close_keeps_counter (n : Z) (statusCode : option Z) :
  preserves (counter_is n) (on_close statusCode).
Proof. unfold on_close. preserving; counter_leaf. Qed.

Lemma expire_code_keeps_counter (n : Z) (c d : string) :
  preserves (counter_is n) (expire_code c d).
Proof.
  unfold expire_code. preserving.
  - apply preserves_modify. intros ? H. exact H.
  - counter_leaf.
Qed.

Lemma on_qr_returns (q : string) (w : World) :
  exists w', on_qr q w = (Ok tt, w').
Proof.
  destruct (publish_qr_run q (qr_announced q w)) as (w1 & Hpub & _).
  exists (qr_counted w1). now apply on_qr_run.
Qed.

Lemma connection_is_spec (c : option string) (v : string) :
  connection_is c v = true <-> c = Some v.
Proof.
  destruct c as [s|]; cbn [connection_is]; [|split; discriminate].
  rewrite String.eqb_eq. split; [now intros ->|now intros [= ->]].
Qed.

(** An open report, whatever else it carries, leaves the counter at 0. *)
Lemma connection_update_open_resets (autoActivate : bool) (update : ConnectionUpdate)
      (w : World) :
  connection update = Some "open" ->
  autoActivationAttempts (snd (connection_update autoActivate update w)) = 0.
Proof.
  intros Hopen. unfold connection_update. rewrite Hopen.
  cbn [connection_is String.eqb Ascii.eqb Bool.eqb when].
  assert (exists w1, when (string_truthy (qr update) && autoActivate)
                          (on_qr (default "" (qr update))) w = (Ok tt, w1))
    as [w1 Hqr].
  { destruct (string_truthy (qr update) && autoActivate); cbn [when];
      [apply on_qr_returns|now exists w]. }
  unfold bind at 1. rewrite Hqr. unfold bind at 1. rewrite on_open_run.
  unfold bind, ret. destruct (isNewLogin update); reflexivity.
Qed.

(** The cooldown callback of a failed initialisation leaves it at 0. *)
Lemma fire_reset_timer (i : nat) (attempt : outcome unit) (t : Z) (w : World) :
  timers w !! i = Some (mkTimer t ResetAndReinit) -> t <= clock w ->
  autoActivationAttempts (snd (fire_timer i attempt w)) = 0.
Proof.
  intros Hi Hdue. unfold fire_timer, bind, Date_now, gets. rewrite Hi.
  cbn [due task]. apply Z.leb_le in Hdue. rewrite Hdue.
  cbn [modify run_task]. unfold bind at 1. cbn [modify].
  apply (preserves_snd (counter_is 0) (initWhatsApp true attempt));
    [apply initWhatsApp_keeps_counter|reflexivity].
Qed.


Lemma fire_timer_due (i : nat) (attempt : outcome unit) (w : World) (t : Z) (tk : Task) :
  timers w !! i = Some (mkTimer t tk) -> t <= clock w ->
  fire_timer i attempt w
  = run_task tk attempt (set_timers (take i (timers w) ++ drop (S i) (timers w)) w).
Proof.
  intros Hi Hdue. unfold fire_timer, bind, Date_now, gets. rewrite Hi.
  cbn [due task]. apply Z.leb_le in Hdue. now rewrite Hdue.
Qed.

Lemma fire_timer_idle (i : nat) (attempt : outcome unit) (w : World) :
  (forall t tk, timers w !! i = Some (mkTimer t tk) -> clock w < t) ->
  fire_timer i attempt w = (Ok tt, w).
Proof.
  intros Hidle. unfold fire_timer, bind, Date_now, gets.
  destruct (timers w !! i) as [[t tk]|] eqn:Hi; [|reflexivity].
  cbn [due]. specialize (Hidle t tk eq_refl).
  apply Z.leb_gt in Hidle. now rewrite Hidle.
Qed.

(** Any other event leaves the counter where it was. *)
Lemma handle_keeps_counter (e : Event) (w : World) :
  autoActivationAttempts (snd (handle e w)) <> autoActivationAttempts w ->
  (exists update, e = EvConnection true update /\ string_truthy (qr update) = true)
  \/ (exists autoActivate update,
        e = EvConnection autoActivate update /\ connection update = Some "open")
  \/ (exists i attempt t,
        e = EvTimer i attempt
        /\ timers w !! i = Some (mkTimer t ResetAndReinit) /\ t <= clock w).
Proof.
  intros Hmoved.
  assert (forall (m : M unit) (w0 : World),
            preserves (counter_is (autoActivationAttempts w)) m ->
            autoActivationAttempts w0 = autoActivationAttempts w ->
            autoActivationAttempts (snd (m w0)) <> autoActivationAttempts w -> False)
    as Hkept.
  { intros m w0 Hm Hw0 Hne. apply Hne.
    exact (preserves_snd _ m w0 Hm Hw0). }
  destruct e as [attempt|autoActivate update|i attempt|t|body|body|]; cbn [handle] in Hmoved.
  - exfalso. revert Hmoved. apply Hkept; [apply initWhatsApp_keeps_counter|reflexivity].
  - destruct (string_truthy (qr update) && autoActivate) eqn:Hqr.
    { apply andb_prop in Hqr as [Hqr ->]. left. eauto. }
    destruct (connection_is (connection update) "open") eqn:Hopen.
    { apply connection_is_spec in Hopen. right. left. eauto. }
    exfalso. revert Hmoved. apply Hkept; [|reflexivity].
    unfold connection_update. rewrite Hqr, Hopen.
    preserving;
      first [ counter_leaf
            | apply on_close_keeps_counter
            | match goal with H : false = true |- _ => discriminate H end ].
  - destruct (timers w !! i) as [[t tk]|] eqn:Hi.
    + destruct (Z.le_gt_cases t (clock w)) as [Hdue|Hdue].
      * rewrite (fire_timer_due i attempt w t tk Hi Hdue) in Hmoved.
        destruct tk as [c d|autoActivate|]; cbn [run_task] in Hmoved.
        -- exfalso. revert Hmoved.
           apply Hkept; [apply expire_code_keeps_counter|reflexivity].
        -- exfalso. revert Hmoved.
           apply Hkept; [apply initWhatsApp_keeps_counter|reflexivity].
        -- right. right. exists i, attempt, t. auto.
      * exfalso. apply Hmoved. rewrite fire_timer_idle; [reflexivity|].
        intros t' tk' Hi'. rewrite Hi in Hi'. injection Hi' as <- _. lia.
    + exfalso. apply Hmoved. rewrite fire_timer_idle; [reflexivity|].
      intros t' tk' Hi'. rewrite Hi in Hi'. discriminate.
  - exfalso. revert Hmoved. apply Hkept; [|reflexivity].
    unfold advance_clock. counter_leaf.
  - exfalso. revert Hmoved. apply Hkept; [|reflexivity].
    unfold post_generate_code. preserving; counter_leaf.
  - exfalso. revert Hmoved. apply Hkept; [|reflexivity].
    unfold post_getqr. preserving; counter_leaf.
  - exfalso. revert Hmoved. apply Hkept; [|reflexivity].
    unfold get_status. preserving; counter_leaf.
Qed.

(** C8, as the program has it: every QR report handled in auto-activation
    mode adds one to the attempt counter, whatever its value: there is no
    cap.  Reaching 3 only adds the instructions to the console; the report
    is handled like any other (the QR is captured, the status becomes
    qr_ready, a pairing code is generated when the image renders), and the
    handler queues nothing but the expiry timer of that code.  The counter
    goes back to 0 when a connection opens and when the cooldown callback
    of a failed initialisation fires; no other event changes it. *)
Theorem qr_event_counts_without_cap (w : World) :
  (forall update q,
     qr update = Some q -> q <> "" -> connection update = None ->
     isNewLogin update = false ->
     exists w',
       connection_update true update w = (Ok tt, w')
       /\ autoActivationAttempts w' = autoActivationAttempts w + 1
       /\ currentQR w' = Some q
       /\ botStatus w' = "qr_ready"
       /\ (exists lines,
             console w' = (lines ++ console w)%list
             /\ (In (LogAutoActivationFailed 3) lines
                 <-> 3 <= autoActivationAttempts w + 1))
       /\ (timers w' = timers w
           \/ exists c d,
               timers w'
               = (timers w ++ [mkTimer (clock w + 600000) (ExpireCode c d)])%list)
       /\ (forall url k,
             QRCode_toDataURL q = Ok url -> generator_returns w k ->
             exists j data,
               (j <= k)%nat
               /\ qrImageDataUrl w' = Some url
               /\ pairingCodes w' !! attempt w j = Some data
               /\ status data = "pending"
               /\ qrData data = Some q))
  /\ (forall autoActivate update,
        connection update = Some "open" ->
        autoActivationAttempts (snd (connection_update autoActivate update w)) = 0)
  /\ (forall i attempt t,
        timers w !! i = Some (mkTimer t ResetAndReinit) -> t <= clock w ->
        autoActivationAttempts (snd (fire_timer i attempt w)) = 0)
  /\ (forall e,
        autoActivationAttempts (snd (handle e w)) <> autoActivationAttempts w ->
        (exists update,
            e = EvConnection true update /\ string_truthy (qr update) = true)
        \/ (exists autoActivate update,
              e = EvConnection autoActivate update /\ connection update = Some "open")
        \/ (exists i attempt t,
              e = EvTimer i attempt
              /\ timers w !! i = Some (mkTimer t ResetAndReinit) /\ t <= clock w)).
Proof.
  split; [intros update q; apply qr_event_handled|].
  split; [intros autoActivate update; apply connection_update_open_resets|].
  split; [intros i attempt t; apply fire_reset_timer|].
  intros e. apply handle_keeps_counter.
Qed.


(** *** After an open report *)

Lemma fmap_link_none_pending (now : Z) (codes : gmap string PairingRecord) :
  none_pending codes -> link_if_pending now <$> codes = codes.
Proof.
  intros Hnone. apply map_eq. intros c. rewrite lookup_fmap.
  destruct (codes !! c) as [r|] eqn:Hc; [|reflexivity].
  cbn. unfold link_if_pending.
  destruct (String.eqb_spec (status r) "pending") as [Hs|]; [|reflexivity].
  now destruct (Hnone c r Hc).
Qed.

Lemma link_leaves_none_pending (now : Z) (codes : gmap string PairingRecord) :
  none_pending (link_if_pending now <$> codes).
Proof.
  intros c r'. rewrite lookup_fmap.
  destruct (codes !! c) as [r|]; [|discriminate].
  cbn. intros [= <-]. unfold link_if_pending.
  destruct (String.eqb_spec (status r) "pending"); [discriminate|assumption].
Qed.

Lemma initWhatsApp_keeps_registry_is (codes : gmap string PairingRecord)
      (autoActivate : bool) (attempt : outcome unit) :
  preserves (registry_is codes) (initWhatsApp autoActivate attempt).
Proof. unfold initWhatsApp. preserving; frame_leaf. Qed.

Lemma on_close_keeps_registry_is (codes : gmap string PairingRecord)
      (statusCode : option Z) :
  preserves (registry_is codes) (on_close statusCode).
Proof. unfold on_close. preserving; frame_leaf. Qed.

Lemma on_open_keeps_registry_is (codes : gmap string PairingRecord) :
  none_pending codes -> preserves (registry_is codes) on_open.
Proof.
  intros Hnone. unfold on_open. preserving; try frame_leaf.
  apply preserves_link_pending_codes. intros w0 Hw0.
  unfold registry_is in *. cbn [pairingCodes set_pairingCodes].
  rewrite Hw0. now apply fmap_link_none_pending.
Qed.

Lemma expire_code_keeps_registry_is (codes : gmap string PairingRecord) (c d : string) :
  none_pending codes -> preserves (registry_is codes) (expire_code c d).
Proof.
  intros Hnone w o w' Hrun Hw.
  destruct (expire_code_run c d w) as (w1 & Hrun1 & Hcodes).
  rewrite Hrun1 in Hrun. injection Hrun as <- <-.
  unfold registry_is in *. rewrite Hcodes, Hw.
  now apply expire_registry_none_pending.
Qed.

Lemma run_task_keeps_registry_is (codes : gmap string PairingRecord)
      (tk : Task) (attempt : outcome unit) :
  none_pending codes -> preserves (registry_is codes) (run_task tk attempt).
Proof.
  intros Hnone. destruct tk as [c d|autoActivate|]; cbn [run_task].
  - now apply expire_code_keeps_registry_is.
  - apply initWhatsApp_keeps_registry_is.
  - preserving; first [frame_leaf | apply initWhatsApp_keeps_registry_is].
Qed.

Lemma fire_timer_keeps_registry_is (codes : gmap string PairingRecord)
      (i : nat) (attempt : outcome unit) :
  none_pending codes -> preserves (registry_is codes) (fire_timer i attempt).
Proof.
  intros Hnone w o w' Hrun Hw.
  destruct (timers w !! i) as [[t tk]|] eqn:Hi.
  - destruct (Z.le_gt_cases t (clock w)) as [Hdue|Hdue].
    + rewrite (fire_timer_due i attempt w t tk Hi Hdue) in Hrun.
      exact (run_task_keeps_registry_is codes tk attempt Hnone _ _ _ Hrun Hw).
    + rewrite fire_timer_idle in Hrun; [now injection Hrun as <- <-|].
      intros t' tk' Hi'. rewrite Hi in Hi'. injection Hi' as <- _. lia.
  - rewrite fire_timer_idle in Hrun; [now injection Hrun as <- <-|].
    intros t' tk' Hi'. rewrite Hi in Hi'. discriminate.
Qed.

Lemma quiet_keeps_registry_is (codes : gmap string PairingRecord) (e : Event) :
  none_pending codes -> generates_nothing e = true ->
  preserves (registry_is codes) (handle e).
Proof.
  intros Hnone Hquiet.
  destruct e as [attempt|autoActivate update|i attempt|t|body|body|];
    cbn [handle generates_nothing] in *; try discriminate.
  - apply initWhatsApp_keeps_registry_is.
  - apply negb_true_iff in Hquiet.
    unfold connection_update. rewrite Hquiet.
    preserving;
      first [ frame_leaf
            | now apply on_open_keeps_registry_is
            | apply on_close_keeps_registry_is
            | match goal with H : false = true |- _ => discriminate H end ].
  - now apply fire_timer_keeps_registry_is.
  - unfold advance_clock. frame_leaf.
  - unfold get_status. preserving; frame_leaf.
Qed.

Lemma run_quiet_keeps_registry (codes : gmap string PairingRecord)
      (es : list Event) (w : World) :
  none_pending codes -> forallb generates_nothing es = true ->
  pairingCodes w = codes -> pairingCodes (run_events es w) = codes.
Proof.
  intros Hnone. revert w. induction es as [|e es IH]; intros w Hquiet Hw;
    cbn [run_events forallb] in *; [exact Hw|].
  apply andb_prop in Hquiet as [He Hes].
  apply IH; [exact Hes|].
  exact (preserves_snd (registry_is codes) (handle e) w
           (quiet_keeps_registry_is codes e Hnone He) Hw).
Qed.

(** X18: an open report leaves no record pending.  From then on, as long
    as no new pairing code is generated (no POST request, no QR report
    handled in auto-activation mode), nothing leaves the registry and no
    record changes, whatever timers fire, however much time passes and
    whatever else the sockets report or the initialisation does: the
    expiry callbacks of the records that were linked find nothing to
    delete. *)
Theorem open_then_nothing_removed (w : World) (es : list Event) :
  forallb generates_nothing es = true ->
  exists w1,
    on_open w = (Ok tt, w1)
    /\ (forall c r, pairingCodes w1 !! c = Some r -> status r <> "pending")
    /\ size (pairingCodes w1) = size (pairingCodes w)
    /\ pairingCodes (run_events es w1) = pairingCodes w1.
Proof.
  intros Hquiet. eexists. split; [apply on_open_run|].
  cbn [pairingCodes set_console set_sessionFile set_pairingCodes].
  split; [apply link_leaves_none_pending|].
  split; [apply map_size_fmap|].
  apply run_quiet_keeps_registry;
    [apply link_leaves_none_pending|exact Hquiet|reflexivity].
Qed.

End Server.

(** ** The sample environment at work *)

Lemma MD5_digest_length (s : string) : length (MD5.digest s) = 16%nat.
Proof.
  unfold MD5.digest. now destruct (MD5.blocks _ _ _) as [[[a b] c] d].
Qed.

(** The test suite of RFC 1321, in part. *)
Example MD5_empty : Js.toString_hex (MD5.digest "") = "d41d8cd98f00b204e9800998ecf8427e".
Proof. vm_compute. reflexivity. Qed.

Example MD5_abc : Js.toString_hex (MD5.digest "abc") = "900150983cd24fb0d6963f7d28e17f72".
Proof. vm_compute. reflexivity. Qed.

Example MD5_message_digest :
  Js.toString_hex (MD5.digest "message digest") = "f96b697d7cb7938d525a2f31aaf161d0".
Proof. vm_compute. reflexivity. Qed.

(** The display code of a session id, as the server would show it. *)
Example display_code_of_session :
  fst (generateDisplayCode MD5.digest (Some "IAN_TECH_1700000000000_A35FA3")
                           (Sample.world Sample.counting "online"))
  = Ok "JW84-UMVD".
Proof. vm_compute. reflexivity. Qed.

(** An empty seed is falsy: the display code is drawn at random. *)
Example display_code_of_empty_seed :
  generateDisplayCode MD5.digest (Some "") (Sample.world Sample.counting "online")
  = (Ok "0123-4567", set_random_pos 8 (Sample.world Sample.counting "online")).
Proof. vm_compute. reflexivity. Qed.

(** Three rejected draws, then a kept one. *)
Example alphanumeric_code_after_retries :
  map (attempt (Sample.world Sample.counting "online")) (seq 0 4)
  = ["ABCDEFGH"; "IJKLMNOP"; "QRSTUVWX"; "YZ012345"]
  /\ fst (generateAlphanumericCode 4 (Sample.world Sample.counting "online"))
     = Ok "YZ012345"
  /\ fst (generateAlphanumericCode 3 (Sample.world Sample.counting "online"))
     = Throw "Maximum call stack size exceeded".
Proof. vm_compute. repeat split. Qed.

Example validate_punctuated :
  validateAndFormatPhoneNumber Sample.parsePhoneNumberFromString Sample.phone
                               (Js.Str "  +254 723-278526 ")
  = Valid "+254723278526" "254" (Some "Unknown") "723278526" "+254723278526".
Proof. vm_compute. reflexivity. Qed.

Example validate_eight_digits :
  validateAndFormatPhoneNumber Sample.parsePhoneNumberFromString Sample.phone
                               (Js.Str "12345678")
  = Valid "+12345678" "1" (Some "Unknown") "2345678" "+12345678".
Proof. vm_compute. reflexivity. Qed.

Example validate_rejects :
  map (fun s => isValid (validateAndFormatPhoneNumber
                           Sample.parsePhoneNumberFromString Sample.phone (Js.Str s)))
      ["abc"; ""; "1234567"; "1234567890123456"]
  = [false; false; false; false].
Proof. vm_compute. reflexivity. Qed.

(** A number sent as a JSON number has no [trim]. *)
Example validate_number_value :
  validateAndFormatPhoneNumber Sample.parsePhoneNumberFromString Sample.phone
                               (Js.Num 254723278526)
  = Invalid "phoneNumber.trim is not a function".
Proof. reflexivity. Qed.

Example generate_code_statuses :
  map (fun '(body, status) =>
         res_status
         <$> match fst (post_generate_code MD5.digest Sample.parsePhoneNumberFromString
                          Sample.phone Sample.stack_limit body
                          (Sample.world Sample.counting status)) with
             | Ok r => Some r
             | Throw _ => None
             end)
      [([], "online");
       ([("phoneNumber", Js.Str "abc")], "online");
       ([("phoneNumber", Js.Str "254723278526")], "connecting");
       ([("phoneNumber", Js.Str "254723278526")], "qr_ready");
       ([("phoneNumber", Js.Str "254723278526")], "online")]
  = [Some 400; Some 400; Some 503; Some 200; Some 200].
Proof. vm_compute. reflexivity. Qed.

(** When the code generator exhausts the stack the endpoint answers 500. *)
Example generate_code_stack_exhausted :
  res_status
  <$> match fst (post_generate_code MD5.digest Sample.parsePhoneNumberFromString
                   Sample.phone 3 [("phoneNumber", Js.Str "254723278526")]
                   (Sample.world Sample.counting "online")) with
      | Ok r => Some r
      | Throw _ => None
      end
  = Some 500.
Proof. vm_compute. reflexivity. Qed.

(** On open the pending record is linked at the time of the report, the
    linked and the expired ones stay as they were. *)
Example on_open_sample :
  map (fun c =>
         (fun data => (status data, linkedAt data))
         <$> pairingCodes
               (snd (on_open (set_pairingCodes Sample.registry
                                (Sample.world Sample.counting "qr_ready")))) !! c)
      ["AAAA1111"; "BBBB2222"; "CCCC3333"; "DDDD4444"]
  = [Some ("linked", Some 1700000000000);
     Some ("linked", Some 1699999500000);
     Some ("expired", None);
     None].
Proof. vm_compute. reflexivity. Qed.

(** The expiry callbacks of the three records: only the pending one goes. *)
Example expire_sample :
  map (fun c =>
         status
         <$> pairingCodes
               (snd (expire_code c "JW84-UMVD"
                       (set_pairingCodes Sample.registry
                          (Sample.world Sample.counting "online")))) !! c)
      ["AAAA1111"; "BBBB2222"; "CCCC3333"]
  = [None; Some "linked"; Some "expired"].
Proof. vm_compute. reflexivity. Qed.

(** A failed initialisation below the cap and at the cap. *)
Example init_failure_sample :
  timers (snd (initWhatsApp true (Throw "ECONNREFUSED")
                 (Sample.world Sample.counting "disconnected")))
  = [mkTimer 1700000010000 (Reinit true)]
  /\ timers (snd (initWhatsApp false (Throw "ECONNREFUSED")
                    (set_autoActivationAttempts 3
                       (Sample.world Sample.counting "disconnected"))))
     = [mkTimer 1700000030000 ResetAndReinit].
Proof. vm_compute. split; reflexivity. Qed.

(** A logout with one credentials file that cannot be unlinked: the file
    stays, the other [.json] files and the session file go, the notes stay,
    and the restart is queued all the same. *)
Example on_close_logout_sample :
  let w := mkWorld None None None ∅ "online" None 0 1700000000000 Sample.counting 0
                   Sample.entropy 0 [] []
                   (Some (mkSessionInfo 1699990000000 1702582000000 "connected"
                                        "IAN TECH" (Some 1699990000000)))
                   ["creds.json"; "app-state-sync-key-1.json"; "notes.txt"]
                   (fun f => if String.eqb f "creds.json"
                             then Some "EPERM: operation not permitted" else None) in
  let w' := snd (on_close Sample.connectionLost Sample.connectionClosed Sample.loggedOut
                          (Some 401) w) in
  authFiles w' = ["creds.json"; "notes.txt"]
  /\ sessionFile w' = None
  /\ timers w' = [mkTimer 1700000005000 (Reinit true)]
  /\ In (LogDeleteFailed "creds.json" "EPERM: operation not permitted") (console w').
Proof. vm_compute. repeat split. tauto. Qed.

(** ** Instances of the theorems *)

Lemma generateAlphanumericCode_mixed_witness :
  generateAlphanumericCode 4 (Sample.world Sample.counting "online")
  = (Ok "YZ012345", set_random_pos 32 (Sample.world Sample.counting "online"))
  /\ (String.length "YZ012345" = 8%nat
      /\ Js.all is_alphanumeric "YZ012345" = true
      /\ Js.any Js.is_upper "YZ012345" = true
      /\ Js.any Js.is_digit "YZ012345" = true).
Proof.
  assert (generateAlphanumericCode 4 (Sample.world Sample.counting "online")
          = (Ok "YZ012345", set_random_pos 32 (Sample.world Sample.counting "online")))
    as H by (vm_compute; reflexivity).
  split; [exact H|exact (generateAlphanumericCode_mixed _ _ _ _ H)].
Defined.

Lemma generateDisplayCode_pattern_witness :
  (forall s, length (MD5.digest s) = 16%nat)
  /\ exists code w',
      generateDisplayCode MD5.digest (Some "IAN_TECH_1700000000000_A35FA3")
                          (Sample.world Sample.counting "online") = (Ok code, w')
      /\ display_pattern code = true.
Proof.
  split; [exact MD5_digest_length|].
  exact (generateDisplayCode_pattern MD5.digest _ _ MD5_digest_length).
Defined.


Lemma sample_generator_returns :
  generator_returns Sample.stack_limit (Sample.world Sample.counting "online") 3.
Proof. split; [reflexivity|]. unfold Sample.stack_limit. lia. Defined.

Lemma expiry_deletes_only_pending_witness :
  generator_returns Sample.stack_limit (Sample.world Sample.counting "online") 3
  /\ exists g w1,
      generateNewPairingCode MD5.digest Sample.stack_limit (Some "+254723278526")
                             (Some "KE") (Sample.world Sample.counting "online")
      = (Ok g, w1)
      /\ timers w1 = [mkTimer 1700000600000 (ExpireCode (g_code g) (g_displayCode g))].
Proof.
  split; [exact sample_generator_returns|].
  destruct (expiry_deletes_only_pending MD5.digest Sample.stack_limit
              (Some "+254723278526") (Some "KE") _ _ sample_generator_returns)
    as (g & w1 & Hrun & _ & Htimers & _).
  exists g, w1. split; [exact Hrun|exact Htimers].
Defined.

Lemma generateNewPairingCode_stores_witness :
  generator_returns Sample.stack_limit (Sample.world Sample.counting "online") 3
  /\ exists g w1,
      generateNewPairingCode MD5.digest Sample.stack_limit (Some "+254723278526")
                             (Some "KE") (Sample.world Sample.counting "online")
      = (Ok g, w1)
      /\ size (pairingCodes w1) = 1%nat.
Proof.
  split; [exact sample_generator_returns|].
  destruct (generateNewPairingCode_stores MD5.digest Sample.stack_limit
              (Some "+254723278526") (Some "KE") _ _ sample_generator_returns)
    as (g & w1 & data & Hrun & _ & _ & _ & _ & _ & _ & _ & _ & Hfresh & _).
  exists g, w1. split; [exact Hrun|]. now rewrite Hfresh.
Defined.

Lemma qr_event_counts_without_cap_witness :
  (qr (qr_event "2@pairing") = Some "2@pairing"
   /\ "2@pairing" <> ""
   /\ connection (qr_event "2@pairing") = None
   /\ isNewLogin (qr_event "2@pairing") = false)
  /\ exists w',
      connection_update MD5.digest Sample.QRCode_toDataURL Sample.connectionLost
                        Sample.connectionClosed Sample.loggedOut Sample.stack_limit
                        true (qr_event "2@pairing")
                        (set_autoActivationAttempts 3
                           (Sample.world Sample.counting "connecting"))
      = (Ok tt, w')
      /\ autoActivationAttempts w' = 4
      /\ currentQR w' = Some "2@pairing".
Proof.
  assert ("2@pairing" <> "") as Hne by discriminate.
  split; [split; [reflexivity|split; [exact Hne|split; reflexivity]]|].
  destruct (qr_event_counts_without_cap
              MD5.digest Sample.parsePhoneNumberFromString Sample.phone
              Sample.QRCode_toDataURL
              Sample.connectionLost Sample.connectionClosed Sample.loggedOut
              Sample.stack_limit
              (set_autoActivationAttempts 3 (Sample.world Sample.counting "connecting")))
    as [Hcounts _].
  destruct (Hcounts (qr_event "2@pairing") "2@pairing" eq_refl Hne eq_refl eq_refl)
    as (w' & Hrun & Hn & Hqr & _).
  exists w'. split; [exact Hrun|]. split; [exact Hn|exact Hqr].
Defined.

Lemma post_getqr_online_witness :
  (Js.truthy (Js.field "phoneNumber" [("phoneNumber", Js.Str "254723278526")]) = true
   /\ validateAndFormatPhoneNumber Sample.parsePhoneNumberFromString Sample.phone
        (Js.field "phoneNumber" [("phoneNumber", Js.Str "254723278526")])
      = Valid "+254723278526" "254" (Some "Unknown") "723278526" "+254723278526"
   /\ botStatus (Sample.world Sample.counting "online") = "online"
   /\ generator_returns Sample.stack_limit (Sample.world Sample.counting "online") 3)
  /\ exists g w',
      post_getqr MD5.digest Sample.parsePhoneNumberFromString Sample.phone
                 Sample.QRCode_toDataURL Sample.stack_limit
                 [("phoneNumber", Js.Str "254723278526")]
                 (Sample.world Sample.counting "online")
      = (Ok (mkResponse 200 (getqr_online_success "+254723278526" (Some "Unknown") g)),
         w')
      /\ is_Some (pairingCodes w' !! g_code g).
Proof.
  assert (validateAndFormatPhoneNumber Sample.parsePhoneNumberFromString Sample.phone
            (Js.field "phoneNumber" [("phoneNumber", Js.Str "254723278526")])
          = Valid "+254723278526" "254" (Some "Unknown") "723278526" "+254723278526")
    as Hvalid by (vm_compute; reflexivity).
  split; [split; [reflexivity|split; [exact Hvalid|split;
    [reflexivity|exact sample_generator_returns]]]|].
  destruct (post_getqr_online MD5.digest Sample.parsePhoneNumberFromString Sample.phone
              Sample.QRCode_toDataURL Sample.stack_limit
              [("phoneNumber", Js.Str "254723278526")]
              (Sample.world Sample.counting "online") 3
              _ _ _ _ _ eq_refl Hvalid eq_refl sample_generator_returns)
    as (g & w' & data & Hrun & _ & _ & Hcodes & _).
  exists g, w'. split; [exact Hrun|]. rewrite Hcodes, lookup_insert_eq. eauto.
Defined.

(** ** Where the program departs from the specification *)

Lemma run_returns {A} (m : M A) (w : World) (a : A) :
  fst (m w) = Ok a -> m w = (Ok a, snd (m w)).
Proof. destruct (m w) as [o w']. cbn. now intros ->. Qed.


(** C6 fails on a valid number of no country.  The strict parser accepts
    a satellite number and gives it no country; the bot is online and the
    answer is 200, but its body has seven keys: [country] is not among
    them. *)
Lemma post_generate_code_country_omitted :
  match fst (post_generate_code MD5.digest Sample.parse_satellite Sample.phone
               Sample.stack_limit [("phoneNumber", Js.Str "+870773111632")]
               (Sample.world Sample.counting "online")) with
  | Ok response =>
      res_status response = 200
      /\ Js.field "success" (res_body response) = Js.Bool true
      /\ Js.field "phoneNumber" (res_body response) = Js.Str "+870 773 111 632"
      /\ map fst (res_body response)
         = ["success"; "code"; "displayCode"; "phoneNumber";
            "sessionId"; "expiresAt"; "message"]
      /\ ~ In "country" (map fst (res_body response))
  | Throw _ => False
  end.
Proof.
  vm_compute. repeat split. intros H.
  repeat (destruct H as [H|H]; [discriminate H|]). exact H.
Qed.

(** C7 fails on a collision.  With a random source that repeats itself the
    second call of [generateNewPairingCode] draws the code of the first
    one; it returns that code rather than a fresh one, the record of the
    first phone number is replaced by the record of the second, and the
    registry still has one record. *)
Lemma generateNewPairingCode_collision_overwrites :
  exists g1 w1 old g2 w2,
    generateNewPairingCode MD5.digest Sample.stack_limit
                           (Some "+254700000001") (Some "KE")
                           (Sample.world Sample.repeating "online") = (Ok g1, w1)
    /\ g_code g1 = "AFKPUZ49"
    /\ pairingCodes w1 !! "AFKPUZ49" = Some old
    /\ phoneNumber old = Some "+254700000001"
    /\ generateNewPairingCode MD5.digest Sample.stack_limit
                              (Some "+254700000002") (Some "KE")
                              (set_clock 1700000060000 w1) = (Ok g2, w2)
    /\ g_code g2 = "AFKPUZ49"
    /\ pairingCodes w2 !! "AFKPUZ49" <> Some old
    /\ (exists new, pairingCodes w2 !! "AFKPUZ49" = Some new
                    /\ phoneNumber new = Some "+254700000002")
    /\ size (pairingCodes w2) = 1%nat.
Proof.
  eexists _, _, _, _, _.
  split; [apply run_returns; vm_compute; reflexivity|].
  split; [vm_compute; reflexivity|].
  split; [vm_compute; reflexivity|].
  split; [vm_compute; reflexivity|].
  split; [apply run_returns; vm_compute; reflexivity|].
  split; [vm_compute; reflexivity|].
  split; [vm_compute; discriminate|].
  split; [eexists; split; vm_compute; reflexivity|].
  vm_compute. reflexivity.
Qed.

(** C8 fails on the fourth QR report.  Four reports in auto-activation mode
    leave the counter at 4, above the maximum of 3, and the fourth report
    is handled like the first: its QR is the current one and a pairing code
    was generated for it. *)
Lemma qr_counter_exceeds_cap :
  exists w4,
    for_each [(1700000000000, "2@first"); (1700000020000, "2@second");
              (1700000040000, "2@third"); (1700000060000, "2@fourth")]
             (fun '(t, q) =>
                advance_clock t ;;
                connection_update MD5.digest Sample.QRCode_toDataURL
                                  Sample.connectionLost Sample.connectionClosed
                                  Sample.loggedOut Sample.stack_limit
                                  true (qr_event q))
             (Sample.world Sample.striding "connecting") = (Ok tt, w4)
    /\ autoActivationAttempts w4 = 4
    /\ ~ autoActivationAttempts w4 <= MAX_AUTO_ACTIVATION_ATTEMPTS
    /\ currentQR w4 = Some "2@fourth"
    /\ botStatus w4 = "qr_ready"
    /\ qrImageDataUrl w4 = Some "data:image/png;base64,2@fourth"
    /\ lastGeneratedCode w4 = Some "Y5CJQX4B"
    /\ status <$> pairingCodes w4 !! "Y5CJQX4B" = Some "pending"
    /\ createdAt <$> pairingCodes w4 !! "Y5CJQX4B" = Some 1700000060000
    /\ qrData <$> pairingCodes w4 !! "Y5CJQX4B" = Some (Some "2@fourth")
    /\ In (LogQrAttempt 4 3) (console w4).
Proof.
  eexists.
  split; [apply run_returns; vm_compute; reflexivity|].
  split; [vm_compute; reflexivity|].
  split; [vm_compute; intros H; now apply H|].
  split; [vm_compute; reflexivity|].
  split; [vm_compute; reflexivity|].
  split; [vm_compute; reflexivity|].
  split; [vm_compute; reflexivity|].
  split; [vm_compute; reflexivity|].
  split; [vm_compute; reflexivity|].
  split; [vm_compute; reflexivity|].
  vm_compute. tauto.
Qed.

(** ** Instances of the further properties *)

Lemma generateDisplayCode_seeded_bytes_witness :
  ("IAN_TECH_1700000000000_A35FA3" <> ""
   /\ MD5.digest "IAN_TECH_1700000000000_A35FA3"
      = [xde; xea; x90; xae; xe8; x9d; xe9; x51;
         x36; xe9; x50; x6b; x79; x7e; x46; x7a])
  /\ generateDisplayCode MD5.digest (Some "IAN_TECH_1700000000000_A35FA3")
                         (Sample.world Sample.counting "online")
     = (Ok "JW84-UMVD", Sample.world Sample.counting "online").
Proof.
  assert ("IAN_TECH_1700000000000_A35FA3" <> "") as Hne by discriminate.
  assert (MD5.digest "IAN_TECH_1700000000000_A35FA3"
          = [xde; xea; x90; xae; xe8; x9d; xe9; x51;
             x36; xe9; x50; x6b; x79; x7e; x46; x7a]) as Hmd5
      by (vm_compute; reflexivity).
  split; [split; [exact Hne|exact Hmd5]|].
  exact (generateDisplayCode_seeded_bytes MD5.digest _ _ _ _ _ _ _ _ _ _ _ Hne Hmd5).
Defined.

Lemma phone_package_validation_witness :
  (strict_parse_fails Sample.parsePhoneNumberFromString "(817) 569-8900"
   /\ Sample.phone_us (Js.trim "(817) 569-8900")
      = Ok (mkPhoneResult true "+18175698900" "+1" (Some "US"))
   /\ Js.all Js.is_digit "18175698900" = true)
  /\ validateAndFormatPhoneNumber Sample.parsePhoneNumberFromString Sample.phone_us
                                  (Js.Str "(817) 569-8900")
     = Valid "+18175698900" "+1" (Some "US") "+18175698900" "+18175698900".
Proof.
  assert (strict_parse_fails Sample.parsePhoneNumberFromString "(817) 569-8900") as Hstrict
      by (left; reflexivity).
  split; [split; [exact Hstrict|split; reflexivity]|].
  exact (phone_package_validation Sample.parsePhoneNumberFromString Sample.phone_us
           "(817) 569-8900" "1" "18175698900" _ Hstrict eq_refl eq_refl eq_refl eq_refl
           eq_refl).
Defined.

Lemma non_string_phone_rejected_witness :
  (forall s, Js.field "phoneNumber" [("phoneNumber", Js.Num 254723278526)] <> Js.Str s)
  /\ exists message,
      post_generate_code MD5.digest Sample.parsePhoneNumberFromString Sample.phone
                         Sample.stack_limit [("phoneNumber", Js.Num 254723278526)]
                         (Sample.world Sample.counting "online")
      = (Ok (mkResponse 400 [("success", Js.Bool false); ("message", Js.Str message)]),
         Sample.world Sample.counting "online").
Proof.
  assert (forall s, Js.field "phoneNumber" [("phoneNumber", Js.Num 254723278526)]
                    <> Js.Str s) as Hnot by (intros s; discriminate).
  split; [exact Hnot|].
  destruct (non_string_phone_rejected MD5.digest Sample.parsePhoneNumberFromString Sample.phone Sample.QRCode_toDataURL Sample.stack_limit _
              (Sample.world Sample.counting "online") Hnot)
    as (message & _ & Hrun & _).
  exists message. exact Hrun.
Defined.

Lemma reconnect_ignores_qr_witness :
  (is_temporary Sample.connectionLost Sample.connectionClosed (Some 408) = true
   /\ clock (Sample.world Sample.counting "online") + 3000 <= 1700000003000
   /\ Js.truthy (Js.field "phoneNumber" [("phoneNumber", Js.Str "254723278526")]) = true
   /\ validateAndFormatPhoneNumber Sample.parsePhoneNumberFromString Sample.phone
        (Js.field "phoneNumber" [("phoneNumber", Js.Str "254723278526")])
      = Valid "+254723278526" "254" (Some "Unknown") "723278526" "+254723278526")
  /\ exists w',
      fst ((on_close Sample.connectionLost Sample.connectionClosed Sample.loggedOut (Some 408) ;;
            advance_clock 1700000003000 ;;
            fire_timer 0 (Ok tt) ;;
            connection_update MD5.digest Sample.QRCode_toDataURL
      Sample.connectionLost Sample.connectionClosed Sample.loggedOut Sample.stack_limit
              false (qr_event "2@pairing") ;;
            post_generate_code MD5.digest Sample.parsePhoneNumberFromString Sample.phone
              Sample.stack_limit [("phoneNumber", Js.Str "254723278526")])
             (Sample.world Sample.counting "online"))
      = Ok (mkResponse 503 [("success", Js.Bool false);
                            ("message", Js.Str "Service is connecting. Please wait a moment...")])
      /\ botStatus w' = "connecting".
Proof.
  assert (validateAndFormatPhoneNumber Sample.parsePhoneNumberFromString Sample.phone
            (Js.field "phoneNumber" [("phoneNumber", Js.Str "254723278526")])
          = Valid "+254723278526" "254" (Some "Unknown") "723278526" "+254723278526") as Hvalid by (vm_compute; reflexivity).
  assert (clock (Sample.world Sample.counting "online") + 3000 <= 1700000003000) as Ht
      by (vm_compute; discriminate).
  split; [split; [reflexivity|split; [exact Ht|split; [reflexivity|exact Hvalid]]]|].
  destruct (reconnect_ignores_qr MD5.digest Sample.parsePhoneNumberFromString Sample.phone Sample.QRCode_toDataURL
      Sample.connectionLost Sample.connectionClosed Sample.loggedOut Sample.stack_limit
              (Some 408) "2@pairing" 1700000003000 [("phoneNumber", Js.Str "254723278526")]
              (Sample.world Sample.counting "online") _ _ _ _ _
              eq_refl Ht eq_refl Hvalid)
    as (w' & Hrun & Hst & _).
  exists w'. split; [|exact Hst].
  exact (f_equal fst Hrun).
Defined.

Lemma post_getqr_qr_ready_witness :
  (Js.truthy (Js.field "phoneNumber" [("phoneNumber", Js.Str "254723278526")]) = true
   /\ validateAndFormatPhoneNumber Sample.parsePhoneNumberFromString Sample.phone
        (Js.field "phoneNumber" [("phoneNumber", Js.Str "254723278526")])
      = Valid "+254723278526" "254" (Some "Unknown") "723278526" "+254723278526"
   /\ botStatus (set_currentQR (Some "2@pairing") (Sample.world Sample.counting "qr_ready"))
      = "qr_ready"
   /\ currentQR (set_currentQR (Some "2@pairing") (Sample.world Sample.counting "qr_ready"))
      = Some "2@pairing"
   /\ "2@pairing" <> ""
   /\ generator_returns Sample.stack_limit
        (set_currentQR (Some "2@pairing") (Sample.world Sample.counting "qr_ready")) 3)
  /\ exists g w',
      post_getqr MD5.digest Sample.parsePhoneNumberFromString Sample.phone Sample.QRCode_toDataURL Sample.stack_limit [("phoneNumber", Js.Str "254723278526")]
                 (set_currentQR (Some "2@pairing") (Sample.world Sample.counting "qr_ready"))
      = (Ok (mkResponse 200
               (getqr_ready_success "+254723278526" (Some "Unknown") g
                                    (Some "data:image/png;base64,2@pairing"))), w').
Proof.
  assert (validateAndFormatPhoneNumber Sample.parsePhoneNumberFromString Sample.phone
            (Js.field "phoneNumber" [("phoneNumber", Js.Str "254723278526")])
          = Valid "+254723278526" "254" (Some "Unknown") "723278526" "+254723278526") as Hvalid by (vm_compute; reflexivity).
  assert ("2@pairing" <> "") as Hne by discriminate.
  assert (generator_returns Sample.stack_limit
            (set_currentQR (Some "2@pairing") (Sample.world Sample.counting "qr_ready")) 3)
    as Hret by exact sample_generator_returns.
  split; [split; [reflexivity|split; [exact Hvalid|split; [reflexivity|split;
    [reflexivity|split; [exact Hne|exact Hret]]]]]|].
  destruct (post_getqr_qr_ready MD5.digest Sample.parsePhoneNumberFromString Sample.phone Sample.QRCode_toDataURL Sample.stack_limit [("phoneNumber", Js.Str "254723278526")]
              (set_currentQR (Some "2@pairing") (Sample.world Sample.counting "qr_ready"))
              3 "2@pairing" _ _ _ _ _ eq_refl Hvalid eq_refl eq_refl Hne Hret)
    as (_ & Hrender & _).
  destruct (Hrender "data:image/png;base64,2@pairing" eq_refl eq_refl)
    as (g & w' & Hrun & _).
  exists g, w'. exact Hrun.
Defined.

Lemma failed_render_serves_previous_image_witness :
  ("2@second" <> ""
   /\ Sample.failing_toDataURL "2@second" = Throw "render failed"
   /\ qrImageDataUrl (set_qrImageDataUrl (Some "data:image/png;base64,2@first")
                        (Sample.world Sample.counting "qr_ready"))
      = Some "data:image/png;base64,2@first"
   /\ "data:image/png;base64,2@first" <> ""
   /\ validateAndFormatPhoneNumber Sample.parsePhoneNumberFromString Sample.phone
        (Js.field "phoneNumber" [("phoneNumber", Js.Str "254723278526")])
      = Valid "+254723278526" "254" (Some "Unknown") "723278526" "+254723278526")
  /\ exists g w',
      (connection_update MD5.digest Sample.failing_toDataURL Sample.connectionLost Sample.connectionClosed Sample.loggedOut Sample.stack_limit
         true (qr_event "2@second") ;;
       post_getqr MD5.digest Sample.parsePhoneNumberFromString Sample.phone
                  Sample.failing_toDataURL Sample.stack_limit [("phoneNumber", Js.Str "254723278526")])
        (set_qrImageDataUrl (Some "data:image/png;base64,2@first")
           (Sample.world Sample.counting "qr_ready"))
      = (Ok (mkResponse 200
               (getqr_ready_success "+254723278526" (Some "Unknown") g
                                    (Some "data:image/png;base64,2@first"))), w')
      /\ currentQR w' = Some "2@second".
Proof.
  assert (validateAndFormatPhoneNumber Sample.parsePhoneNumberFromString Sample.phone
            (Js.field "phoneNumber" [("phoneNumber", Js.Str "254723278526")])
          = Valid "+254723278526" "254" (Some "Unknown") "723278526" "+254723278526") as Hvalid by (vm_compute; reflexivity).
  assert ("2@second" <> "") as Hne by discriminate.
  assert ("data:image/png;base64,2@first" <> "") as Himg by discriminate.
  split; [split; [exact Hne|split; [reflexivity|split; [reflexivity|split;
    [exact Himg|exact Hvalid]]]]|].
  destruct (failed_render_serves_previous_image
              MD5.digest Sample.parsePhoneNumberFromString Sample.phone
              Sample.failing_toDataURL Sample.connectionLost Sample.connectionClosed Sample.loggedOut Sample.stack_limit
              "2@second" "render failed" "data:image/png;base64,2@first" [("phoneNumber", Js.Str "254723278526")]
              (set_qrImageDataUrl (Some "data:image/png;base64,2@first")
                 (Sample.world Sample.counting "qr_ready"))
              3 _ _ _ _ _ Hne eq_refl eq_refl Himg eq_refl Hvalid sample_generator_returns)
    as (g & w' & data & Hrun & Hcur & _).
  exists g, w'. split; [exact Hrun|exact Hcur].
Defined.

Lemma sample_reachable :
  reachable MD5.digest Sample.parsePhoneNumberFromString Sample.phone Sample.QRCode_toDataURL
      Sample.connectionLost Sample.connectionClosed Sample.loggedOut Sample.stack_limit
    (run_events MD5.digest Sample.parsePhoneNumberFromString Sample.phone Sample.QRCode_toDataURL
      Sample.connectionLost Sample.connectionClosed Sample.loggedOut Sample.stack_limit
      [EvStartup (Ok tt); EvConnection true (qr_event "2@pairing")]
      (Sample.world Sample.counting "disconnected")).
Proof.
  exists (Sample.world Sample.counting "disconnected"), [EvStartup (Ok tt); EvConnection true (qr_event "2@pairing")].
  split; [repeat split|reflexivity].
Defined.

Lemma reachable_registry_wf_witness :
  reachable MD5.digest Sample.parsePhoneNumberFromString Sample.phone Sample.QRCode_toDataURL
      Sample.connectionLost Sample.connectionClosed Sample.loggedOut Sample.stack_limit
    (run_events MD5.digest Sample.parsePhoneNumberFromString Sample.phone Sample.QRCode_toDataURL
      Sample.connectionLost Sample.connectionClosed Sample.loggedOut Sample.stack_limit
      [EvStartup (Ok tt); EvConnection true (qr_event "2@pairing")]
      (Sample.world Sample.counting "disconnected"))
  /\ exists r,
      pairingCodes
        (run_events MD5.digest Sample.parsePhoneNumberFromString Sample.phone Sample.QRCode_toDataURL
      Sample.connectionLost Sample.connectionClosed Sample.loggedOut Sample.stack_limit
      [EvStartup (Ok tt); EvConnection true (qr_event "2@pairing")]
      (Sample.world Sample.counting "disconnected")) !! "YZ012345" = Some r
      /\ status r <> "expired".
Proof.
  split; [exact sample_reachable|].
  destruct (pairingCodes
              (run_events MD5.digest Sample.parsePhoneNumberFromString Sample.phone Sample.QRCode_toDataURL
      Sample.connectionLost Sample.connectionClosed Sample.loggedOut Sample.stack_limit
      [EvStartup (Ok tt); EvConnection true (qr_event "2@pairing")]
      (Sample.world Sample.counting "disconnected")) !! "YZ012345") as [r|] eqn:Hr;
    [|vm_compute in Hr; discriminate].
  exists r. split; [reflexivity|].
  exact (proj2 (reachable_registry_wf MD5.digest Sample.parsePhoneNumberFromString Sample.phone Sample.QRCode_toDataURL
      Sample.connectionLost Sample.connectionClosed Sample.loggedOut Sample.stack_limit _ _ _ sample_reachable Hr)).
Defined.

Lemma reachable_pending_has_timer_witness :
  reachable MD5.digest Sample.parsePhoneNumberFromString Sample.phone Sample.QRCode_toDataURL
      Sample.connectionLost Sample.connectionClosed Sample.loggedOut Sample.stack_limit
    (run_events MD5.digest Sample.parsePhoneNumberFromString Sample.phone Sample.QRCode_toDataURL
      Sample.connectionLost Sample.connectionClosed Sample.loggedOut Sample.stack_limit
      [EvStartup (Ok tt); EvConnection true (qr_event "2@pairing")]
      (Sample.world Sample.counting "disconnected"))
  /\ exists r i,
      pairingCodes
        (run_events MD5.digest Sample.parsePhoneNumberFromString Sample.phone Sample.QRCode_toDataURL
      Sample.connectionLost Sample.connectionClosed Sample.loggedOut Sample.stack_limit
      [EvStartup (Ok tt); EvConnection true (qr_event "2@pairing")]
      (Sample.world Sample.counting "disconnected")) !! "YZ012345" = Some r
      /\ timers
           (run_events MD5.digest Sample.parsePhoneNumberFromString Sample.phone Sample.QRCode_toDataURL
      Sample.connectionLost Sample.connectionClosed Sample.loggedOut Sample.stack_limit
      [EvStartup (Ok tt); EvConnection true (qr_event "2@pairing")]
      (Sample.world Sample.counting "disconnected")) !! i
         = Some (mkTimer (expiresAt r) (ExpireCode "YZ012345" (displayCode r))).
Proof.
  split; [exact sample_reachable|].
  destruct (pairingCodes
              (run_events MD5.digest Sample.parsePhoneNumberFromString Sample.phone Sample.QRCode_toDataURL
      Sample.connectionLost Sample.connectionClosed Sample.loggedOut Sample.stack_limit
      [EvStartup (Ok tt); EvConnection true (qr_event "2@pairing")]
      (Sample.world Sample.counting "disconnected")) !! "YZ012345") as [r|] eqn:Hr;
    [|vm_compute in Hr; discriminate].
  assert (status r = "pending") as Hs
      by (vm_compute in Hr; injection Hr as <-; reflexivity).
  destruct (reachable_pending_has_timer MD5.digest Sample.parsePhoneNumberFromString Sample.phone Sample.QRCode_toDataURL
      Sample.connectionLost Sample.connectionClosed Sample.loggedOut Sample.stack_limit _ _ _ sample_reachable Hr Hs) as [i Hi].
  exists r, i. split; [reflexivity|exact Hi].
Defined.

Lemma reachable_hasQR_serves_witness :
  (reachable MD5.digest Sample.parsePhoneNumberFromString Sample.phone Sample.QRCode_toDataURL
      Sample.connectionLost Sample.connectionClosed Sample.loggedOut Sample.stack_limit
     (run_events MD5.digest Sample.parsePhoneNumberFromString Sample.phone Sample.QRCode_toDataURL
      Sample.connectionLost Sample.connectionClosed Sample.loggedOut Sample.stack_limit
      [EvStartup (Ok tt); EvConnection true (qr_event "2@pairing")]
      (Sample.world Sample.counting "disconnected"))
   /\ Js.field "hasQR"
        (answer get_status
           (run_events MD5.digest Sample.parsePhoneNumberFromString Sample.phone Sample.QRCode_toDataURL
      Sample.connectionLost Sample.connectionClosed Sample.loggedOut Sample.stack_limit
      [EvStartup (Ok tt); EvConnection true (qr_event "2@pairing")]
      (Sample.world Sample.counting "disconnected"))) = Js.Bool true)
  /\ exists response w',
      post_getqr MD5.digest Sample.parsePhoneNumberFromString Sample.phone Sample.QRCode_toDataURL Sample.stack_limit [("phoneNumber", Js.Str "254723278526")]
        (run_events MD5.digest Sample.parsePhoneNumberFromString Sample.phone Sample.QRCode_toDataURL
      Sample.connectionLost Sample.connectionClosed Sample.loggedOut Sample.stack_limit
      [EvStartup (Ok tt); EvConnection true (qr_event "2@pairing")]
      (Sample.world Sample.counting "disconnected")) = (Ok response, w')
      /\ (res_status response = 200 \/ res_status response = 500).
Proof.
  assert (Js.field "hasQR"
            (answer get_status
               (run_events MD5.digest Sample.parsePhoneNumberFromString Sample.phone Sample.QRCode_toDataURL
      Sample.connectionLost Sample.connectionClosed Sample.loggedOut Sample.stack_limit
      [EvStartup (Ok tt); EvConnection true (qr_event "2@pairing")]
      (Sample.world Sample.counting "disconnected"))) = Js.Bool true) as Hhas by (vm_compute; reflexivity).
  assert (validateAndFormatPhoneNumber Sample.parsePhoneNumberFromString Sample.phone
            (Js.field "phoneNumber" [("phoneNumber", Js.Str "254723278526")])
          = Valid "+254723278526" "254" (Some "Unknown") "723278526" "+254723278526") as Hvalid by (vm_compute; reflexivity).
  split; [split; [exact sample_reachable|exact Hhas]|].
  exact (reachable_hasQR_serves MD5.digest Sample.parsePhoneNumberFromString Sample.phone Sample.QRCode_toDataURL
      Sample.connectionLost Sample.connectionClosed Sample.loggedOut Sample.stack_limit _ [("phoneNumber", Js.Str "254723278526")] _ _ _ _ _
           sample_reachable Hhas eq_refl Hvalid).
Defined.

Lemma reachable_status_values_witness :
  reachable MD5.digest Sample.parsePhoneNumberFromString Sample.phone Sample.QRCode_toDataURL
      Sample.connectionLost Sample.connectionClosed Sample.loggedOut Sample.stack_limit
    (run_events MD5.digest Sample.parsePhoneNumberFromString Sample.phone Sample.QRCode_toDataURL
      Sample.connectionLost Sample.connectionClosed Sample.loggedOut Sample.stack_limit
      [EvStartup (Ok tt); EvConnection true (qr_event "2@pairing")]
      (Sample.world Sample.counting "disconnected"))
  /\ 0 <= autoActivationAttempts
            (run_events MD5.digest Sample.parsePhoneNumberFromString Sample.phone Sample.QRCode_toDataURL
      Sample.connectionLost Sample.connectionClosed Sample.loggedOut Sample.stack_limit
      [EvStartup (Ok tt); EvConnection true (qr_event "2@pairing")]
      (Sample.world Sample.counting "disconnected")).
Proof.
  split; [exact sample_reachable|].
  exact (proj2 (reachable_status_values MD5.digest Sample.parsePhoneNumberFromString Sample.phone Sample.QRCode_toDataURL
      Sample.connectionLost Sample.connectionClosed Sample.loggedOut Sample.stack_limit _ sample_reachable)).
Defined.

Lemma qr_then_open_links_qr_code_witness :
  ("2@pairing" <> ""
   /\ Sample.QRCode_toDataURL "2@pairing" = Ok "data:image/png;base64,2@pairing"
   /\ generator_returns Sample.stack_limit (Sample.world Sample.counting "connecting") 3)
  /\ exists j w' data,
      (connection_update MD5.digest Sample.QRCode_toDataURL Sample.connectionLost Sample.connectionClosed Sample.loggedOut Sample.stack_limit
         true (qr_event "2@pairing") ;;
       connection_update MD5.digest Sample.QRCode_toDataURL Sample.connectionLost Sample.connectionClosed Sample.loggedOut Sample.stack_limit
         true open_event) (Sample.world Sample.counting "connecting") = (Ok tt, w')
      /\ pairingCodes w' !! attempt (Sample.world Sample.counting "connecting") j = Some data
      /\ status data = "linked".
Proof.
  assert ("2@pairing" <> "") as Hne by discriminate.
  split; [split; [exact Hne|split; [reflexivity|exact sample_generator_returns]]|].
  destruct (qr_then_open_links_qr_code MD5.digest Sample.QRCode_toDataURL Sample.connectionLost Sample.connectionClosed Sample.loggedOut
              Sample.stack_limit "2@pairing" _ true
              (Sample.world Sample.counting "connecting") 3
              Hne eq_refl sample_generator_returns)
    as (j & w' & data & Hrun & Hlookup & _ & _ & Hlinked & _).
  exists j, w', data. split; [exact Hrun|]. split; [exact Hlookup|exact Hlinked].
Defined.

Lemma status_last_code_witness :
  generator_returns Sample.stack_limit (Sample.world Sample.counting "connecting") 3
  /\ exists w' data,
      connection_update MD5.digest Sample.QRCode_toDataURL Sample.connectionLost Sample.connectionClosed Sample.loggedOut Sample.stack_limit
        true (qr_event "2@pairing") (Sample.world Sample.counting "connecting") = (Ok tt, w')
      /\ Js.field "lastCode" (answer get_status w') = Js.Str (code data)
      /\ pairingCodes w' !! code data = Some data.
Proof.
  split; [exact sample_generator_returns|].
  assert ("2@pairing" <> "") as Hne by discriminate.
  exact (proj1 (status_last_code MD5.digest Sample.parsePhoneNumberFromString Sample.phone Sample.QRCode_toDataURL
      Sample.connectionLost Sample.connectionClosed Sample.loggedOut Sample.stack_limit
                  (Sample.world Sample.counting "connecting") 3 sample_generator_returns)
               "2@pairing" _ Hne eq_refl).
Defined.

Lemma open_then_nothing_removed_witness :
  forallb generates_nothing
    [EvTime 1700000700000;
     EvTimer 0 (Ok tt);
     EvConnection false (mkConnectionUpdate (Some "close") None (Some 408) false);
     EvTime 1700000710000;
     EvTimer 0 (Throw "ECONNREFUSED");
     EvStatus] = true
  /\ exists w1,
      on_open (set_timers [mkTimer 1700000000000 (ExpireCode "AAAA1111" "JW84-UMVD")]
                 (set_pairingCodes Sample.registry
                    (Sample.world Sample.counting "qr_ready"))) = (Ok tt, w1)
      /\ size (pairingCodes w1) = 3%nat
      /\ pairingCodes
           (run_events MD5.digest Sample.parsePhoneNumberFromString Sample.phone
              Sample.QRCode_toDataURL
              Sample.connectionLost Sample.connectionClosed Sample.loggedOut
              Sample.stack_limit
              [EvTime 1700000700000;
               EvTimer 0 (Ok tt);
               EvConnection false
                 (mkConnectionUpdate (Some "close") None (Some 408) false);
               EvTime 1700000710000;
               EvTimer 0 (Throw "ECONNREFUSED");
               EvStatus] w1)
         = pairingCodes w1.
Proof.
  split; [reflexivity|].
  destruct (open_then_nothing_removed
              MD5.digest Sample.parsePhoneNumberFromString Sample.phone
              Sample.QRCode_toDataURL
              Sample.connectionLost Sample.connectionClosed Sample.loggedOut
              Sample.stack_limit
              (set_timers [mkTimer 1700000000000 (ExpireCode "AAAA1111" "JW84-UMVD")]
                 (set_pairingCodes Sample.registry
                    (Sample.world Sample.counting "qr_ready")))
              [EvTime 1700000700000;
               EvTimer 0 (Ok tt);
               EvConnection false
                 (mkConnectionUpdate (Some "close") None (Some 408) false);
               EvTime 1700000710000;
               EvTimer 0 (Throw "ECONNREFUSED");
               EvStatus] eq_refl)
    as (w1 & Hopen & _ & Hsize & Hsame).
  exists w1. split; [exact Hopen|]. split; [|exact Hsame].
  rewrite Hsize. vm_compute. reflexivity.
Defined.


